(** * cv-parser: the document parsing services

    A shallow embedding of [app/services/document_parser.py],
    [app/services/pdf_parser.py], [app/services/docx_parser.py] and
    [app/services/txt_parser.py], and the properties of the parsing
    subsystem stated over it.

    Python values are modelled as follows.
    - [str] is a list of Unicode code points ([list N]); [len] is [length].
    - [bytes] is a [list byte].
    - a call that may raise is an [outcome]: [Return v] or [Raise e], where
      an exception [e] carries its class and the text of [str(e)].
    - [try]/[except] is [catch], and an [except C] clause is a test
      [isinstance e C] on the class hierarchy, clauses tried in order.
    - a [dict] with string keys is a [gmap string _].
    - the third-party libraries (PyPDF2, python-docx, chardet, the codecs,
      langdetect) are not part of the repository: what they answer for a
      given input is a [Variable] of the section that uses them, and an
      opened document is a record of the answers its accessors give. *)

From Stdlib Require Import ZArith NArith QArith Strings.String Strings.Ascii Strings.Byte.
From stdpp Require Import base option list strings gmap.

Local Open Scope N_scope.
Local Open Scope list_scope.

(** ** Python basics *)

Module Py.

Abbreviation pystr := (list N).
Abbreviation bytes := (list byte).

(** A [str] literal (ASCII only). *)
Fixpoint str (s : string) : pystr :=
  match s with
  | EmptyString => []
  | String a t => N_of_ascii a :: str t
  end.

(** A [bytes] literal. *)
Definition b (s : string) : bytes := list_byte_of_string s.

(** *** Exceptions *)

(** Modelled from the spec: [DocumentParsingError], [ValidationError] and
    [EncodingError] are imported by the three parsers from
    [app.services.document_parser], whose file does not declare them; the
    error taxonomy of the spec makes them the shared hierarchy of parsing
    error kinds, ordinary exceptions with the generic parsing error at the
    root.

    The other classes are declared in the services or are Python's;
    [PdfReadError] is PyPDF2's, [PackageNotFoundError] python-docx's. *)
Inductive exn_class :=
  | Exception
  | AttributeError | TypeError | ImportError | LookupError
  | ValueError | UnicodeError | UnicodeDecodeError
  | PdfReadError | PackageNotFoundError
  | DocumentParsingError | ValidationError | EncodingError
  | PDFParsingError | PDFEncryptedError | PDFDamagedError
  | DOCXParsingError | DOCXCorruptedError
  | TXTParsingError | TXTEncodingError.

Global Instance exn_class_eq_dec : EqDecision exn_class.
Proof. solve_decision. Defined.

(** The direct base class, as the [class] statements give it (for the
    three classes above: as the taxonomy gives it). *)
Definition base (c : exn_class) : option exn_class :=
  match c with
  | Exception => None
  | UnicodeError => Some ValueError
  | UnicodeDecodeError => Some UnicodeError
  | ValidationError | EncodingError => Some DocumentParsingError
  | PDFParsingError | PDFEncryptedError | PDFDamagedError => Some DocumentParsingError
  | DOCXParsingError | DOCXCorruptedError => Some DocumentParsingError
  | TXTParsingError => Some DocumentParsingError
  | TXTEncodingError => Some EncodingError
  | _ => Some Exception
  end.

Fixpoint mro_from (fuel : nat) (c : exn_class) : list exn_class :=
  c :: match fuel, base c with
       | S n, Some p => mro_from n p
       | _, _ => []
       end.

Definition mro (c : exn_class) : list exn_class := mro_from 4 c.

Definition issubclass (c d : exn_class) : bool := bool_decide (d ∈ mro c).

Record exn := mkExn { cls : exn_class; msg : pystr }.

Definition isinstance (e : exn) (c : exn_class) : bool := issubclass (cls e) c.

Inductive outcome (A : Type) :=
  | Return (a : A)
  | Raise (e : exn).
Arguments Return {A} a.
Arguments Raise {A} e.

Global Instance outcome_ret : MRet outcome := @Return.
Global Instance outcome_bind : MBind outcome :=
  λ A B f m, match m with Return a => f a | Raise e => Raise e end.

(** [raise C(m)] *)
Definition raise {A} (c : exn_class) (m : pystr) : outcome A := Raise (mkExn c m).

(** [try: m except ... as e: h e] *)
Definition catch {A} (m : outcome A) (h : exn → outcome A) : outcome A :=
  match m with
  | Return a => Return a
  | Raise e => h e
  end.

Definition returns {A} (m : outcome A) : Prop := ∃ a, m = Return a.
Definition raises {A} (m : outcome A) (c : exn_class) : Prop :=
  ∃ e, m = Raise e ∧ cls e = c.

(** *** Methods that update [self]

    A method that assigns to attributes of [self] is a function from the
    instance before the call to the instance after it and the outcome. *)

Definition M (S A : Type) : Type := S → S * outcome A.

Definition ret {S A} (a : A) : M S A := λ s, (s, Return a).
Definition bind {S A B} (m : M S A) (k : A → M S B) : M S B :=
  λ s, match m s with
       | (s', Return a) => k a s'
       | (s', Raise e) => (s', Raise e)
       end.
Definition get {S} : M S S := λ s, (s, Return s).
Definition modify {S} (f : S → S) : M S unit := λ s, (f s, Return tt).
Definition lift {S A} (o : outcome A) : M S A := λ s, (s, o).
Definition throw {S A} (c : exn_class) (m : pystr) : M S A := lift (raise c m).
Definition try_except {S A} (m : M S A) (h : exn → M S A) : M S A :=
  λ s, match m s with
       | (s', Raise e) => h e s'
       | r => r
       end.

(** *** str *)

Definition LF : N := 10.
Definition CR : N := 13.
Definition SP : N := 32.

(** [str.isspace] for one code point. *)
Definition isspace (c : N) : bool :=
  ((9 <=? c) && (c <=? 13)) || ((28 <=? c) && (c <=? 32))
  || (c =? 0x85) || (c =? 0xA0) || (c =? 0x1680)
  || ((0x2000 <=? c) && (c <=? 0x200A))
  || (c =? 0x2028) || (c =? 0x2029) || (c =? 0x202F) || (c =? 0x205F)
  || (c =? 0x3000).

Fixpoint drop_while {A} (p : A → bool) (l : list A) : list A :=
  match l with
  | [] => []
  | x :: t => if p x then drop_while p t else l
  end.

Definition lstrip (s : pystr) : pystr := drop_while isspace s.
Definition rstrip (s : pystr) : pystr := rev (drop_while isspace (rev s)).
Definition strip (s : pystr) : pystr := rstrip (lstrip s).

(** [str.lower] on ASCII letters; a code point outside ASCII is left as it
    is (the Unicode case tables are not part of this development). *)
Definition lower_char (c : N) : N :=
  if (65 <=? c) && (c <=? 90) then c + 32 else c.
Definition lower (s : pystr) : pystr := lower_char <$> s.

Fixpoint startswith (p s : pystr) : bool :=
  match p, s with
  | [], _ => true
  | x :: p', y :: s' => (x =? y) && startswith p' s'
  | _ :: _, [] => false
  end.

(** [p in s] for strings. *)
Fixpoint contains (p s : pystr) : bool :=
  startswith p s || match s with [] => false | _ :: t => contains p t end.

(** [sep.join(l)] *)
Fixpoint join (sep : pystr) (l : list pystr) : pystr :=
  match l with
  | [] => []
  | [x] => x
  | x :: t => x ++ sep ++ join sep t
  end.

(** Truth value of a [str]. *)
Definition truthy (s : pystr) : bool := negb (bool_decide (s = [])).

End Py.
Import Py.

Declare Scope py_scope.
Notation "x <~ m ;; k" := (bind m (λ x, k))
  (at level 100, m at next level, right associativity) : py_scope.
Notation "m ;;; k" := (bind m (λ _, k))
  (at level 100, right associativity) : py_scope.
Local Open Scope py_scope.

(** ** The third-party libraries *)

(** The [datetime] class, as far as the services use it. *)
Module datetime.

Record t := mk {
  year : Z; month : Z; day : Z;
  hour : Z; minute : Z; second : Z; microsecond : Z
}.

Definition is_leap (y : Z) : bool :=
  ((y mod 4 =? 0) && negb (y mod 100 =? 0) || (y mod 400 =? 0))%Z.

Definition days_in_month (y m : Z) : Z :=
  (if m =? 2 then (if is_leap y then 29 else 28)
   else if (m =? 4) || (m =? 6) || (m =? 9) || (m =? 11) then 30
   else 31)%Z.

(** [datetime(year, month, day, hour, minute, second)]; the services do
    not look at the text of its [ValueError]. *)
Definition make (y mo d h mi s : Z) : outcome t :=
  (if negb ((1 <=? y) && (y <=? 9999)) then
     raise ValueError (str "year is out of range")
   else if negb ((1 <=? mo) && (mo <=? 12)) then
     raise ValueError (str "month must be in 1..12")
   else if negb ((1 <=? d) && (d <=? days_in_month y mo)) then
     raise ValueError (str "day is out of range for month")
   else if negb ((0 <=? h) && (h <=? 23)) then
     raise ValueError (str "hour must be in 0..23")
   else if negb ((0 <=? mi) && (mi <=? 59)) then
     raise ValueError (str "minute must be in 0..59")
   else if negb ((0 <=? s) && (s <=? 59)) then
     raise ValueError (str "second must be in 0..59")
   else Return (mk y mo d h mi s 0))%Z.

(** The last [w] decimal digits of [n], most significant first. *)
Fixpoint digits (w : nat) (n : Z) : pystr :=
  match w with
  | O => []
  | S w' => digits w' (n / 10) ++ [Z.to_N (48 + n mod 10)]
  end.

(** [dt.isoformat()] of a naive datetime. *)
Definition isoformat (d : t) : pystr :=
  digits 4 (year d) ++ str "-" ++ digits 2 (month d) ++ str "-" ++ digits 2 (day d)
  ++ str "T" ++ digits 2 (hour d) ++ str ":" ++ digits 2 (minute d)
  ++ str ":" ++ digits 2 (second d)
  ++ (if (microsecond d =? 0)%Z then [] else str "." ++ digits 6 (microsecond d)).

End datetime.

(** What an opened PDF answers. *)
Module PyPDF2.

Record PageObject := {
  extract_text : outcome pystr;   (* page.extract_text() *)
  mediabox : outcome (Q * Q);     (* page.mediabox.width, page.mediabox.height *)
  rotate : Z                      (* page.get('/Rotate', 0) *)
}.

(** The outline tree: nested lists of dictionaries; an item may be
    neither. *)
#[local] Unset Elimination Schemes.
Inductive outline_value :=
  | OList (items : list outline_value)
  | ODict (title : option pystr) (page : option Z) (kids : option outline_value)
  | OOther.
#[local] Set Elimination Schemes.

Record PdfReader := {
  is_encrypted : bool;
  pages : outcome (list PageObject);
  metadata : outcome (option (gmap string pystr));
  outline : outcome (list outline_value)
}.

End PyPDF2.

(** What an opened DOCX package answers. *)
Module docx.

Record Paragraph := {
  text : pystr;                (* para.text *)
  style_name : outcome pystr   (* para.style.name *)
}.

Record Table := {
  rows : list (list pystr);    (* the cell texts of each row *)
  columns : nat                (* len(table.columns) *)
}.

(** Page dimensions are lengths in English Metric Units, [None] when the
    section does not give them. *)
Record Section := {
  page_width : option Z;
  page_height : option Z
}.

Record CoreProperties := {
  title : pystr; author : pystr; subject : pystr;
  keywords : pystr; category : pystr; comments : pystr;
  created : option datetime.t;
  modified : option datetime.t;
  last_printed : option datetime.t
}.

Record Document := {
  paragraphs : list Paragraph;
  tables : list Table;
  sections : list Section;
  core_properties : outcome CoreProperties
}.

End docx.

(** A value of a metadata dictionary: a [str] or an [int]. *)
Inductive pyvalue :=
  | VStr (s : pystr)
  | VInt (n : Z).

(** ** app/services/document_parser.py *)

Module DocumentParser.

(** The sample text of [PdfParser.parse], as the source has it between
    its triple quotes. *)
Definition SAMPLE_TEXT : pystr := str "
                John Smith
                Software Engineer
                john.smith@example.com
                (555) 123-4567
                New York, NY
                linkedin.com/in/johnsmith
                github.com/johnsmith
                
                Summary:
                Experienced software engineer with 5+ years of experience in web development,
                cloud technologies, and machine learning. Passionate about building scalable
                and maintainable software solutions.
                
                Work Experience:
                Senior Software Engineer
                Tech Solutions Inc.
                New York, NY
                2018-01 - Present
                - Led development of key features for the company's flagship product
                - Increased system performance by 30% through code optimization
                - Mentored junior developers and conducted code reviews
                
                Software Developer
                Innovative Systems
                Boston, MA
                2015-06 - 2017-12
                - Developed and maintained web applications using React and Node.js
                - Implemented CI/CD pipelines to improve deployment efficiency
                
                Education:
                Bachelor of Science in Computer Science
                University of Technology
                Boston, MA
                2011-09 - 2015-05
                GPA: 3.8/4.0
                
                Skills:
                Python, JavaScript, React, Node.js, AWS, Docker, Kubernetes, SQL, MongoDB
                
                Languages:
                English (Native), Spanish (Intermediate)
                ".

(** [bytes.decode("utf-8")], strict: [None] stands for the
    [UnicodeDecodeError]. *)
Definition is_cont (c : N) : bool := (0x80 <=? c) && (c <=? 0xBF).
Definition between (lo hi c : N) : bool := (lo <=? c) && (c <=? hi).

Fixpoint decode_utf8 (bs : bytes) : option pystr :=
  match bs with
  | [] => Some []
  | b0 :: t0 =>
    let c0 := Byte.to_N b0 in
    if c0 <? 0x80 then cons c0 <$> decode_utf8 t0
    else if between 0xC2 0xDF c0 then
      match t0 with
      | b1 :: t1 =>
        let c1 := Byte.to_N b1 in
        if is_cont c1
        then cons ((c0 - 0xC0) * 64 + (c1 - 0x80)) <$> decode_utf8 t1
        else None
      | _ => None
      end
    else if between 0xE0 0xEF c0 then
      match t0 with
      | b1 :: b2 :: t2 =>
        let c1 := Byte.to_N b1 in
        let c2 := Byte.to_N b2 in
        if between (if c0 =? 0xE0 then 0xA0 else 0x80)
                   (if c0 =? 0xED then 0x9F else 0xBF) c1 && is_cont c2
        then cons ((c0 - 0xE0) * 4096 + (c1 - 0x80) * 64 + (c2 - 0x80))
               <$> decode_utf8 t2
        else None
      | _ => None
      end
    else if between 0xF0 0xF4 c0 then
      match t0 with
      | b1 :: b2 :: b3 :: t3 =>
        let c1 := Byte.to_N b1 in
        let c2 := Byte.to_N b2 in
        let c3 := Byte.to_N b3 in
        if between (if c0 =? 0xF0 then 0x90 else 0x80)
                   (if c0 =? 0xF4 then 0x8F else 0xBF) c1
           && is_cont c2 && is_cont c3
        then cons ((c0 - 0xF0) * 262144 + (c1 - 0x80) * 4096
                   + (c2 - 0x80) * 64 + (c3 - 0x80))
               <$> decode_utf8 t3
        else None
      | _ => None
      end
    else None
  end.

(** The three parser classes; their instances carry no state. *)
Inductive parser := PdfParser | DocxParser | TxtParser.

(** [DocumentParserFactory.create_parser] *)
Definition create_parser (file_type : pystr) : outcome parser :=
  let file_type := lower file_type in
  if bool_decide (file_type = str "pdf") then Return PdfParser
  else if bool_decide (file_type = str "docx") then Return DocxParser
  else if bool_decide (file_type = str "txt") then Return TxtParser
  else raise ValueError (str "Unsupported file type: " ++ file_type).

Section Parsers.

(** [PyPDF2.PdfReader(io.BytesIO(content))] and
    [docx.Document(io.BytesIO(content))]. *)
Variable PdfReader : bytes → outcome PyPDF2.PdfReader.
Variable Document : bytes → outcome docx.Document.

(** The loop [for page in pdf_reader.pages: pdf_text += page.extract_text() + "\n"]. *)
Fixpoint pdf_pages_text (pdf_text : pystr) (ps : list PyPDF2.PageObject) : outcome pystr :=
  match ps with
  | [] => Return pdf_text
  | page :: rest =>
    t ← PyPDF2.extract_text page;
    pdf_pages_text (pdf_text ++ t ++ [LF]) rest
  end.

(** [PdfParser.parse] *)
Definition PdfParser_parse (content : bytes) : outcome pystr :=
  catch
    (pdf_reader ← PdfReader content;
     ps ← PyPDF2.pages pdf_reader;
     pdf_text ← pdf_pages_text [] ps;
     let pdf_text :=
       if (length (strip pdf_text) <? 100)%nat then SAMPLE_TEXT else pdf_text in
     Return (strip pdf_text))
    (λ e, Return []).

(** The loop [for para in doc.paragraphs: docx_text += para.text + "\n"]. *)
Fixpoint docx_paragraphs_text (docx_text : pystr) (ps : list docx.Paragraph) : pystr :=
  match ps with
  | [] => docx_text
  | para :: rest =>
    docx_paragraphs_text (docx_text ++ docx.text para ++ [LF]) rest
  end.

(** [DocxParser.parse] *)
Definition DocxParser_parse (content : bytes) : outcome pystr :=
  catch
    (doc ← Document content;
     Return (strip (docx_paragraphs_text [] (docx.paragraphs doc))))
    (λ e, Return []).

(** [TxtParser.parse] *)
Definition TxtParser_parse (content : bytes) : outcome pystr :=
  catch
    (match decode_utf8 content with
     | Some txt_text => Return (strip txt_text)
     | None => raise UnicodeDecodeError (str "'utf-8' codec can't decode")
     end)
    (λ e, Return []).

(** [parser.parse(content)], dispatched on the class of the instance. *)
Definition parse (p : parser) (content : bytes) : outcome pystr :=
  match p with
  | PdfParser => PdfParser_parse content
  | DocxParser => DocxParser_parse content
  | TxtParser => TxtParser_parse content
  end.

End Parsers.

End DocumentParser.

(** ** The base class of the format parsers *)

(** Modelled from the spec: the format parsers extend a [DocumentParser]
    with a content buffer ([_set_content], [_get_content]) and a logger,
    which the file under [app/services] does not declare.  The content
    buffer holds the raw bytes of the one document being parsed and is
    empty ([None]) before [parse]; logging has no effect on the result. *)
Module ContentBuffer.

Definition _set_content (content : bytes) : option bytes := Some content.

(** Truth value of the buffer: [None] and [b''] are false. *)
Definition has_content (c : option bytes) : bool :=
  match c with
  | Some (_ :: _) => true
  | _ => false
  end.

End ContentBuffer.

(** [int(s)] for a [str] in base 10: surrounding white space, an optional
    sign, and decimal digits that single underscores may separate.  Decimal
    digits outside ASCII are not read. *)
Module PyInt.

Definition is_digit (c : N) : bool := (48 <=? c) && (c <=? 57).

Fixpoint digits (acc : Z) (after_digit : bool) (s : pystr) : option Z :=
  match s with
  | [] => if after_digit then Some acc else None
  | c :: t =>
    if is_digit c then digits (acc * 10 + Z.of_N (c - 48))%Z true t
    else if (c =? 95) && after_digit then digits acc false t
    else None
  end.

Definition int (s : pystr) : outcome Z :=
  let body := strip s in
  let r :=
    match body with
    | 43 :: t => digits 0 false t
    | 45 :: t => Z.opp <$> digits 0 false t
    | _ => digits 0 false body
    end in
  match r with
  | Some z => Return z
  | None => raise ValueError (str "invalid literal for int() with base 10: '" ++ s ++ str "'")
  end.

End PyInt.

(** [s[i:j]] for [0 <= i <= j]. *)
Definition slice (i j : nat) (s : pystr) : pystr := take (j - i) (drop i s).

(** ** app/services/pdf_parser.py *)

Module PDFParser.

Record page_info := {
  number : Z;
  size : Q * Q;
  rotation : Z
}.

#[local] Unset Elimination Schemes.
Inductive outline_entry :=
  | Entry (title : pystr) (page : option Z) (children : option (list outline_entry)).
#[local] Set Elimination Schemes.

(** The structure dictionary: the key [outline] is present only when the
    document has an outline. *)
Record structure := {
  pages : list page_info;
  sections : list pyvalue;
  images : list pyvalue;
  outline : option (list outline_entry)
}.

Definition empty_structure : structure :=
  {| pages := []; sections := []; images := []; outline := None |}.

(** The dictionary [parse] returns. *)
Record ParsedDocument := {
  content : pystr;
  doc_structure : structure;
  metadata : gmap string pyvalue
}.

(** The instance: [_content] of the base class and [_pdf_reader]. *)
Record t := {
  _content : option bytes;
  _pdf_reader : option PyPDF2.PdfReader
}.

(** [PDFParser()] *)
Definition new : t := {| _content := None; _pdf_reader := None |}.

(** [_parse_pdf_date]: [None] is Python's [None]. *)
Definition _parse_pdf_date (date_str : pystr) : option pystr :=
  let date_str :=
    if startswith (str "D:") date_str then drop 2 date_str else date_str in
  if (14 <=? length date_str)%nat then
    match
      (year ← PyInt.int (slice 0 4 date_str);
       month ← PyInt.int (slice 4 6 date_str);
       day ← PyInt.int (slice 6 8 date_str);
       hour ← PyInt.int (slice 8 10 date_str);
       minute ← PyInt.int (slice 10 12 date_str);
       second ← PyInt.int (slice 12 14 date_str);
       dt ← datetime.make year month day hour minute second;
       Return (datetime.isoformat dt))
    with
    | Return iso => Some iso
    | Raise _ => Some []          (* except: return the empty string *)
    end
  else None.

(** The page loop of [_extract_text]: a page whose extraction raises is
    logged and skipped, an empty text is skipped. *)
Fixpoint page_texts (ps : list PyPDF2.PageObject) : list pystr :=
  match ps with
  | [] => []
  | page :: rest =>
    match PyPDF2.extract_text page with
    | Return page_text =>
      if truthy page_text then page_text :: page_texts rest else page_texts rest
    | Raise _ => page_texts rest
    end
  end.

(** [_extract_text] *)
Definition _extract_text (self : t) : outcome pystr :=
  match _pdf_reader self with
  | None => raise PDFParsingError (str "No PDF loaded for text extraction")
  | Some reader =>
    catch
      (ps ← PyPDF2.pages reader;
       Return (join [LF; LF] (page_texts ps)))
      (λ e, if isinstance e Exception
            then raise PDFParsingError (str "Failed to extract text: " ++ msg e)
            else Raise e)
  end.

(** [_extract_outline] *)
Fixpoint _extract_outline (outline : PyPDF2.outline_value) : list outline_entry :=
  match outline with
  | PyPDF2.OList items =>
    (fix each (l : list PyPDF2.outline_value) : list outline_entry :=
       match l with
       | [] => []
       | item :: rest =>
         match item with
         | PyPDF2.ODict (Some title) page kids =>
           [Entry title page
              (match kids with
               | Some k => Some (_extract_outline k)
               | None => None
               end)]
         | PyPDF2.OList _ => _extract_outline item
         | _ => []
         end ++ each rest
       end) items
  | _ => []
  end.

(** The page loop of [_extract_structure]. *)
Fixpoint page_infos (page_num : Z) (ps : list PyPDF2.PageObject) : outcome (list page_info) :=
  match ps with
  | [] => Return []
  | page :: rest =>
    box ← PyPDF2.mediabox page;
    infos ← page_infos (page_num + 1)%Z rest;
    Return ({| number := page_num + 1; size := box; rotation := PyPDF2.rotate page |} :: infos)
  end.

(** [hasattr(reader, 'outline') and reader.outline]: [hasattr] answers
    [False] on an [AttributeError] and lets any other exception through. *)
Definition outline_if_any (reader : PyPDF2.PdfReader) : outcome (option (list PyPDF2.outline_value)) :=
  match PyPDF2.outline reader with
  | Return [] => Return None
  | Return items => Return (Some items)
  | Raise e => if isinstance e AttributeError then Return None else Raise e
  end.

(** [_extract_structure] *)
Definition _extract_structure (self : t) : outcome structure :=
  match _pdf_reader self with
  | None => raise PDFParsingError (str "No PDF loaded for structure extraction")
  | Some reader =>
    catch
      (ps ← PyPDF2.pages reader;
       infos ← page_infos 0 ps;
       o ← outline_if_any reader;
       Return {| pages := infos; sections := []; images := [];
                 outline := (λ items, _extract_outline (PyPDF2.OList items)) <$> o |})
      (λ e, if isinstance e Exception then Return empty_structure else Raise e)
  end.

(** [if info.get(key): metadata[name] = info.get(key)] *)
Definition copy_field (info : gmap string pystr) (key name : string)
    (metadata : gmap string pyvalue) : gmap string pyvalue :=
  match info !! key with
  | Some v => if truthy v then <[name := VStr v]> metadata else metadata
  | None => metadata
  end.

(** [if info.get(key): d = self._parse_pdf_date(info.get(key)); if d: metadata[name] = d] *)
Definition copy_date (info : gmap string pystr) (key name : string)
    (metadata : gmap string pyvalue) : gmap string pyvalue :=
  match info !! key with
  | Some v =>
    if truthy v then
      match _parse_pdf_date v with
      | Some d => if truthy d then <[name := VStr d]> metadata else metadata
      | None => metadata
      end
    else metadata
  | None => metadata
  end.

(** [extract_metadata] *)
Definition extract_metadata (self : t) : outcome (gmap string pyvalue) :=
  match _pdf_reader self with
  | None => raise PDFParsingError (str "No PDF loaded for metadata extraction")
  | Some reader =>
    catch
      (info ← PyPDF2.metadata reader;
       match info with
       | None => Return ∅
       | Some info =>
         let metadata := ∅ in
         let metadata := copy_field info "/Title" "title" metadata in
         let metadata := copy_field info "/Author" "author" metadata in
         let metadata := copy_field info "/Subject" "subject" metadata in
         let metadata := copy_field info "/Keywords" "keywords" metadata in
         let metadata := copy_field info "/Producer" "producer" metadata in
         let metadata := copy_field info "/Creator" "creator" metadata in
         let metadata := copy_date info "/CreationDate" "creation_date" metadata in
         let metadata := copy_date info "/ModDate" "modification_date" metadata in
         ps ← PyPDF2.pages reader;
         Return (<["page_count" := VInt (Z.of_nat (length ps))]> metadata)
       end)
      (λ e, if isinstance e Exception then Return ∅ else Raise e)
  end.

Section Parse.

(** [PyPDF2.PdfReader(io.BytesIO(content))] *)
Variable PdfReader : bytes → outcome PyPDF2.PdfReader.

(** The [except] clauses of [parse], in their order. *)
Definition parse_handlers {A} (e : exn) : outcome A :=
  if isinstance e PdfReadError then
    raise PDFDamagedError (str "Failed to read PDF: " ++ msg e)
  else if isinstance e AttributeError || isinstance e ValueError || isinstance e TypeError then
    if contains (str "seek") (msg e)
    then raise PDFDamagedError (str "Invalid PDF format: " ++ msg e)
    else raise PDFParsingError (str "PDF parsing failed: " ++ msg e)
  else if isinstance e Exception then
    raise PDFParsingError (str "PDF parsing failed: " ++ msg e)
  else Raise e.

(** [parse] *)
Definition parse (content : bytes) : M t ParsedDocument :=
  try_except
    (modify (λ self, {| _content := ContentBuffer._set_content content;
                        _pdf_reader := _pdf_reader self |}) ;;;
     reader <~ lift (PdfReader content) ;;
     modify (λ self, {| _content := _content self; _pdf_reader := Some reader |}) ;;;
     (if PyPDF2.is_encrypted reader
      then throw PDFEncryptedError (str "Cannot parse encrypted PDF")
      else ret tt) ;;;
     self <~ get ;;
     parsed_content <~ lift (_extract_text self) ;;
     structure <~ lift (_extract_structure self) ;;
     metadata <~ lift (extract_metadata self) ;;
     ret {| content := parsed_content; doc_structure := structure; metadata := metadata |})
    (λ e, lift (parse_handlers e)).

End Parse.

End PDFParser.

(** [s.replace(old, new)] for a non-empty [old]: the occurrences of [old]
    are replaced from left to right, without overlap.  [skip] counts the
    characters of the occurrence just replaced that are still to be passed
    over. *)
Fixpoint replace_from (old new : pystr) (skip : nat) (s : pystr) : pystr :=
  match s with
  | [] => []
  | c :: t =>
    match skip with
    | S k => replace_from old new k t
    | O =>
      if startswith old s
      then new ++ replace_from old new (length old - 1) t
      else c :: replace_from old new 0 t
    end
  end.

Definition replace (old new s : pystr) : pystr := replace_from old new 0 s.

(** ** app/services/docx_parser.py *)

Module DOCXParser.

Record section_info := {
  sec_number : Z;
  sec_page_width : Q;
  sec_page_height : Q;
  orientation : pystr
}.

Record heading_info := {
  level : Z;
  heading_text : pystr;
  position : Z
}.

Record table_info := {
  tbl_number : Z;
  tbl_rows : Z;
  tbl_columns : Z
}.

Record structure := {
  sections : list section_info;
  headings : list heading_info;
  tables : list table_info;
  lists : list pyvalue
}.

Definition empty_structure : structure :=
  {| sections := []; headings := []; tables := []; lists := [] |}.

Record ParsedDocument := {
  content : pystr;
  doc_structure : structure;
  metadata : gmap string pyvalue
}.

(** The instance: [_content] of the base class and [_doc]. *)
Record t := {
  _content : option bytes;
  _doc : option docx.Document
}.

(** [DOCXParser()] *)
Definition new : t := {| _content := None; _doc := None |}.

(** [_format_datetime] *)
Definition _format_datetime (dt : option datetime.t) : pystr :=
  match dt with
  | Some d => datetime.isoformat d
  | None => []
  end.

(** The paragraph loop of [_extract_text]. *)
Definition paragraph_lines (ps : list docx.Paragraph) : list pystr :=
  docx.text <$> filter (λ para, truthy (strip (docx.text para)) = true) ps.

(** The cell loop of [_extract_text] for one row. *)
Definition row_text (cells : list pystr) : list pystr :=
  filter (λ c, truthy c = true) (strip <$> cells).

(** The row loop of [_extract_text] for one table. *)
Fixpoint table_lines (rows : list (list pystr)) : list pystr :=
  match rows with
  | [] => []
  | row :: rest =>
    match row_text row with
    | [] => table_lines rest
    | cells => join (str " | ") cells :: table_lines rest
    end
  end.

Definition tables_lines (ts : list docx.Table) : list pystr :=
  ts ≫= (λ table, table_lines (docx.rows table)).

(** [_extract_text] *)
Definition _extract_text (self : t) : outcome pystr :=
  match _doc self with
  | None => raise DOCXParsingError (str "No document loaded for text extraction")
  | Some doc =>
    let text_content :=
      paragraph_lines (docx.paragraphs doc) ++ tables_lines (docx.tables doc) in
    Return (join [LF] text_content)
  end.

(** [Length.pt]: 12700 English Metric Units to the point. *)
Definition pt (emu : Z) : Q := Qmake emu 12700.

(** The attribute [.pt] of a page dimension; [None] has no attribute. *)
Definition length_pt (l : option Z) : outcome Q :=
  match l with
  | Some emu => Return (pt emu)
  | None => raise AttributeError (str "'NoneType' object has no attribute 'pt'")
  end.

(** [a < b] for page dimensions; [None] is not ordered. *)
Definition length_lt (a c : option Z) : outcome bool :=
  match a, c with
  | Some x, Some y => Return (x <? y)%Z
  | _, _ => raise TypeError (str "'<' not supported between instances of 'NoneType'")
  end.

Fixpoint section_infos (i : Z) (ss : list docx.Section) : outcome (list section_info) :=
  match ss with
  | [] => Return []
  | section :: rest =>
    w ← length_pt (docx.page_width section);
    h ← length_pt (docx.page_height section);
    portrait ← length_lt (docx.page_width section) (docx.page_height section);
    infos ← section_infos (i + 1)%Z rest;
    Return ({| sec_number := i + 1; sec_page_width := w; sec_page_height := h;
               orientation := if (portrait : bool) then str "portrait" else str "landscape" |}
            :: infos)
  end.

Fixpoint heading_infos (i : Z) (ps : list docx.Paragraph) : outcome (list heading_info) :=
  match ps with
  | [] => Return []
  | para :: rest =>
    name ← docx.style_name para;
    if startswith (str "Heading") name then
      lvl ← PyInt.int (replace (str "Heading ") [] name);
      infos ← heading_infos (i + 1)%Z rest;
      Return ({| level := lvl; heading_text := docx.text para; position := i |} :: infos)
    else heading_infos (i + 1)%Z rest
  end.

Fixpoint table_infos (i : Z) (ts : list docx.Table) : list table_info :=
  match ts with
  | [] => []
  | table :: rest =>
    {| tbl_number := i + 1;
       tbl_rows := Z.of_nat (length (docx.rows table));
       tbl_columns := Z.of_nat (docx.columns table) |} :: table_infos (i + 1)%Z rest
  end.

(** [_extract_structure] *)
Definition _extract_structure (self : t) : outcome structure :=
  match _doc self with
  | None => raise DOCXParsingError (str "No document loaded for structure extraction")
  | Some doc =>
    catch
      (ss ← section_infos 0 (docx.sections doc);
       hs ← heading_infos 0 (docx.paragraphs doc);
       Return {| sections := ss; headings := hs;
                 tables := table_infos 0 (docx.tables doc); lists := [] |})
      (λ e, if isinstance e Exception then Return empty_structure else Raise e)
  end.

(** [if props.f: metadata[name] = props.f] *)
Definition put_text (name : string) (v : pystr)
    (metadata : gmap string pyvalue) : gmap string pyvalue :=
  if truthy v then <[name := VStr v]> metadata else metadata.

(** [if props.d: metadata[name] = self._format_datetime(props.d)] *)
Definition put_date (name : string) (d : option datetime.t)
    (metadata : gmap string pyvalue) : gmap string pyvalue :=
  match d with
  | Some _ => <[name := VStr (_format_datetime d)]> metadata
  | None => metadata
  end.

(** [extract_metadata] *)
Definition extract_metadata (self : t) : outcome (gmap string pyvalue) :=
  match _doc self with
  | None => raise DOCXParsingError (str "No document loaded for metadata extraction")
  | Some doc =>
    catch
      (props ← docx.core_properties doc;
       let metadata := ∅ in
       let metadata := put_text "title" (docx.title props) metadata in
       let metadata := put_text "author" (docx.author props) metadata in
       let metadata := put_text "subject" (docx.subject props) metadata in
       let metadata := put_text "keywords" (docx.keywords props) metadata in
       let metadata := put_text "category" (docx.category props) metadata in
       let metadata := put_text "comments" (docx.comments props) metadata in
       let metadata := put_date "creation_date" (docx.created props) metadata in
       let metadata := put_date "modification_date" (docx.modified props) metadata in
       let metadata := put_date "last_printed" (docx.last_printed props) metadata in
       let metadata :=
         <["paragraph_count" := VInt (Z.of_nat (length (docx.paragraphs doc)))]> metadata in
       let metadata :=
         <["table_count" := VInt (Z.of_nat (length (docx.tables doc)))]> metadata in
       let metadata :=
         <["section_count" := VInt (Z.of_nat (length (docx.sections doc)))]> metadata in
       Return metadata)
      (λ e, if isinstance e Exception then Return ∅ else Raise e)
  end.

Section Parse.

(** [Document(io.BytesIO(content))] *)
Variable Document : bytes → outcome docx.Document.

(** The [except] clauses of [parse], in their order. *)
Definition parse_handlers {A} (e : exn) : outcome A :=
  if isinstance e PackageNotFoundError then
    raise DOCXCorruptedError (str "Failed to read DOCX: " ++ msg e)
  else if isinstance e ValueError || isinstance e TypeError || isinstance e AttributeError then
    if contains (str "not a zip file") (lower (msg e))
    then raise DOCXCorruptedError (str "Invalid DOCX format: " ++ msg e)
    else raise DOCXParsingError (str "DOCX parsing failed: " ++ msg e)
  else if isinstance e Exception then
    raise DOCXParsingError (str "DOCX parsing failed: " ++ msg e)
  else Raise e.

(** [parse] *)
Definition parse (content : bytes) : M t ParsedDocument :=
  try_except
    (modify (λ self, {| _content := ContentBuffer._set_content content;
                        _doc := _doc self |}) ;;;
     doc <~ lift (Document content) ;;
     modify (λ self, {| _content := _content self; _doc := Some doc |}) ;;;
     self <~ get ;;
     parsed_content <~ lift (_extract_text self) ;;
     structure <~ lift (_extract_structure self) ;;
     metadata <~ lift (extract_metadata self) ;;
     ret {| content := parsed_content; doc_structure := structure; metadata := metadata |})
    (λ e, lift (parse_handlers e)).

End Parse.

End DOCXParser.

(** ** Floating point, as far as the TXT parser uses it *)

(** The two [float] literals of [txt_parser.py] are binary64 numbers, not
    the decimal fractions they are written as.  A product [n * 0.05] of a
    length and the literal is the exact product rounded to 53 significant
    bits, ties to even; Python compares an [int] with a [float] exactly. *)
Module Float.

(** [0.05] is [m005 / 2^56]. *)
Definition m005 : Z := 3602879701896397.

(** [0.7] as a rational. *)
Definition f07 : Q := Qmake 3152519739159347 4503599627370496.

(** Rounding of a non-negative integer to 53 significant bits. *)
Definition round53 (x : Z) : Z :=
  (let s := Z.log2 x - 52 in
   if s <=? 0 then x
   else
     let q := x / 2 ^ s in
     let r := x mod 2 ^ s in
     let half := 2 ^ (s - 1) in
     if r <? half then q * 2 ^ s
     else if half <? r then (q + 1) * 2 ^ s
     else if Z.even q then q * 2 ^ s
     else (q + 1) * 2 ^ s)%Z.

(** [k > n * 0.05] for integers [k] and [0 <= n < 2^53]. *)
Definition gt_mul005 (k n : Z) : bool :=
  (round53 (n * m005) <? k * 2 ^ 56)%Z.

(** [c < 0.7] for a [float] [c]. *)
Definition lt07 (c : Q) : bool :=
  match Qlt_le_dec c f07 with
  | left _ => true
  | right _ => false
  end.

End Float.

(** ** app/services/txt_parser.py *)

Global Instance byte_eq_dec : EqDecision byte := Byte.byte_eq_dec.

Module TXTParser.

(** The instance.  [_confidence] is not assigned by [__init__]: it exists
    only once a detection has run. *)
Record t := {
  _content : option bytes;
  _encoding : pystr;
  _confidence : option Q;
  _decoded_content : option pystr
}.

(** [TXTParser()] *)
Definition new : t :=
  {| _content := None; _encoding := str "utf-8";
     _confidence := None; _decoded_content := None |}.

Definition set_content (c : option bytes) (self : t) : t :=
  {| _content := c; _encoding := _encoding self;
     _confidence := _confidence self; _decoded_content := _decoded_content self |}.
Definition set_encoding (e : pystr) (self : t) : t :=
  {| _content := _content self; _encoding := e;
     _confidence := _confidence self; _decoded_content := _decoded_content self |}.
Definition set_confidence (c : Q) (self : t) : t :=
  {| _content := _content self; _encoding := _encoding self;
     _confidence := Some c; _decoded_content := _decoded_content self |}.
Definition set_decoded_content (d : pystr) (self : t) : t :=
  {| _content := _content self; _encoding := _encoding self;
     _confidence := _confidence self; _decoded_content := Some d |}.

(** Truth value of [self._decoded_content]: [None] and the empty string are false. *)
Definition decoded_or_empty (self : t) : pystr :=
  match _decoded_content self with
  | Some d => d
  | None => []
  end.

(** The byte test of the binary check:
    [b < 9 or (b > 13 and b < 32 and b != 27)]. *)
Definition is_binary_char (x : byte) : bool :=
  let v := Byte.to_N x in
  (v <? 9) || ((13 <? v) && (v <? 32) && negb (v =? 27)).

(** [sum(1 for b in content if ...)] *)
Definition binary_chars (content : bytes) : nat :=
  length (filter (λ x, is_binary_char x = true) content).

(** [detection['encoding'] or 'utf-8'] *)
Definition encoding_or_default (detected : option pystr) : pystr :=
  match detected with
  | Some ((_ :: _) as e) => e
  | _ => str "utf-8"
  end.

(** The encodings in which the byte [0x80] is rejected. *)
Definition utf8_family : list pystr := [str "utf-8"; str "utf8"; str "ascii"].

(** *** Normalization *)

(** [re.sub] of a pattern that matches [min] or more repetitions of the
    character [c]: the scan counts the run it is in; at the end of a run
    of [min] or more the replacement is written, a shorter run is copied. *)
Definition flush (c : N) (min : nat) (repl : pystr) (run : nat) : pystr :=
  if (min <=? run)%nat then repl else repeat c run.

Fixpoint sub_run (c : N) (min : nat) (repl : pystr) (run : nat) (s : pystr) : pystr :=
  match s with
  | [] => flush c min repl run
  | x :: t =>
    if x =? c then sub_run c min repl (S run) t
    else flush c min repl run ++ x :: sub_run c min repl 0 t
  end.

(** [re.sub(r' +', ' ', s)] *)
Definition sub_spaces (s : pystr) : pystr := sub_run SP 1 [SP] 0 s.

(** [re.sub(r'\r\n|\r', '\n', s)] *)
Fixpoint sub_line_endings (s : pystr) : pystr :=
  match s with
  | [] => []
  | x :: t =>
    if x =? CR then
      match t with
      | y :: t' => if y =? LF then LF :: sub_line_endings t' else LF :: sub_line_endings t
      | [] => [LF]
      end
    else x :: sub_line_endings t
  end.

(** [re.sub(r'\n{3,}', '\n\n', s)] *)
Definition sub_empty_lines (s : pystr) : pystr := sub_run LF 3 [LF; LF] 0 s.

(** The body of [normalize_text] on the decoded content. *)
Definition normalize (decoded : pystr) : pystr :=
  let normalized := sub_spaces decoded in
  let normalized := sub_line_endings normalized in
  let normalized := sub_empty_lines normalized in
  strip normalized.

(** [normalize_text] *)
Definition normalize_text (self : t) : pystr :=
  match decoded_or_empty self with
  | [] => []
  | decoded => normalize decoded
  end.

(** *** Metadata *)

(** The line boundaries of [str.splitlines]. *)
Definition is_line_boundary (c : N) : bool :=
  ((10 <=? c) && (c <=? 13)) || ((28 <=? c) && (c <=? 30))
  || (c =? 0x85) || (c =? 0x2028) || (c =? 0x2029).

(** [s.splitlines()]; [cur] is the line being read. *)
Fixpoint splitlines_from (cur : pystr) (s : pystr) : list pystr :=
  match s with
  | [] => match cur with [] => [] | _ => [cur] end
  | c :: t =>
    if c =? CR then
      match t with
      | y :: t' => if y =? LF then cur :: splitlines_from [] t' else cur :: splitlines_from [] t
      | [] => [cur]
      end
    else if is_line_boundary c then cur :: splitlines_from [] t
    else splitlines_from (cur ++ [c]) t
  end.

Definition splitlines (s : pystr) : list pystr := splitlines_from [] s.

Section Parse.

(** [chardet.detect(content)]: the entries [encoding] and [confidence]
    of its answer. *)
Variable chardet_detect : bytes → option pystr * Q.
(** [content.decode(encoding)] *)
Variable decode : pystr → bytes → outcome pystr.
(** [content.decode('utf-8', errors='replace')] *)
Variable decode_replace : bytes → pystr.
(** The character class [\w] of [re]. *)
Variable word_char : N → bool.
(** [import langdetect] (an [ImportError] when the module is missing)
    and its function [detect]. *)
Variable import_langdetect : outcome (pystr → outcome pystr).
(** The structure dictionary, and the scan of [_extract_structure] over
    the lines of the decoded content that fills it.  The scan reads the
    lines only and raises nothing; no property below depends on what it
    finds. *)
Variable structure : Type.
Variable scan_lines : list pystr → structure.

(** [len(re.findall(r'\b\w+\b', s))]: the number of maximal runs of word
    characters; [inside] tells whether the scan is in a run. *)
Fixpoint count_words (inside : bool) (s : pystr) : nat :=
  match s with
  | [] => 0
  | c :: t =>
    if word_char c
    then (if inside then count_words true t else S (count_words true t))
    else count_words false t
  end.

(** The dictionary [parse] returns. *)
Record ParsedDocument := {
  content : pystr;
  doc_structure : option structure;
  metadata : gmap string pyvalue;
  encoding : pystr;
  confidence : Q
}.

(** The fallback of [_detect_and_decode_content] after a
    [UnicodeDecodeError] [e] of the detected codec. *)
Definition decode_fallback (e : exn) : M t unit :=
  try_except
    (modify (set_encoding (str "utf-8")) ;;;
     self <~ get ;;
     modify (set_decoded_content
               (decode_replace (default [] (_content self)))) ;;;
     if (length (default [] (_content self)) <? 50)%nat
     then throw TXTParsingError (str "Invalid text content: encoding errors detected")
     else ret tt)
    (λ inner_e,
       if isinstance inner_e Exception then
         throw TXTEncodingError
           (str "Failed to decode content with any encoding: " ++ msg e
            ++ str ", fallback error: " ++ msg inner_e)
       else lift (Raise inner_e)).

(** [_detect_and_decode_content] *)
Definition _detect_and_decode_content : M t unit :=
  self <~ get ;;
  if negb (ContentBuffer.has_content (_content self)) then
    throw TXTEncodingError (str "No content to decode")
  else
    let content := default [] (_content self) in
    if (length content <? 10)%nat then
      throw TXTParsingError (str "Content too short to be a valid text document")
    else if Float.gt_mul005 (Z.of_nat (binary_chars content)) (Z.of_nat (length content)) then
      throw TXTParsingError (str "Invalid text content: contains too many binary characters")
    else
      let detection := chardet_detect content in
      let enc := encoding_or_default detection.1 in
      modify (set_encoding enc) ;;;
      modify (set_confidence detection.2) ;;;
      (if Float.lt07 detection.2 && (length content <? 50)%nat
       then throw TXTParsingError
              (str "Invalid text content: unable to detect encoding with confidence")
       else ret tt) ;;;
      (if bool_decide (x80 ∈ content)
          && bool_decide (lower enc ∈ utf8_family)
       then throw TXTEncodingError (str "Invalid " ++ enc ++ str " sequence detected")
       else ret tt) ;;;
      try_except
        (decoded <~ lift (decode enc content) ;;
         modify (set_decoded_content decoded))
        (λ e, if isinstance e UnicodeDecodeError then decode_fallback e
              else lift (Raise e)).

(** [extract_metadata] *)
Definition extract_metadata (self : t) : outcome (gmap string pyvalue) :=
  match _decoded_content self with
  | None => Return ∅
  | Some decoded =>
    let lines := splitlines decoded in
    let metadata : gmap string pyvalue :=
      <["encoding" := VStr (_encoding self)]>
      (<["char_count" := VInt (Z.of_nat (length decoded))]>
      (<["word_count" := VInt (Z.of_nat (count_words false decoded))]>
      (<["line_count" := VInt (Z.of_nat (length lines))]> ∅))) in
    catch
      (langdetect_detect ← import_langdetect;
       if (10 <? length (strip decoded))%nat then
         lang ← langdetect_detect decoded;
         Return (<["detected_language" := VStr lang]> metadata)
       else Return metadata)
      (λ e, if isinstance e ImportError || isinstance e Exception
            then Return metadata else Raise e)
  end.

(** [validate] *)
Definition validate : M t bool :=
  self <~ get ;;
  if negb (ContentBuffer.has_content (_content self)) then
    throw ValidationError (str "Empty TXT content")
  else
    (match _decoded_content self with
     | None => _detect_and_decode_content
     | Some _ => ret tt
     end) ;;;
    self <~ get ;;
    if negb (truthy (decoded_or_empty self)) || negb (truthy (strip (decoded_or_empty self)))
    then throw ValidationError (str "TXT content is empty after decoding")
    else ret true.

(** [_extract_structure]: [None] is the empty dictionary returned when
    there is no decoded content. *)
Definition _extract_structure (self : t) : option structure :=
  match decoded_or_empty self with
  | [] => None
  | decoded => Some (scan_lines (splitlines decoded))
  end.

(** [self._confidence] *)
Definition get_confidence (self : t) : outcome Q :=
  match _confidence self with
  | Some c => Return c
  | None => raise AttributeError (str "'TXTParser' object has no attribute '_confidence'")
  end.

(** The [except] clauses of [parse], in their order. *)
Definition parse_handlers {A} (e : exn) : M t A :=
  self <~ get ;;
  if isinstance e UnicodeDecodeError then
    throw TXTEncodingError (str "Failed to decode TXT with encoding " ++ _encoding self)
  else if isinstance e Exception then
    throw TXTParsingError (str "Failed to parse TXT document: " ++ msg e)
  else lift (Raise e).

(** [parse] *)
Definition parse (content : bytes) : M t ParsedDocument :=
  modify (set_content (ContentBuffer._set_content content)) ;;;
  try_except
    ((if bool_decide (content = b "This is not a valid document")
      then throw TXTParsingError (str "Invalid document format")
      else ret tt) ;;;
     _detect_and_decode_content ;;;
     self <~ get ;;
     (if negb (truthy (decoded_or_empty self))
         || (length (strip (decoded_or_empty self)) <? 2)%nat
      then throw TXTParsingError (str "Invalid or empty TXT content")
      else ret tt) ;;;
     let structure := _extract_structure self in
     validate ;;;
     self <~ get ;;
     let normalized_text := normalize_text self in
     metadata <~ lift (extract_metadata self) ;;
     conf <~ lift (get_confidence self) ;;
     ret {| content := normalized_text; doc_structure := structure;
            metadata := metadata; encoding := _encoding self; confidence := conf |})
    parse_handlers.

End Parse.

End TXTParser.

(** ** [validate] of the PDF and DOCX parsers *)

(** [bytes.startswith] *)
Fixpoint bytes_startswith (p s : bytes) : bool :=
  match p, s with
  | [], _ => true
  | x :: p', y :: s' => bool_decide (x = y) && bytes_startswith p' s'
  | _ :: _, [] => false
  end.

(** app/services/pdf_parser.py, [PDFParser.validate] *)
Module PDFValidation.

Section Validate.

(** [PyPDF2.PdfReader(io.BytesIO(content))] *)
Variable PdfReader : bytes → outcome PyPDF2.PdfReader.

(** The [except] clauses of [validate], in their order. *)
Definition validate_handlers {A} (e : exn) : outcome A :=
  if isinstance e PdfReadError then
    raise ValidationError (str "Invalid PDF structure: " ++ msg e)
  else if isinstance e Exception then
    raise ValidationError (str "PDF validation failed: " ++ msg e)
  else Raise e.

(** [validate]; [self._get_content()] is the content buffer of the base
    class, see [ContentBuffer]. *)
Definition validate (self : PDFParser.t) : outcome bool :=
  match PDFParser._content self with
  | Some ((_ :: _) as content) =>
    catch
      (if negb (bytes_startswith (b "%PDF-") content) then
         raise ValidationError (str "Not a valid PDF file (missing PDF signature)")
       else
         reader ← PdfReader content;
         ps ← PyPDF2.pages reader;
         if (length ps =? 0)%nat then raise ValidationError (str "PDF has no pages")
         else Return true)
      validate_handlers
  | _ => raise PDFParsingError (str "No content has been set for validation")
  end.

End Validate.

End PDFValidation.

(** app/services/docx_parser.py, [DOCXParser.validate] *)
Module DOCXValidation.

Section Validate.

(** [Document(io.BytesIO(content))] *)
Variable Document : bytes → outcome docx.Document.

(** The [except] clauses of [validate], in their order. *)
Definition validate_handlers {A} (e : exn) : outcome A :=
  if isinstance e PackageNotFoundError then
    raise ValidationError (str "Invalid DOCX structure: " ++ msg e)
  else if isinstance e Exception then
    raise ValidationError (str "DOCX validation failed: " ++ msg e)
  else Raise e.

(** [validate]; [self._get_content()] is the content buffer of the base
    class, see [ContentBuffer]; a document without paragraphs and tables is
    logged and accepted. *)
Definition validate (self : DOCXParser.t) : outcome bool :=
  match DOCXParser._content self with
  | Some ((_ :: _) as content) =>
    catch
      (if negb (bytes_startswith (b "PK") content) then
         raise ValidationError (str "Not a valid DOCX file (missing ZIP signature)")
       else
         doc ← Document content;
         Return true)
      validate_handlers
  | _ => raise DOCXParsingError (str "No content has been set for validation")
  end.

End Validate.

End DOCXValidation.

(** ** The callers of the factory parsers *)

(** [os.path] on POSIX, as far as the callers use it. *)
Module os_path.

Definition sep : N := 47.
Definition extsep : N := 46.

(** [s.rfind(c)]: the last index of [c] in [s], [-1] when there is none. *)
Fixpoint rfind_from (c : N) (i : Z) (found : Z) (s : pystr) : Z :=
  match s with
  | [] => found
  | x :: t => rfind_from c (i + 1) (if x =? c then i else found) t
  end.

Definition rfind (c : N) (s : pystr) : Z := rfind_from c 0 (-1) s.

(** [os.path.splitext(p)[1]]: the extension starts at the last dot of the
    last component, unless only dots precede it there. *)
Definition splitext_ext (p : pystr) : pystr :=
  let sepIndex := rfind sep p in
  let dotIndex := rfind extsep p in
  if (sepIndex <? dotIndex)%Z then
    if forallb (λ c, c =? extsep)
         (slice (Z.to_nat (sepIndex + 1)) (Z.to_nat dotIndex) p)
    then []
    else drop (Z.to_nat dotIndex) p
  else [].

(** [os.path.join(a, b)] *)
Definition join (a b : pystr) : pystr :=
  if startswith [sep] b then b
  else if negb (truthy a) || bool_decide (last a = Some sep) then a ++ b
  else a ++ [sep] ++ b.

End os_path.

(** [parsed_doc.get("content", "")] where [parsed_doc] is a [str]: a [str]
    has no attribute [get]. *)
Definition str_get (parsed_doc : pystr) : outcome pystr :=
  raise AttributeError (str "'str' object has no attribute 'get'").

(** [file_ext = os.path.splitext(name)[1].lower().replace(".", "")] *)
Definition file_ext_of (name : pystr) : pystr :=
  replace (str ".") [] (lower (os_path.splitext_ext name)).

(** app/models/dataset_processor.py *)
Module CVDatasetProcessor.

Record sample := {
  file_name : pystr;
  file_type : pystr;
  resume_text : pystr
}.

Definition mock_sample : sample :=
  {| file_name := str "mock_resume.pdf";
     file_type := str "pdf";
     resume_text := str "Mock resume content for testing purposes." |}.

Section Process.

Variable PdfReader : bytes → outcome PyPDF2.PdfReader.
Variable Document : bytes → outcome docx.Document.

(** The file system: [self.data_dir], [os.path.exists], [os.makedirs],
    [os.listdir], [os.path.isfile], and [open(path, "rb")] followed by
    [read]. *)
Variable data_dir : pystr.
Variable path_exists : pystr → bool.
Variable makedirs : pystr → outcome unit.
Variable listdir : pystr → outcome (list pystr).
Variable isfile : pystr → bool.
Variable read_bytes : pystr → outcome bytes.

(** The body of the [try] statement of the loop. *)
Definition process_file (file_name file_ext : pystr) : outcome sample :=
  content ← read_bytes (os_path.join data_dir file_name);
  parser ← DocumentParser.create_parser file_ext;
  parsed_doc ← DocumentParser.parse PdfReader Document parser content;
  text_content ← str_get parsed_doc;
  Return {| file_name := file_name; file_type := file_ext; resume_text := text_content |}.

(** The loop over the files. *)
Fixpoint process_files (files : list pystr) (processed_data : list sample)
    : outcome (list sample) :=
  match files with
  | [] => Return processed_data
  | file_name :: rest =>
    let file_ext := file_ext_of file_name in
    if negb (bool_decide (file_ext ∈ [str "pdf"; str "docx"; str "txt"])) then
      process_files rest processed_data
    else
      match process_file file_name file_ext with
      | Return s => process_files rest (processed_data ++ [s])
      | Raise e =>
        if isinstance e Exception then process_files rest processed_data else Raise e
      end
  end.

(** [process_cv_files] *)
Definition process_cv_files : outcome (list sample) :=
  if negb (path_exists data_dir) then
    _ ← makedirs data_dir;
    Return []
  else
    match
      catch
        (names ← listdir data_dir;
         Return (Some (filter (λ f, isfile (os_path.join data_dir f) = true) names)))
        (λ e, if isinstance e Exception then Return None else Raise e)
    with
    | Raise e => Raise e
    | Return None => Return []
    | Return (Some files) =>
      processed_data ← process_files files [];
      Return (match processed_data with
              | [] => processed_data ++ [mock_sample]
              | _ => processed_data
              end)
    end.

(** [create_anonymizer_dataset]: the data given to the generator. *)
Definition anonymizer_data {R} (parser_results : list R) : list (R * pystr) :=
  parser_results ≫= (λ result,
    (λ level, (result, level)) <$> [str "basic"; str "moderate"; str "thorough"]).

End Process.

End CVDatasetProcessor.

(** app/models/demo.py *)
Module demo.

Section ParseCvFile.

Variable PdfReader : bytes → outcome PyPDF2.PdfReader.
Variable Document : bytes → outcome docx.Document.
(** [open(file_path, "rb")] followed by [read]. *)
Variable read_bytes : pystr → outcome bytes.
(** The parsed data, and [CVParserModel()], [initialize()] and
    [parse(text_content, file_ext)] together. *)
Variable parsed : Type.
Variable parser_model_parse : pystr → pystr → outcome parsed.

(** [parse_cv_file] *)
Definition parse_cv_file (file_path : pystr) : outcome parsed :=
  let file_ext := file_ext_of file_path in
  content ← read_bytes file_path;
  document_parser ← DocumentParser.create_parser file_ext;
  parsed_doc ← DocumentParser.parse PdfReader Document document_parser content;
  text_content ← str_get parsed_doc;
  parser_model_parse text_content file_ext.

End ParseCvFile.

End demo.

(** app/api/routes/models.py *)
Module routes.

(** [s.split(sep)] for a separator of one character. *)
Fixpoint split (sep : N) (s : pystr) : list pystr :=
  match s with
  | [] => [[]]
  | c :: t =>
    if c =? sep then [] :: split sep t
    else match split sep t with
         | seg :: segs => (c :: seg) :: segs
         | [] => [[c]]
         end
  end.

(** [file.filename.split('.')[-1].lower()] *)
Definition file_type_of (filename : pystr) : pystr :=
  lower (List.last (split 46 filename) []).

(** What a route gives: its value, an [HTTPException], or an exception
    that no clause catches. *)
Inductive response (A : Type) :=
  | Ok (a : A)
  | HTTPException (status_code : Z) (detail : pystr)
  | Uncaught (e : exn).
Arguments Ok {A} a.
Arguments HTTPException {A} status_code detail.
Arguments Uncaught {A} e.

(** An uploaded file: [filename] may be [None]. *)
Record UploadFile := {
  filename : option pystr;
  read : outcome bytes
}.

Section ParseResume.

Variable PdfReader : bytes → outcome PyPDF2.PdfReader.
Variable Document : bytes → outcome docx.Document.
(** The parsed data, and [cv_parser_model.initialize()] followed by
    [cv_parser_model.parse(text_content, file_type)]. *)
Variable parsed : Type.
Variable cv_parser_model_parse : pystr → pystr → outcome parsed.

(** The body of the [try] statement of [parse_resume]. *)
Definition parse_resume_body (file : UploadFile) : outcome parsed :=
  content ← read file;
  name ← match filename file with
         | Some name => Return name
         | None => raise AttributeError (str "'NoneType' object has no attribute 'split'")
         end;
  let file_type := file_type_of name in
  parser ← DocumentParser.create_parser file_type;
  text_content ← DocumentParser.parse PdfReader Document parser content;
  cv_parser_model_parse text_content file_type.

(** [parse_resume] *)
Definition parse_resume (file : UploadFile) : response parsed :=
  match parse_resume_body file with
  | Return parsed_data => Ok parsed_data
  | Raise e =>
    if isinstance e Exception
    then HTTPException 500 (str "Error parsing resume: " ++ msg e)
    else Uncaught e
  end.

End ParseResume.

End routes.

(** app/core/security.py *)
Module RateLimiter.

(** An entry of [self._requests]. *)
Record request_info := {
  count : Z;
  start_time : Z
}.

(** [self._requests], by API key. *)
Abbreviation t := (gmap pystr request_info).

(** [RateLimiter()] *)
Definition new : t := ∅.

(** What [check_rate_limit] gives: it returns, or raises
    [HTTPException(status_code=429)] whose detail names the seconds left. *)
Inductive verdict :=
  | Pass
  | RateLimitExceeded (try_again_in : Z).

Section Limits.

(** [settings.RATE_LIMIT_REQUESTS] and [settings.RATE_LIMIT_PERIOD] *)
Variable RATE_LIMIT_REQUESTS : Z.
Variable RATE_LIMIT_PERIOD : Z.

(** [check_rate_limit]; [now] is [int(self._time())]. *)
Definition check_rate_limit (now : Z) (api_key : pystr) (self : t) : t * verdict :=
  match self !! api_key with
  | None => (<[api_key := {| count := 1; start_time := now |}]> self, Pass)
  | Some info =>
    let time_passed := (now - start_time info)%Z in
    if (RATE_LIMIT_PERIOD <=? time_passed)%Z then
      (<[api_key := {| count := 1; start_time := now |}]> self, Pass)
    else if (RATE_LIMIT_REQUESTS <=? count info)%Z then
      (self, RateLimitExceeded (RATE_LIMIT_PERIOD - time_passed))
    else
      (<[api_key := {| count := count info + 1; start_time := start_time info |}]> self,
       Pass)
  end.

(** One call after the other, each at its time and with its key. *)
Fixpoint serve (calls : list (Z * pystr)) (self : t) : t * list verdict :=
  match calls with
  | [] => (self, [])
  | (now, api_key) :: rest =>
    let '(self, v) := check_rate_limit now api_key self in
    let '(self, vs) := serve rest self in
    (self, v :: vs)
  end.

End Limits.

End RateLimiter.

(** ** [_extract_structure] of the TXT parser, line by line *)

(** app/services/txt_parser.py, the scan of [TXTParser._extract_structure]
    over the lines of the decoded content. *)
Module TXTStructure.

(** An entry of [structure['indentation']]. *)
Record indentation_entry := {
  indentation_line : Z;
  indentation_level : Z
}.

(** An entry of [structure['headers']]. *)
Record header := {
  header_level : Z;
  header_text : pystr;
  header_line : Z
}.

(** An entry of [structure['sections']]. *)
Record section := {
  title : pystr;
  section_level : Z;
  start_line : Z;
  section_content : list pystr
}.

Inductive item_type := numbered | bullet.

(** An item of a list of [structure['lists']]. *)
Record list_item := {
  item_text : pystr;
  item_line : Z;
  item_type_of : item_type
}.

(** The dictionary [structure]. *)
Record structure := {
  headers : list header;
  lists : list (list list_item);
  paragraphs : list pystr;
  indentation : list indentation_entry;
  sections : list section
}.

(** The dictionary and the local variables of the loop.
    [current_section] is [None] or refers to a dictionary that is also an
    element of [structure['sections']]: it is kept as the index of that
    element, and appending to its content changes the element. *)
Record locals := {
  the_structure : structure;
  current_paragraph : list pystr;
  in_list : bool;
  list_items : list list_item;
  current_section : option nat
}.

Definition initial : locals :=
  {| the_structure :=
       {| headers := []; lists := []; paragraphs := []; indentation := []; sections := [] |};
     current_paragraph := []; in_list := false; list_items := [];
     current_section := None |}.

Section Scan.

(** The Unicode properties of a character that [str.isupper] reads, and
    the decimal digits, the class [\d] of [re]; no decimal digit is white
    space or the first character of another marker of a list item. *)
Variable ch_isupper : N → bool.
Variable ch_islower : N → bool.
Variable ch_istitle : N → bool.
Variable is_decimal : N → bool.

(** [s.isupper()] *)
Definition isupper (s : pystr) : bool :=
  match s with
  | [c] => ch_isupper c
  | _ =>
    forallb (λ c, negb (ch_islower c || ch_istitle c)) s && existsb ch_isupper s
  end.

(** The group [(\d+\.|â€¢|\*|\-)] at the head of [s]: the kind of the
    item and what follows the group.  The second alternative is the three
    characters U+00E2, U+20AC, U+00A2 that the source file holds. *)
Definition marker (s : pystr) : option (item_type * pystr) :=
  match s with
  | c :: t =>
    if is_decimal c then
      match drop_while is_decimal t with
      | d :: rest => if d =? 46 then Some (numbered, rest) else None
      | [] => None
      end
    else if startswith [0xE2; 0x20AC; 0xA2] s then Some (bullet, drop 3 s)
    else if (c =? 42) || (c =? 45) then Some (bullet, t)
    else None
  | [] => None
  end.

(** [\s+(.+)$] on what follows the marker, in a line (which holds no line
    feed): group 2 is what follows the white space; when only white space
    follows the marker, the match gives back its last character to
    group 2. *)
Definition item_text_of (after : pystr) : option pystr :=
  match lstrip after with
  | _ :: _ => if (length (lstrip after) <? length after)%nat then Some (lstrip after) else None
  | [] =>
    match after with
    | _ :: _ :: _ => Some (drop (length after - 1) after)
    | _ => None
    end
  end.

(** [re.match(r'^\s*(\d+\.|â€¢|\*|\-)\s+(.+)$', line)]: the kind that
    [list_match.group(1)[0].isdigit()] tells, and [list_match.group(2)]. *)
Definition list_match (line : pystr) : option (item_type * pystr) :=
  match marker (lstrip line) with
  | Some (ty, after) =>
    match item_text_of after with
    | Some text => Some (ty, text)
    | None => None
    end
  | None => None
  end.

(** [lines[i+1].strip() and all(c in '=-' for c in lines[i+1].strip())] *)
Definition is_underline (next : pystr) : bool :=
  truthy (strip next) && forallb (λ c, (c =? 61) || (c =? 45)) (strip next).

(** [structure['indentation'].append({'line': i + 1, 'level': indentation})] *)
Definition add_indentation (i : nat) (level : nat) (l : locals) : locals :=
  let st := the_structure l in
  {| the_structure :=
       {| headers := headers st; lists := lists st; paragraphs := paragraphs st;
          indentation := indentation st
                         ++ [{| indentation_line := Z.of_nat i + 1;
                                indentation_level := Z.of_nat level |}];
          sections := sections st |};
     current_paragraph := current_paragraph l; in_list := in_list l;
     list_items := list_items l; current_section := current_section l |}.

(** The body of the two header branches: the header is appended, and a
    new section is appended and becomes the current one. *)
Definition add_header (level : Z) (line_stripped : pystr) (i : nat) (l : locals) : locals :=
  let st := the_structure l in
  {| the_structure :=
       {| headers := headers st
                     ++ [{| header_level := level; header_text := line_stripped;
                            header_line := Z.of_nat i + 1 |}];
          lists := lists st; paragraphs := paragraphs st;
          indentation := indentation st;
          sections := sections st
                      ++ [{| title := line_stripped; section_level := level;
                             start_line := Z.of_nat i + 1; section_content := [] |}] |};
     current_paragraph := current_paragraph l; in_list := in_list l;
     list_items := list_items l;
     current_section := Some (length (sections st)) |}.

(** [if current_section: current_section['content'].append(line_stripped)] *)
Definition add_content (line_stripped : pystr) (l : locals) : locals :=
  match current_section l with
  | Some k =>
    let st := the_structure l in
    {| the_structure :=
         {| headers := headers st; lists := lists st; paragraphs := paragraphs st;
            indentation := indentation st;
            sections :=
              alter (λ s, {| title := title s; section_level := section_level s;
                             start_line := start_line s;
                             section_content := section_content s ++ [line_stripped] |})
                k (sections st) |};
       current_paragraph := current_paragraph l; in_list := in_list l;
       list_items := list_items l; current_section := current_section l |}
  | None => l
  end.

(** The list branch, before the section is told. *)
Definition add_item (ty : item_type) (text : pystr) (i : nat) (l : locals) : locals :=
  {| the_structure := the_structure l;
     current_paragraph := current_paragraph l;
     in_list := true;
     list_items := (if in_list l then list_items l else [])
                   ++ [{| item_text := text; item_line := Z.of_nat i + 1;
                          item_type_of := ty |}];
     current_section := current_section l |}.

(** [structure['lists'].append(list_items); in_list = False; list_items = []] *)
Definition end_list (l : locals) : locals :=
  let st := the_structure l in
  {| the_structure :=
       {| headers := headers st; lists := lists st ++ [list_items l];
          paragraphs := paragraphs st; indentation := indentation st;
          sections := sections st |};
     current_paragraph := current_paragraph l; in_list := false;
     list_items := []; current_section := current_section l |}.

(** [current_paragraph.append(line)] *)
Definition add_paragraph_line (line : pystr) (l : locals) : locals :=
  {| the_structure := the_structure l;
     current_paragraph := current_paragraph l ++ [line];
     in_list := in_list l; list_items := list_items l;
     current_section := current_section l |}.

(** [structure['paragraphs'].append(' '.join(current_paragraph)); current_paragraph = []] *)
Definition end_paragraph (l : locals) : locals :=
  let st := the_structure l in
  {| the_structure :=
       {| headers := headers st; lists := lists st;
          paragraphs := paragraphs st ++ [join [SP] (current_paragraph l)];
          indentation := indentation st; sections := sections st |};
     current_paragraph := []; in_list := in_list l;
     list_items := list_items l; current_section := current_section l |}.

(** [i < len(lines) - 1 and line_stripped and lines[i+1].strip() and
    all(c in '=-' for c in lines[i+1].strip())], and then the level
    [1 if '=' in lines[i+1] else 2]; [next] is [lines[i+1]] when
    [i < len(lines) - 1]. *)
Definition underlined (line_stripped : pystr) (next : option pystr) : option Z :=
  match next with
  | Some next_line =>
    if truthy line_stripped && is_underline next_line
    then Some (if bool_decide (61 ∈ next_line) then 1%Z else 2%Z)
    else None
  | None => None
  end.

(** The body of the loop for the line of index [i]. *)
Definition step (i : nat) (line : pystr) (next : option pystr) (l : locals) : locals :=
  let line_stripped := strip line in
  let indentation := (length line - length (lstrip line))%nat in
  let l := if truthy line_stripped then add_indentation i indentation l else l in
  match underlined line_stripped next with
  | Some level => add_header level line_stripped i l
  | None =>
    if truthy line_stripped && isupper line_stripped && (3 <? length line_stripped)%nat then
      add_header 3 line_stripped i l
    else
      match list_match line with
      | Some (ty, text) => add_content line_stripped (add_item ty text i l)
      | None =>
        let l := if in_list l && negb (truthy line_stripped) then end_list l else l in
        if truthy line_stripped then add_content line_stripped (add_paragraph_line line l)
        else match current_paragraph l with
             | [] => l
             | _ => end_paragraph l
             end
      end
  end.

(** The loop [for i, line in enumerate(lines)]. *)
Fixpoint loop (i : nat) (lines : list pystr) (l : locals) : locals :=
  match lines with
  | [] => l
  | line :: rest => loop (S i) rest (step i line (head rest) l)
  end.

(** What follows the loop, and the structure returned. *)
Definition scan_lines (lines : list pystr) : structure :=
  let l := loop 0 lines initial in
  let l := match current_paragraph l with [] => l | _ => end_paragraph l end in
  let l := if in_list l then end_list l else l in
  the_structure l.

End Scan.

End TXTStructure.

(** * Properties *)

(** ** Exceptions and outcomes *)

Lemma isinstance_Exception (e : exn) : isinstance e Exception = true.
Proof. destruct e as [c m]; destruct c; reflexivity. Qed.

Lemma returns_Return {A} (a : A) : returns (Return a).
Proof. by exists a. Qed.

Lemma raises_raise {A} (c : exn_class) (m : pystr) : raises (@raise A c m) c.
Proof. by exists (mkExn c m). Qed.

Lemma returns_not_raises {A} (m : outcome A) (c : exn_class) : returns m → ¬ raises m c.
Proof. intros [a ->] [e [He _]]. discriminate. Qed.

(** A [try] whose only clause is [except Exception] and returns: nothing
    is raised. *)
Lemma catch_all_returns {A} (m : outcome A) (d : A) :
  returns (catch m (λ e, if isinstance e Exception then Return d else Raise e)).
Proof.
  destruct m as [a|e]; simpl; [apply returns_Return|].
  rewrite isinstance_Exception. apply returns_Return.
Qed.

(** ** The factory and the parsers it makes *)

(** The error of [create_parser] for a token it does not know, as a
    function of the text it carries. *)
Definition UnsupportedFormat (token : pystr) : exn :=
  mkExn ValueError (str "Unsupported file type: " ++ token).

Definition known_formats : list pystr := [str "pdf"; str "docx"; str "txt"].

Lemma create_parser_unknown_raises (file_type : pystr) :
  lower file_type ∉ known_formats →
  DocumentParser.create_parser file_type = Raise (UnsupportedFormat (lower file_type)).
Proof.
  intros Hn. unfold DocumentParser.create_parser, known_formats in *.
  repeat case_bool_decide; try reflexivity; exfalso; apply Hn; set_solver.
Qed.




Section FactoryParsers.

Variable PdfReader : bytes → outcome PyPDF2.PdfReader.
Variable Document : bytes → outcome docx.Document.

(** Every [except Exception] clause of these parsers returns the
    empty string: their [parse] raises nothing. *)
Lemma factory_parse_returns (p : DocumentParser.parser) (content : bytes) :
  returns (DocumentParser.parse PdfReader Document p content).
Proof.
  destruct p; simpl.
  - unfold DocumentParser.PdfParser_parse.
    destruct (PdfReader content) as [r|e]; simpl; [|apply returns_Return].
    destruct (PyPDF2.pages r) as [ps|e]; simpl; [|apply returns_Return].
    destruct (DocumentParser.pdf_pages_text [] ps); simpl; apply returns_Return.
  - unfold DocumentParser.DocxParser_parse.
    destruct (Document content); simpl; apply returns_Return.
  - unfold DocumentParser.TxtParser_parse.
    destruct (DocumentParser.decode_utf8 content); simpl; apply returns_Return.
Qed.

Lemma strip_length_le (s : pystr) : (length (strip s) ≤ length s)%nat.
Proof.
  assert (Hd : ∀ l : pystr, (length (drop_while isspace l) ≤ length l)%nat).
  { induction l as [|x l IH]; simpl; [lia|]. destruct (isspace x); simpl; lia. }
  unfold strip, rstrip, lstrip.
  rewrite length_rev. etrans; [apply Hd|]. rewrite length_rev. apply Hd.
Qed.

(** The page loop, when every page gives a text: the texts, each followed
    by a line feed, are appended to what was read before. *)
Lemma pdf_pages_text_all (ps : list PyPDF2.PageObject) (texts : list pystr) (acc : pystr) :
  Forall2 (λ page text, PyPDF2.extract_text page = Return text) ps texts →
  DocumentParser.pdf_pages_text acc ps = Return (acc ++ mjoin ((λ t, t ++ [LF]) <$> texts)).
Proof.
  intros H. revert acc. induction H as [|page text ps texts Hp _ IH]; intros acc.
  - simpl. by rewrite app_nil_r.
  - simpl. rewrite Hp. simpl. rewrite IH. by rewrite <- !app_assoc.
Qed.

Lemma PdfParser_parse_short (content : bytes) (reader : PyPDF2.PdfReader)
    (ps : list PyPDF2.PageObject) (pdf_text : pystr) :
  PdfReader content = Return reader →
  PyPDF2.pages reader = Return ps →
  DocumentParser.pdf_pages_text [] ps = Return pdf_text →
  (length (strip pdf_text) < 100)%nat →
  DocumentParser.PdfParser_parse PdfReader content = Return (strip DocumentParser.SAMPLE_TEXT).
Proof.
  intros Hopen Hpages Htext Hshort. unfold DocumentParser.PdfParser_parse.
  rewrite Hopen. simpl. rewrite Hpages. simpl. rewrite Htext. simpl.
  apply Nat.ltb_lt in Hshort. by rewrite Hshort.
Qed.

(** A readable document none of whose pages has text gives the sample. *)
Lemma PdfParser_parse_no_text (content : bytes) (reader : PyPDF2.PdfReader)
    (ps : list PyPDF2.PageObject) :
  PdfReader content = Return reader →
  PyPDF2.pages reader = Return ps →
  Forall (λ page, PyPDF2.extract_text page = Return []) ps →
  DocumentParser.PdfParser_parse PdfReader content = Return (strip DocumentParser.SAMPLE_TEXT).
Proof.
  intros Hopen Hpages Hall.
  assert (Htexts : Forall2 (λ page text, PyPDF2.extract_text page = Return text)
                     ps (repeat [] (length ps))).
  { clear - Hall. induction Hall as [|page ps' Hp _ IH]; simpl; by constructor. }
  assert (Hlines : ∀ n, mjoin ((λ t : pystr, t ++ [LF]) <$> repeat [] n) = repeat LF n).
  { induction n as [|n IHn]; [reflexivity|].
    change (mjoin ((λ t : pystr, t ++ [LF]) <$> repeat [] (S n)))
      with (LF :: mjoin ((λ t : pystr, t ++ [LF]) <$> repeat [] n)).
    by rewrite IHn. }
  assert (Hstrip : ∀ n, strip (repeat LF n) = []).
  { intros n. unfold strip.
    replace (lstrip (repeat LF n)) with (@nil N); [reflexivity|].
    induction n as [|n IHn]; [reflexivity|exact IHn]. }
  apply (PdfParser_parse_short content reader ps (repeat LF (length ps))); [done..| |].
  - rewrite (pdf_pages_text_all ps _ [] Htexts). simpl. by rewrite Hlines.
  - rewrite Hstrip. simpl. lia.
Qed.

(** C10: when the text extracted from the pages is shorter than 100
    characters after stripping, [PdfParser.parse] of the factory's PDF
    parser returns the stripped sample text, which begins with the lines
    [John Smith] and [Software Engineer], whatever the input bytes are;
    what it returns is not the extracted text. *)
Theorem PdfParser_parse_short_text_gives_sample
    (content : bytes) (reader : PyPDF2.PdfReader)
    (ps : list PyPDF2.PageObject) (pdf_text : pystr)
    (Hopen : PdfReader content = Return reader)
    (Hpages : PyPDF2.pages reader = Return ps)
    (Htext : DocumentParser.pdf_pages_text [] ps = Return pdf_text)
    (Hshort : (length (strip pdf_text) < 100)%nat) :
  DocumentParser.parse PdfReader Document DocumentParser.PdfParser content
    = Return (strip DocumentParser.SAMPLE_TEXT)
  ∧ startswith (str "John Smith" ++ [LF] ++ repeat SP 16 ++ str "Software Engineer")
      (strip DocumentParser.SAMPLE_TEXT) = true
  ∧ strip DocumentParser.SAMPLE_TEXT ≠ strip pdf_text.
Proof.
  split; [|split].
  - by apply (PdfParser_parse_short content reader ps pdf_text).
  - vm_compute. reflexivity.
  - intros Heq. apply (f_equal length) in Heq.
    assert (Hlen : length (strip DocumentParser.SAMPLE_TEXT) = 1705%nat)
      by (vm_compute; reflexivity).
    lia.
Qed.

End FactoryParsers.

(** A one-page PDF whose page carries the text [Test content]. *)
Definition short_pdf : PyPDF2.PdfReader :=
  {| PyPDF2.is_encrypted := false;
     PyPDF2.pages :=
       Return [ {| PyPDF2.extract_text := Return (str "Test content");
                   PyPDF2.mediabox := Return (Qmake 612 1, Qmake 792 1);
                   PyPDF2.rotate := 0 |} ];
     PyPDF2.metadata := Return None;
     PyPDF2.outline := Return [] |}.

Lemma PdfParser_parse_short_text_gives_sample_witness :
  DocumentParser.parse (λ _, Return short_pdf) (λ _, raise PackageNotFoundError [])
      DocumentParser.PdfParser (b "%PDF-1.4")
    = Return (strip DocumentParser.SAMPLE_TEXT)
  ∧ startswith (str "John Smith" ++ [LF] ++ repeat SP 16 ++ str "Software Engineer")
      (strip DocumentParser.SAMPLE_TEXT) = true
  ∧ strip DocumentParser.SAMPLE_TEXT ≠ strip (str "Test content" ++ [LF]).
Proof.
  apply (PdfParser_parse_short_text_gives_sample
           (λ _, Return short_pdf) (λ _, raise PackageNotFoundError [])
           (b "%PDF-1.4") short_pdf
           [ {| PyPDF2.extract_text := Return (str "Test content");
                PyPDF2.mediabox := Return (Qmake 612 1, Qmake 792 1);
                PyPDF2.rotate := 0 |} ]
           (str "Test content" ++ [LF])).
  - reflexivity.
  - reflexivity.
  - reflexivity.
  - vm_compute. lia.
Defined.

(** The bytes of [b"Invalid \x80 UTF-8 sequence"]. *)
Definition invalid_utf8 : bytes := b "Invalid " ++ [x80] ++ b " UTF-8 sequence".

(** C1 on the code: a parser made by the factory never raises and returns
    a bare [str], not a dictionary with content, structure and metadata; on
    bytes that are not UTF-8 the TXT parser returns the empty string, and on
    the payload [This is not a valid document] it returns that text. *)
Theorem factory_parse_returns_bare_string :
  (∀ PdfReader Document file_type p content,
     DocumentParser.create_parser file_type = Return p →
     ∃ text : pystr, DocumentParser.parse PdfReader Document p content = Return text)
  ∧ (∀ PdfReader Document,
       DocumentParser.parse PdfReader Document DocumentParser.TxtParser invalid_utf8
         = Return [])
  ∧ (∀ PdfReader Document,
       DocumentParser.parse PdfReader Document DocumentParser.TxtParser
           (b "This is not a valid document")
         = Return (str "This is not a valid document")).
Proof.
  split; [|split].
  - intros PdfReader Document file_type p content _.
    apply factory_parse_returns.
  - intros. vm_compute. reflexivity.
  - intros. vm_compute. reflexivity.
Qed.

Lemma factory_parse_returns_bare_string_witness :
  ∃ text : pystr,
    DocumentParser.parse (λ _, raise PdfReadError (str "EOF marker not found"))
        (λ _, raise PackageNotFoundError []) DocumentParser.PdfParser
        (b "This is not a valid document")
      = Return text.
Proof.
  apply (proj1 factory_parse_returns_bare_string
           (λ _, raise PdfReadError (str "EOF marker not found"))
           (λ _, raise PackageNotFoundError [])
           (str "pdf") DocumentParser.PdfParser (b "This is not a valid document")).
  reflexivity.
Defined.

(** ** The PDF parser *)

(** [_parse_pdf_date] on the date of the unit test. *)
Example _parse_pdf_date_valid :
  PDFParser._parse_pdf_date (str "D:20240328123456") = Some (str "2024-03-28T12:34:56").
Proof. vm_compute. reflexivity. Qed.

(** A string of 14 characters or more that is no date takes the [except]
    clause. *)
Example _parse_pdf_date_malformed_long :
  PDFParser._parse_pdf_date (str "D:2024XX28123456") = Some []
  ∧ PDFParser._parse_pdf_date (str "D:20240231123456") = Some [].
Proof. split; vm_compute; reflexivity. Qed.

(** A string shorter than 14 characters after the prefix [D:] reaches the
    end of the function: the result is [None]. *)
Lemma _parse_pdf_date_short (date_str : pystr) :
  (length (if startswith (str "D:") date_str then drop 2 date_str else date_str) < 14)%nat →
  PDFParser._parse_pdf_date date_str = None.
Proof.
  intros H. unfold PDFParser._parse_pdf_date.
  apply Nat.leb_gt in H. by rewrite H.
Qed.

(** C5 on the code: for the malformed date [invalid], and for the empty
    string, [_parse_pdf_date] returns [None], not the empty string. *)
Theorem _parse_pdf_date_invalid_is_None :
  PDFParser._parse_pdf_date (str "invalid") = None
  ∧ PDFParser._parse_pdf_date [] = None
  ∧ PDFParser._parse_pdf_date (str "invalid") ≠ Some [].
Proof. repeat split; vm_compute; [reflexivity..|discriminate]. Qed.

Section PDF.

Variable PdfReader : bytes → outcome PyPDF2.PdfReader.

(** The [except] clauses of [parse] let nothing through but the two
    kinds they raise themselves. *)
Lemma PDF_parse_handlers_kinds {A} (e : exn) :
  raises (@PDFParser.parse_handlers A e) PDFDamagedError
  ∨ raises (@PDFParser.parse_handlers A e) PDFParsingError.
Proof.
  unfold PDFParser.parse_handlers.
  destruct (isinstance e PdfReadError); [left; apply raises_raise|].
  destruct (_ || _).
  - destruct (contains _ _); [left|right]; apply raises_raise.
  - rewrite isinstance_Exception. right. apply raises_raise.
Qed.

(** [PDFParser.parse] returns its dictionary or raises one of
    [PDFDamagedError] and [PDFParsingError]. *)
Lemma PDF_parse_result_or_typed_error (content : bytes) (self : PDFParser.t) :
  returns (PDFParser.parse PdfReader content self).2
  ∨ raises (PDFParser.parse PdfReader content self).2 PDFDamagedError
  ∨ raises (PDFParser.parse PdfReader content self).2 PDFParsingError.
Proof.
  unfold PDFParser.parse, try_except.
  destruct (bind _ _ self) as [s' [d|e]] eqn:E; simpl.
  - left. apply returns_Return.
  - right. apply PDF_parse_handlers_kinds.
Qed.

(** C3 on the code: when the opened document reports itself encrypted,
    the [PDFEncryptedError] raised in the [try] block is caught by the
    last [except] clause of [parse]; what the caller sees is the generic
    [PDFParsingError]. *)
Theorem PDF_parse_encrypted_raises_generic
    (content : bytes) (reader : PyPDF2.PdfReader) (self : PDFParser.t)
    (Hopen : PdfReader content = Return reader)
    (Henc : PyPDF2.is_encrypted reader = true) :
  (PDFParser.parse PdfReader content self).2
    = raise PDFParsingError (str "PDF parsing failed: Cannot parse encrypted PDF")
  ∧ ¬ raises (PDFParser.parse PdfReader content self).2 PDFEncryptedError.
Proof.
  assert (H : (PDFParser.parse PdfReader content self).2
              = raise PDFParsingError (str "PDF parsing failed: Cannot parse encrypted PDF")).
  { unfold PDFParser.parse, try_except, bind, modify, lift, throw. simpl.
    rewrite Hopen. simpl. rewrite Henc. reflexivity. }
  split; [exact H|].
  rewrite H. intros [e [He Hc]]. unfold raise in He.
  injection He as <-. discriminate.
Qed.

(** Once a document is loaded, [extract_metadata] returns. *)
Lemma PDF_extract_metadata_loaded (c : option bytes) (reader : PyPDF2.PdfReader) :
  returns (PDFParser.extract_metadata
             {| PDFParser._content := c; PDFParser._pdf_reader := Some reader |}).
Proof. unfold PDFParser.extract_metadata. simpl. apply catch_all_returns. Qed.

End PDF.

(** An encrypted one-page document, as [create_encrypted_pdf] of the unit
    tests writes it: PyPDF2 opens it and reports it encrypted; reading its
    pages without the password fails. *)
Definition encrypted_pdf : PyPDF2.PdfReader :=
  {| PyPDF2.is_encrypted := true;
     PyPDF2.pages := raise PdfReadError (str "File has not been decrypted");
     PyPDF2.metadata := raise PdfReadError (str "File has not been decrypted");
     PyPDF2.outline := raise PdfReadError (str "File has not been decrypted") |}.

Lemma PDF_parse_encrypted_raises_generic_witness :
  (PDFParser.parse (λ _, Return encrypted_pdf) (b "%PDF-1.3") PDFParser.new).2
    = raise PDFParsingError (str "PDF parsing failed: Cannot parse encrypted PDF")
  ∧ ¬ raises (PDFParser.parse (λ _, Return encrypted_pdf) (b "%PDF-1.3") PDFParser.new).2
        PDFEncryptedError.
Proof.
  apply (PDF_parse_encrypted_raises_generic (λ _, Return encrypted_pdf)
           (b "%PDF-1.3") encrypted_pdf PDFParser.new).
  - reflexivity.
  - reflexivity.
Defined.

(** ** The DOCX parser *)

Lemma join_cons (sep x : pystr) (l : list pystr) :
  l ≠ [] → join sep (x :: l) = x ++ sep ++ join sep l.
Proof. destruct l; [done|reflexivity]. Qed.

Lemma join_app (sep : pystr) (l1 l2 : list pystr) :
  l1 ≠ [] → l2 ≠ [] → join sep (l1 ++ l2) = join sep l1 ++ sep ++ join sep l2.
Proof.
  intros H1 H2. induction l1 as [|x l1 IH]; [done|].
  destruct l1 as [|y l1].
  - simpl. destruct l2; [done|reflexivity].
  - rewrite <- app_comm_cons. rewrite join_cons by done.
    rewrite IH by done. rewrite (join_cons sep x (y :: l1)) by done.
    by rewrite <- !app_assoc.
Qed.

(** [x] is a line of [content]: it stands between two line feeds, or at an
    end of the text. *)
Definition is_line (x content : pystr) : Prop :=
  ∃ pre post, content = pre ++ x ++ post
    ∧ (pre = [] ∨ ∃ p, pre = p ++ [LF])
    ∧ (post = [] ∨ ∃ q, post = LF :: q).

Lemma is_line_join (x : pystr) (lines : list pystr) :
  x ∈ lines → is_line x (join [LF] lines).
Proof.
  intros Hin. apply list_elem_of_split in Hin as (l1 & l2 & ->).
  destruct l1 as [|a l1], l2 as [|c l2].
  - exists [], []. simpl. rewrite app_nil_r. auto.
  - exists [], ([LF] ++ join [LF] (c :: l2)). simpl.
    split; [reflexivity|]. split; [auto|]. right. by eexists.
  - exists (join [LF] (a :: l1) ++ [LF]), [].
    rewrite join_app by done. simpl. rewrite app_nil_r.
    split; [by rewrite <- app_assoc|]. split; [|auto]. right. by eexists.
  - exists (join [LF] (a :: l1) ++ [LF]), ([LF] ++ join [LF] (c :: l2)).
    rewrite join_app by done. rewrite (join_cons _ x (c :: l2)) by done.
    split; [by rewrite <- !app_assoc|]. split; right; by eexists.
Qed.

(** The text of a document in the words of the specification: the
    non-empty paragraph texts, then for every table row the non-empty
    stripped cell texts joined by [" | "], rows without such a cell left
    out, all joined by line feeds. *)
Definition spec_row_line (cells : list pystr) : option pystr :=
  match filter (λ c, c ≠ []) (strip <$> cells) with
  | [] => None
  | kept => Some (join (str " | ") kept)
  end.

Definition spec_lines (doc : docx.Document) : list pystr :=
  (docx.text <$> filter (λ para, strip (docx.text para) ≠ []) (docx.paragraphs doc))
  ++ (docx.tables doc ≫= λ table, omap spec_row_line (docx.rows table)).

Lemma truthy_true (s : pystr) : truthy s = true ↔ s ≠ [].
Proof. unfold truthy. case_bool_decide; naive_solver. Qed.

Lemma filter_truthy (l : list pystr) :
  filter (λ c, truthy c = true) l = filter (λ c, c ≠ []) l.
Proof. apply list_filter_iff. intros c. apply truthy_true. Qed.

Lemma table_lines_spec (rows : list (list pystr)) :
  DOCXParser.table_lines rows = omap spec_row_line rows.
Proof.
  induction rows as [|row rows IH]; [reflexivity|].
  simpl. unfold spec_row_line at 1, DOCXParser.row_text.
  rewrite filter_truthy, IH.
  by destruct (filter _ _).
Qed.

Lemma DOCX_text_lines_spec (doc : docx.Document) :
  DOCXParser.paragraph_lines (docx.paragraphs doc)
    ++ DOCXParser.tables_lines (docx.tables doc) = spec_lines doc.
Proof.
  unfold spec_lines, DOCXParser.paragraph_lines, DOCXParser.tables_lines. f_equal.
  - f_equal. apply list_filter_iff. intros para. apply truthy_true.
  - induction (docx.tables doc) as [|t ts IH]; [reflexivity|].
    rewrite !bind_cons, table_lines_spec. by f_equal.
Qed.

Section DOCX.

Variable Document : bytes → outcome docx.Document.

(** Once a document is loaded, [extract_metadata] returns. *)
Lemma DOCX_extract_metadata_loaded (c : option bytes) (doc : docx.Document) :
  returns (DOCXParser.extract_metadata
             {| DOCXParser._content := c; DOCXParser._doc := Some doc |}).
Proof. unfold DOCXParser.extract_metadata. simpl. apply catch_all_returns. Qed.

(** A package that opens is parsed: the content is the text of the
    document, structure and metadata are present. *)
Lemma DOCX_parse_opened (content : bytes) (doc : docx.Document) (self : DOCXParser.t) :
  Document content = Return doc →
  ∃ result, (DOCXParser.parse Document content self).2 = Return result
            ∧ DOCXParser.content result = join [LF] (spec_lines doc).
Proof.
  intros Hopen.
  unfold DOCXParser.parse, try_except, bind, modify, lift, get, ret. simpl.
  rewrite Hopen. simpl.
  destruct (catch_all_returns
              (ss ← DOCXParser.section_infos 0 (docx.sections doc);
               hs ← DOCXParser.heading_infos 0 (docx.paragraphs doc);
               Return {| DOCXParser.sections := ss; DOCXParser.headings := hs;
                         DOCXParser.tables := DOCXParser.table_infos 0 (docx.tables doc);
                         DOCXParser.lists := [] |})
              DOCXParser.empty_structure) as [st Hst].
  unfold DOCXParser._extract_structure. simpl. rewrite Hst.
  destruct (DOCX_extract_metadata_loaded (ContentBuffer._set_content content) doc)
    as [md Hmd].
  rewrite Hmd. simpl. eexists. split; [reflexivity|].
  simpl. by rewrite DOCX_text_lines_spec.
Qed.

(** C9: for a document that opens and has a table with the rows
    [Header 1, Header 2] and [Data 1, Data 2], [parse] returns a content
    in which [Header 1 | Header 2] and [Data 1 | Data 2] are lines; the
    content is the non-empty paragraph texts followed by the table rows,
    each row its non-empty cell texts joined by [" | "], empty cells and
    rows skipped, all joined by line feeds. *)
Theorem DOCX_parse_table_rows
    (content : bytes) (doc : docx.Document) (self : DOCXParser.t) (table : docx.Table)
    (Hopen : Document content = Return doc)
    (Htable : table ∈ docx.tables doc)
    (Hrows : docx.rows table
             = [[str "Header 1"; str "Header 2"]; [str "Data 1"; str "Data 2"]]) :
  ∃ result,
    (DOCXParser.parse Document content self).2 = Return result
    ∧ DOCXParser.content result = join [LF] (spec_lines doc)
    ∧ (∃ before after,
         (docx.tables doc ≫= λ t, omap spec_row_line (docx.rows t))
           = before ++ [str "Header 1 | Header 2"; str "Data 1 | Data 2"] ++ after)
    ∧ is_line (str "Header 1 | Header 2") (DOCXParser.content result)
    ∧ is_line (str "Data 1 | Data 2") (DOCXParser.content result).
Proof.
  destruct (DOCX_parse_opened content doc self Hopen) as (result & Hres & Hcontent).
  exists result. split; [exact Hres|]. split; [exact Hcontent|].
  assert (Hsplit : ∃ before after,
             (docx.tables doc ≫= λ t, omap spec_row_line (docx.rows t))
               = before ++ [str "Header 1 | Header 2"; str "Data 1 | Data 2"] ++ after).
  { apply list_elem_of_split in Htable as (t1 & t2 & ->).
    exists (t1 ≫= λ t, omap spec_row_line (docx.rows t)),
           (t2 ≫= λ t, omap spec_row_line (docx.rows t)).
    rewrite bind_app, bind_cons, Hrows. reflexivity. }
  split; [exact Hsplit|].
  destruct Hsplit as (before & after & Hsplit).
  rewrite Hcontent. unfold spec_lines. rewrite Hsplit.
  split; apply is_line_join; set_solver.
Qed.

End DOCX.

(** The document of [create_test_docx]: one paragraph and a table of two
    rows and two columns. *)
Definition test_docx : docx.Document :=
  {| docx.paragraphs :=
       [ {| docx.text := str "Sample DOCX content"; docx.style_name := Return (str "Normal") |} ];
     docx.tables :=
       [ {| docx.rows := [[str "Header 1"; str "Header 2"]; [str "Data 1"; str "Data 2"]];
            docx.columns := 2 |} ];
     docx.sections := [ {| docx.page_width := Some 7772400%Z; docx.page_height := Some 10058400%Z |} ];
     docx.core_properties :=
       Return {| docx.title := []; docx.author := str "python-docx"; docx.subject := [];
                 docx.keywords := []; docx.category := []; docx.comments := [];
                 docx.created := Some (datetime.mk 2013 12 23 23 15 0 0);
                 docx.modified := Some (datetime.mk 2013 12 23 23 15 0 0);
                 docx.last_printed := None |} |}.

Example DOCX_parse_test_docx :
  ∃ result, (DOCXParser.parse (λ _, Return test_docx) (b "PK") DOCXParser.new).2 = Return result
    ∧ DOCXParser.content result
      = str "Sample DOCX content" ++ [LF] ++ str "Header 1 | Header 2" ++ [LF] ++ str "Data 1 | Data 2".
Proof. eexists. split; [vm_compute; reflexivity|]. vm_compute. reflexivity. Qed.

Lemma DOCX_parse_table_rows_witness :
  ∃ result,
    (DOCXParser.parse (λ _, Return test_docx) (b "PK") DOCXParser.new).2 = Return result
    ∧ DOCXParser.content result = join [LF] (spec_lines test_docx)
    ∧ (∃ before after,
         (docx.tables test_docx ≫= λ t, omap spec_row_line (docx.rows t))
           = before ++ [str "Header 1 | Header 2"; str "Data 1 | Data 2"] ++ after)
    ∧ is_line (str "Header 1 | Header 2") (DOCXParser.content result)
    ∧ is_line (str "Data 1 | Data 2") (DOCXParser.content result).
Proof.
  apply (DOCX_parse_table_rows (λ _, Return test_docx) (b "PK") test_docx DOCXParser.new
           {| docx.rows := [[str "Header 1"; str "Header 2"]; [str "Data 1"; str "Data 2"]];
              docx.columns := 2 |}).
  - reflexivity.
  - simpl. apply list_elem_of_here.
  - reflexivity.
Defined.

(** ** Text normalization of the TXT parser *)

(** *** Stripping *)

Lemma drop_while_suffix {A} (p : A → bool) (l : list A) :
  ∃ u, l = u ++ drop_while p l.
Proof.
  induction l as [|x l [u IH]]; [by exists []|].
  simpl. destruct (p x); [|by exists []].
  exists (x :: u). simpl. by f_equal.
Qed.

Lemma drop_while_head {A} (p : A → bool) (l : list A) :
  match drop_while p l with [] => True | x :: _ => p x = false end.
Proof.
  induction l as [|x l IH]; [done|].
  simpl. destruct (p x) eqn:E; [exact IH|exact E].
Qed.

Lemma drop_while_id {A} (p : A → bool) (l : list A) :
  match l with [] => True | x :: _ => p x = false end → drop_while p l = l.
Proof. destruct l as [|x l]; [done|]. simpl. by intros ->. Qed.

Lemma drop_while_idemp {A} (p : A → bool) (l : list A) :
  drop_while p (drop_while p l) = drop_while p l.
Proof. apply drop_while_id, drop_while_head. Qed.

Lemma drop_while_snoc {A} (p : A → bool) (l : list A) (x : A) :
  p x = false → drop_while p (l ++ [x]) = drop_while p l ++ [x].
Proof.
  intros Hx. induction l as [|y l IH]; simpl; [by rewrite Hx|].
  destruct (p y); [exact IH|reflexivity].
Qed.

Lemma rstrip_cons (x : N) (t : pystr) :
  isspace x = false → rstrip (x :: t) = x :: rstrip t.
Proof.
  intros Hx. unfold rstrip. simpl.
  rewrite drop_while_snoc by done. by rewrite rev_app_distr.
Qed.

Lemma rstrip_idemp (t : pystr) : rstrip (rstrip t) = rstrip t.
Proof. unfold rstrip. by rewrite rev_involutive, drop_while_idemp. Qed.

Lemma strip_idemp (s : pystr) : strip (strip s) = strip s.
Proof.
  unfold strip. set (t := lstrip s).
  assert (Ht : match t with [] => True | x :: _ => isspace x = false end)
    by apply drop_while_head.
  assert (Hl : lstrip (rstrip t) = rstrip t).
  { destruct t as [|x t']; [reflexivity|].
    rewrite rstrip_cons by done. unfold lstrip. simpl. by rewrite Ht. }
  by rewrite Hl, rstrip_idemp.
Qed.

(** The stripped text is a piece of the text. *)
Lemma strip_factor (s : pystr) : ∃ u v, s = u ++ strip s ++ v.
Proof.
  destruct (drop_while_suffix isspace s) as [u Hu].
  destruct (drop_while_suffix isspace (rev (lstrip s))) as [w Hw].
  exists u, (rev w). unfold strip, rstrip. fold (lstrip s) in Hu.
  rewrite <- rev_app_distr, <- Hw, rev_involutive. exact Hu.
Qed.

(** *** Occurrences of a pattern *)

Lemma startswith_app (p s v : pystr) :
  startswith p s = true → startswith p (s ++ v) = true.
Proof.
  revert s. induction p as [|a p IH]; intros [|y s]; simpl; try done.
  intros [-> H]%andb_true_iff. by rewrite (IH _ H).
Qed.

Lemma contains_cons (p : pystr) (x : N) (s : pystr) :
  contains p (x :: s) = startswith p (x :: s) || contains p s.
Proof. reflexivity. Qed.

Lemma contains_app_l (p s v : pystr) :
  contains p s = true → contains p (s ++ v) = true.
Proof.
  induction s as [|x s IH].
  - destruct p as [|a p]; [|done]. intros _. by destruct v.
  - rewrite <- app_comm_cons, !contains_cons.
    intros [H|H]%orb_true_iff; apply orb_true_iff.
    + left. by apply (startswith_app p (x :: s) v).
    + right. by apply IH.
Qed.

Lemma contains_app_r (p u s : pystr) :
  contains p s = true → contains p (u ++ s) = true.
Proof.
  intros H. induction u as [|x u IH]; [done|].
  rewrite <- app_comm_cons, contains_cons, IH. apply orb_true_r.
Qed.

Lemma contains_factor (p u s v : pystr) :
  contains p (u ++ s ++ v) = false → contains p s = false.
Proof.
  intros H. destruct (contains p s) eqn:E; [|done].
  by rewrite (contains_app_r p u _ (contains_app_l p s v E)) in H.
Qed.

(** *** Runs of one character *)

(** [s] does not begin with [c]. *)
Definition not_head (c : N) (s : pystr) : Prop :=
  match s with [] => True | x :: _ => x ≠ c end.

Lemma run_split (c : N) (s : pystr) :
  ∃ r rest, s = repeat c r ++ rest ∧ not_head c rest.
Proof.
  induction s as [|x s (r & rest & -> & Hr)]; [by exists 0%nat, []|].
  destruct (decide (x = c)) as [->|Hx].
  - by exists (S r), rest.
  - by exists 0%nat, (x :: repeat c r ++ rest).
Qed.

Lemma startswith_run (c : N) (m r : nat) (rest : pystr) :
  not_head c rest →
  startswith (repeat c m) (repeat c r ++ rest) = (m <=? r)%nat.
Proof.
  intros Hrest. revert r. induction m as [|m IH]; intros r; [reflexivity|].
  destruct r as [|r]; simpl.
  - destruct rest as [|x rest]; [reflexivity|].
    simpl in Hrest. apply N.eqb_neq in Hrest. rewrite N.eqb_sym in Hrest.
    by rewrite Hrest.
  - by rewrite N.eqb_refl, IH.
Qed.

(** A character [c] is dropped when the [m] characters after it are [c]
    too: every run of [c] longer than [m] is cut to [m]. *)
Fixpoint cap (c : N) (m : nat) (s : pystr) : pystr :=
  match s with
  | [] => []
  | x :: t =>
    if (x =? c) && startswith (repeat c m) t then cap c m t else x :: cap c m t
  end.

Lemma cap_not_head (c : N) (m : nat) (s : pystr) :
  not_head c s → not_head c (cap c m s).
Proof.
  destruct s as [|x s]; [done|]. simpl. intros Hx.
  apply N.eqb_neq in Hx as Hx'. by rewrite Hx'.
Qed.

Lemma cap_run (c : N) (m r : nat) (rest : pystr) :
  not_head c rest →
  cap c m (repeat c r ++ rest) = repeat c (r `min` m) ++ cap c m rest.
Proof.
  intros Hrest. induction r as [|r IH]; [reflexivity|].
  destruct (m <=? r)%nat eqn:E.
  - replace (S r `min` m)%nat with (r `min` m)%nat
      by (apply Nat.leb_le in E; lia).
    rewrite <- IH. change (repeat c (S r) ++ rest) with (c :: (repeat c r ++ rest)).
    cbn [cap]. by rewrite N.eqb_refl, (startswith_run c m r rest Hrest), E.
  - replace (S r `min` m)%nat with (S (r `min` m))
      by (apply Nat.leb_gt in E; lia).
    change (repeat c (S (r `min` m)) ++ cap c m rest)
      with (c :: (repeat c (r `min` m) ++ cap c m rest)).
    rewrite <- IH. change (repeat c (S r) ++ rest) with (c :: (repeat c r ++ rest)).
    cbn [cap]. by rewrite N.eqb_refl, (startswith_run c m r rest Hrest), E.
Qed.

(** The scan of [re.sub] and the cut of runs agree, for a pattern [c{min,}]
    replaced by [m] characters [c] when [min] is [m] or [m + 1]. *)
Lemma sub_run_cap (c : N) (min m : nat) (run : nat) (s : pystr) :
  (min = m ∨ min = S m) →
  TXTParser.sub_run c min (repeat c m) run s = cap c m (repeat c run ++ s).
Proof.
  intros Hmin.
  assert (Hflush : ∀ r, TXTParser.flush c min (repeat c m) r = repeat c (r `min` m)).
  { intros r. unfold TXTParser.flush. destruct (min <=? r)%nat eqn:E.
    - apply Nat.leb_le in E. f_equal. lia.
    - apply Nat.leb_gt in E. f_equal. lia. }
  revert run. induction s as [|x s IH]; intros run.
  - simpl. rewrite Hflush. rewrite (cap_run c m run []) by done.
    simpl. by rewrite app_nil_r.
  - simpl. destruct (x =? c) eqn:E.
    + apply N.eqb_eq in E as ->. rewrite IH. f_equal.
      change (repeat c (S run) ++ s) with ((c :: repeat c run) ++ s).
      by rewrite repeat_cons, <- app_assoc.
    + apply N.eqb_neq in E. rewrite Hflush, IH. simpl.
      rewrite (cap_run c m run (x :: s)) by done.
      simpl. apply N.eqb_neq in E. by rewrite E.
Qed.

Lemma sub_spaces_cap (s : pystr) : TXTParser.sub_spaces s = cap SP 1 s.
Proof. apply (sub_run_cap SP 1 1 0 s). by left. Qed.

Lemma sub_empty_lines_cap (s : pystr) : TXTParser.sub_empty_lines s = cap LF 2 s.
Proof. apply (sub_run_cap LF 3 2 0 s). by right. Qed.

(** No run of [c] in [s] is longer than [m]. *)
Definition capped (c : N) (m : nat) (s : pystr) : Prop :=
  contains (repeat c (S m)) s = false.

Lemma cap_capped (c : N) (m : nat) (s : pystr) : capped c m (cap c m s).
Proof.
  unfold capped. induction s as [|x s IH]; [reflexivity|].
  simpl cap. destruct ((x =? c) && startswith (repeat c m) s) eqn:E; [exact IH|].
  rewrite contains_cons, IH, orb_false_r.
  simpl. destruct (c =? x) eqn:Ex; [|reflexivity]. simpl.
  apply N.eqb_eq in Ex as <-. rewrite N.eqb_refl in E. simpl in E.
  destruct (run_split c s) as (r & rest & -> & Hrest).
  rewrite startswith_run in E by done.
  rewrite cap_run by done.
  rewrite startswith_run by (by apply cap_not_head).
  apply Nat.leb_gt in E. apply Nat.leb_gt. lia.
Qed.

Lemma capped_cap_id (c : N) (m : nat) (s : pystr) : capped c m s → cap c m s = s.
Proof.
  unfold capped. induction s as [|x s IH]; [reflexivity|].
  rewrite contains_cons. intros [Hs Hc]%orb_false_iff.
  simpl in Hs. rewrite (N.eqb_sym c x) in Hs.
  simpl. rewrite Hs. f_equal. by apply IH.
Qed.

Lemma capped_factor (c : N) (m : nat) (u s v : pystr) :
  capped c m (u ++ s ++ v) → capped c m s.
Proof. apply contains_factor. Qed.

(** Cutting the runs of [c] brings no two characters other than [c]
    together. *)
Lemma startswith_cap (c : N) (m : nat) (p s : pystr) :
  (0 < m)%nat → c ∉ p → startswith p (cap c m s) = true → startswith p s = true.
Proof.
  intros Hm. revert p. induction s as [|x s IH]; intros p Hp; [done|].
  destruct p as [|a p]; [done|].
  assert (Ha : a ≠ c) by set_solver. assert (Hp' : c ∉ p) by set_solver.
  simpl cap. destruct ((x =? c) && startswith (repeat c m) s) eqn:E.
  - apply andb_true_iff in E as [Ex Es]. apply N.eqb_eq in Ex as ->.
    destruct (run_split c s) as (r & rest & -> & Hrest).
    rewrite startswith_run in Es by done. apply Nat.leb_le in Es.
    rewrite cap_run by done.
    destruct (r `min` m)%nat as [|k] eqn:Ek; [lia|].
    simpl. apply N.eqb_neq in Ha. by rewrite Ha.
  - simpl. intros [-> H]%andb_true_iff. simpl. by apply IH.
Qed.

Lemma contains_cap (c : N) (m : nat) (p s : pystr) :
  (0 < m)%nat → c ∉ p → contains p (cap c m s) = true → contains p s = true.
Proof.
  intros Hm Hp. induction s as [|x s IH].
  - simpl. done.
  - simpl cap. destruct ((x =? c) && startswith (repeat c m) s) eqn:E.
    + intros H. rewrite contains_cons, (IH H). apply orb_true_r.
    + rewrite !contains_cons. intros [H|H]%orb_true_iff; apply orb_true_iff.
      * left. destruct p as [|a p]; [done|].
        simpl in H |- *. apply andb_true_iff in H as [-> H]. simpl.
        apply (startswith_cap c m p s Hm); [set_solver|done].
      * right. by apply IH.
Qed.

Lemma elem_of_cap (c : N) (m : nat) (x : N) (s : pystr) :
  x ∈ cap c m s → x ∈ s.
Proof.
  induction s as [|y s IH]; [done|].
  simpl. destruct (_ && _); intros H.
  - right. by apply IH.
  - apply elem_of_cons in H as [->|H]; [left|right; by apply IH].
Qed.

(** *** Line endings *)

(** The same replacement, one character at a time: a carriage return before
    a line feed is dropped, any other carriage return becomes a line feed. *)
Fixpoint line_endings (s : pystr) : pystr :=
  match s with
  | [] => []
  | x :: t =>
    if x =? CR then
      match t with
      | y :: _ => if y =? LF then line_endings t else LF :: line_endings t
      | [] => [LF]
      end
    else x :: line_endings t
  end.

Lemma sub_line_endings_cons (x : N) (t : pystr) :
  TXTParser.sub_line_endings (x :: t)
  = if x =? CR then
      match t with
      | y :: t' =>
        if y =? LF then LF :: TXTParser.sub_line_endings t'
        else LF :: TXTParser.sub_line_endings t
      | [] => [LF]
      end
    else x :: TXTParser.sub_line_endings t.
Proof. reflexivity. Qed.

Lemma line_endings_cons (x : N) (t : pystr) :
  line_endings (x :: t)
  = if x =? CR then
      match t with
      | y :: _ => if y =? LF then line_endings t else LF :: line_endings t
      | [] => [LF]
      end
    else x :: line_endings t.
Proof. reflexivity. Qed.

Lemma sub_line_endings_steps (s : pystr) :
  TXTParser.sub_line_endings s = line_endings s.
Proof.
  remember (length s) as n eqn:Hn. revert s Hn.
  induction n as [n IH] using lt_wf_ind. intros s Hn.
  destruct s as [|x t]; [reflexivity|].
  rewrite sub_line_endings_cons, line_endings_cons. simpl in Hn.
  assert (Ht : TXTParser.sub_line_endings t = line_endings t)
    by (apply (IH (length t)); [lia|reflexivity]).
  destruct (x =? CR); [|by rewrite Ht].
  destruct t as [|y t']; [reflexivity|].
  destruct (y =? LF) eqn:Ey; [|by rewrite Ht].
  apply N.eqb_eq in Ey as ->.
  rewrite (line_endings_cons LF t'). change (LF =? CR) with false. cbv iota.
  f_equal. apply (IH (length t')); [simpl in Hn; lia|reflexivity].
Qed.

Lemma line_endings_no_CR (s : pystr) : CR ∉ line_endings s.
Proof.
  induction s as [|x s IH]; [apply not_elem_of_nil|].
  simpl. destruct (x =? CR) eqn:Ex.
  - destruct s as [|y s']; [|destruct (y =? LF)].
    + intros H. apply elem_of_cons in H as [H|H]; [done|by apply not_elem_of_nil in H].
    + exact IH.
    + intros H. apply elem_of_cons in H as [H|H]; [done|by apply IH].
  - apply N.eqb_neq in Ex.
    intros H. apply elem_of_cons in H as [H|H]; [by apply Ex|by apply IH].
Qed.

Lemma line_endings_id (s : pystr) : CR ∉ s → line_endings s = s.
Proof.
  induction s as [|x s IH]; [reflexivity|].
  intros H. apply not_elem_of_cons in H as [Hx Hs].
  simpl. replace (x =? CR) with false by (symmetry; apply N.eqb_neq; congruence).
  f_equal. by apply IH.
Qed.

Lemma startswith_line_endings (p s : pystr) :
  CR ∉ p → LF ∉ p → startswith p (line_endings s) = true → startswith p s = true.
Proof.
  revert p. induction s as [|x s IH]; intros p Hcr Hlf; [done|].
  destruct p as [|a p]; [done|].
  apply not_elem_of_cons in Hcr as [Ha Hcr].
  apply not_elem_of_cons in Hlf as [Ha' Hlf].
  assert (Hl : ∀ l, startswith (a :: p) (LF :: l) = false).
  { intros l. simpl. replace (a =? LF) with false; [done|].
    symmetry. apply N.eqb_neq. congruence. }
  cbn [line_endings]. destruct (x =? CR) eqn:Ex.
  - destruct s as [|y s'].
    + by rewrite Hl.
    + destruct (y =? LF) eqn:Ey.
      * apply N.eqb_eq in Ey as ->.
        intros H. apply (IH (a :: p)) in H; [|by apply not_elem_of_cons..].
        by rewrite Hl in H.
      * by rewrite Hl.
  - simpl. intros [-> H]%andb_true_iff. simpl. by apply IH.
Qed.

Lemma contains_line_endings (p s : pystr) :
  CR ∉ p → LF ∉ p → p ≠ [] →
  contains p (line_endings s) = true → contains p s = true.
Proof.
  intros Hcr Hlf Hp. induction s as [|x s IH].
  - simpl. done.
  - rewrite contains_cons. intros H. apply orb_true_iff.
    assert (Hl : ∀ l, startswith p (LF :: l) = false).
    { intros l. destruct p as [|a p]; [done|]. simpl.
      apply not_elem_of_cons in Hlf as [Ha _].
      replace (a =? LF) with false; [done|].
      symmetry. apply N.eqb_neq. congruence. }
    cbn [line_endings] in H. destruct (x =? CR) eqn:Ex.
    + right. destruct s as [|y s'].
      * simpl in H. rewrite Hl in H. simpl in H.
        destruct p; [done|]. simpl in H. done.
      * destruct (y =? LF) eqn:Ey; [by apply IH|].
        rewrite contains_cons, Hl in H. simpl in H. by apply IH.
    + rewrite contains_cons in H. apply orb_true_iff in H as [H|H].
      * left. destruct p as [|a p]; [done|].
        simpl in H |- *. apply andb_true_iff in H as [-> H]. simpl.
        apply startswith_line_endings; [set_solver..|done].
      * right. by apply IH.
Qed.

(** *** C7 *)

(** What [normalize] computes, with the three substitutions as cuts of
    runs and replacement of line endings. *)
Lemma normalize_steps (x : pystr) :
  TXTParser.normalize x = strip (cap LF 2 (line_endings (cap SP 1 x))).
Proof.
  unfold TXTParser.normalize.
  by rewrite sub_empty_lines_cap, sub_line_endings_steps, sub_spaces_cap.
Qed.

(** A normalized text has single spaces, no carriage return, at most two
    line feeds in a row, and no white space at its ends. *)
Lemma normalize_normal (x : pystr) :
  capped SP 1 (TXTParser.normalize x)
  ∧ (CR ∉ TXTParser.normalize x)
  ∧ capped LF 2 (TXTParser.normalize x)
  ∧ strip (TXTParser.normalize x) = TXTParser.normalize x.
Proof.
  rewrite normalize_steps.
  set (z := cap LF 2 (line_endings (cap SP 1 x))).
  destruct (strip_factor z) as (u & v & Hz).
  assert (Hsp : capped SP 1 z).
  { unfold capped, z.
    destruct (contains _ (cap LF 2 _)) eqn:E; [|done].
    apply contains_cap in E; [|lia|compute_done].
    apply contains_line_endings in E; [|compute_done..].
    by rewrite (cap_capped SP 1 x) in E. }
  assert (Hcr : CR ∉ z).
  { unfold z. intros H%elem_of_cap. by apply line_endings_no_CR in H. }
  assert (Hlf : capped LF 2 z) by apply cap_capped.
  repeat split.
  - apply (capped_factor SP 1 u _ v). by rewrite <- Hz.
  - intros H. apply Hcr. rewrite Hz. set_solver.
  - apply (capped_factor LF 2 u _ v). by rewrite <- Hz.
  - apply strip_idemp.
Qed.

(** C7: normalizing a normalized text changes nothing, for the body of
    [normalize_text] on every decoded string and for the method on every
    instance whose decoded content is replaced by its normalized text. *)
Theorem normalize_text_idempotent :
  (∀ x : pystr, TXTParser.normalize (TXTParser.normalize x) = TXTParser.normalize x)
  ∧ (∀ self : TXTParser.t,
       TXTParser.normalize_text
         (TXTParser.set_decoded_content (TXTParser.normalize_text self) self)
       = TXTParser.normalize_text self).
Proof.
  assert (H : ∀ x : pystr,
             TXTParser.normalize (TXTParser.normalize x) = TXTParser.normalize x).
  { intros x. destruct (normalize_normal x) as (Hsp & Hcr & Hlf & Hst).
    rewrite (normalize_steps (TXTParser.normalize x)).
    rewrite (capped_cap_id SP 1 _ Hsp), (line_endings_id _ Hcr).
    by rewrite (capped_cap_id LF 2 _ Hlf). }
  split; [exact H|].
  assert (Hn : ∀ self, TXTParser.normalize_text self
                       = TXTParser.normalize (TXTParser.decoded_or_empty self)).
  { intros self. unfold TXTParser.normalize_text.
    by destruct (TXTParser.decoded_or_empty self). }
  intros self. rewrite !Hn. simpl. apply H.
Qed.

(** The text of the unit test on normalization. *)
Example normalize_line_endings :
  TXTParser.normalize
    (str "Line 1" ++ [CR; LF] ++ str "Line 2" ++ [CR] ++ str "Line 3" ++ [LF]
     ++ str "Line 4" ++ [LF; LF; LF] ++ str "Line 5   end  ")
  = str "Line 1" ++ [LF] ++ str "Line 2" ++ [LF] ++ str "Line 3" ++ [LF]
    ++ str "Line 4" ++ [LF; LF] ++ str "Line 5 end".
Proof. vm_compute. reflexivity. Qed.

(** ** The binary check of the TXT parser *)

(** *** The product with [0.05] *)

Lemma round53_bounds (x : Z) :
  (0 ≤ x < 2 ^ 92)%Z →
  (Float.round53 x ≤ x + 2 ^ 38)%Z
  ∧ ∀ k : Z, (0 ≤ k)%Z → (k * 2 ^ 56 ≤ x)%Z → (k * 2 ^ 56 ≤ Float.round53 x)%Z.
Proof.
  intros Hx. unfold Float.round53.
  set (s := (Z.log2 x - 52)%Z).
  destruct (s <=? 0)%Z eqn:Es.
  { split; [|auto]. assert (0 < 2 ^ 38)%Z by done. lia. }
  apply Z.leb_gt in Es.
  assert (Hx0 : (0 < x)%Z).
  { destruct (decide (x = 0%Z)) as [->|]; [|lia]. unfold s in Es. simpl in Es. lia. }
  assert (Hs : (s ≤ 39)%Z).
  { assert (Z.log2 x < 92)%Z by (apply Z.log2_lt_pow2; lia). unfold s. lia. }
  set (P := (2 ^ s)%Z). set (half := (2 ^ (s - 1))%Z).
  assert (HP : P = (2 * half)%Z).
  { unfold P, half. rewrite <- Z.pow_succ_r by lia. f_equal. lia. }
  assert (Hhalf : (0 < half ≤ 2 ^ 38)%Z).
  { unfold half. split; [apply Z.pow_pos_nonneg; lia|].
    apply Z.pow_le_mono_r; lia. }
  set (E := (2 ^ (56 - s))%Z).
  assert (HE : (2 ^ 56 = P * E)%Z).
  { unfold P, E. rewrite <- Z.pow_add_r by lia. f_equal. lia. }
  assert (HE0 : (0 < E)%Z) by (apply Z.pow_pos_nonneg; lia).
  pose proof (Z.div_mod x P ltac:(lia)) as Hdiv.
  pose proof (Z.mod_pos_bound x P ltac:(lia)) as Hmod.
  set (q := (x / P)%Z) in *. set (r := (x mod P)%Z) in *.
  assert (Hlow : ∀ k : Z, (0 ≤ k)%Z → (k * 2 ^ 56 ≤ x)%Z → (k * 2 ^ 56 ≤ q * P)%Z).
  { intros k Hk Hkx. rewrite HE in *.
    assert (k * E ≤ q)%Z.
    { unfold q. apply Z.div_le_lower_bound; [lia|]. lia. }
    nia. }
  assert (Hup : ((q + 1) * P ≤ q * P + 2 * half)%Z) by lia.
  destruct (r <? half)%Z eqn:E1; [|destruct (half <? r)%Z eqn:E2; [|destruct (Z.even q)]].
  - split; [lia|exact Hlow].
  - apply Z.ltb_ge in E1. split; [lia|]. intros k Hk Hkx.
    specialize (Hlow k Hk Hkx). lia.
  - split; [lia|exact Hlow].
  - apply Z.ltb_ge in E1. split; [lia|]. intros k Hk Hkx.
    specialize (Hlow k Hk Hkx). lia.
Qed.

(** Below [2^40] the comparison with the rounded product is the
    comparison with one twentieth. *)
Lemma gt_mul005_twentieth (k n : Z) :
  (0 ≤ k < 2 ^ 40)%Z → (0 ≤ n < 2 ^ 40)%Z →
  Float.gt_mul005 k n = (n <? 20 * k)%Z.
Proof.
  intros Hk Hn. unfold Float.gt_mul005.
  assert (H40 : (2 ^ 40 = 1099511627776)%Z) by reflexivity.
  assert (H56 : (2 ^ 56 = 72057594037927936)%Z) by reflexivity.
  assert (H38 : (2 ^ 38 = 274877906944)%Z) by reflexivity.
  assert (H92 : (2 ^ 92 = 4951760157141521099596496896)%Z) by reflexivity.
  destruct (round53_bounds (n * Float.m005)) as [Hup Hlow].
  { unfold Float.m005. lia. }
  unfold Float.m005 in *.
  destruct (n <? 20 * k)%Z eqn:E.
  - apply Z.ltb_lt in E. apply Z.ltb_lt. lia.
  - apply Z.ltb_ge in E. apply Z.ltb_ge.
    apply Hlow; lia.
Qed.

(** *** The bytes that count *)

Lemma is_binary_char_range (x : byte) :
  TXTParser.is_binary_char x = true
  ↔ Byte.to_N x ≤ 31 ∧ Byte.to_N x ∉ [9; 10; 11; 12; 13; 27].
Proof.
  unfold TXTParser.is_binary_char. set (v := Byte.to_N x).
  rewrite orb_true_iff, !andb_true_iff, negb_true_iff, !N.ltb_lt, N.eqb_neq.
  rewrite !not_elem_of_cons. split.
  - intros H. repeat split; try lia. apply not_elem_of_nil.
  - intros (H & H1 & H2 & H3 & H4 & H5 & H6 & _). lia.
Qed.

Lemma binary_chars_le (content : bytes) :
  (TXTParser.binary_chars content ≤ length content)%nat.
Proof. apply length_filter. Qed.

(** ** The TXT parser *)

(** The payload that [parse] rejects by name has no control character and
    no byte [0x80]. *)
Lemma sentinel_plain :
  TXTParser.binary_chars (b "This is not a valid document") = 0%nat
  ∧ x80 ∉ b "This is not a valid document".
Proof. split; compute_done. Qed.

Section TXT.

Variable chardet_detect : bytes → option pystr * Q.
Variable decode : pystr → bytes → outcome pystr.
Variable decode_replace : bytes → pystr.
Variable word_char : N → bool.
Variable import_langdetect : outcome (pystr → outcome pystr).
Variable structure : Type.
Variable scan_lines : list pystr → structure.

Local Abbreviation detect :=
  (TXTParser._detect_and_decode_content chardet_detect decode decode_replace).
Local Abbreviation parse :=
  (TXTParser.parse chardet_detect decode decode_replace word_char import_langdetect
     structure scan_lines).
Local Abbreviation detected_encoding content :=
  (TXTParser.encoding_or_default (chardet_detect content).1).

(** [extract_metadata] returns in every state: a failure of the language
    detection is ignored. *)
Lemma TXT_extract_metadata_returns (self : TXTParser.t) :
  returns (TXTParser.extract_metadata word_char import_langdetect self).
Proof.
  unfold TXTParser.extract_metadata.
  destruct (TXTParser._decoded_content self) as [decoded|]; [|apply returns_Return].
  match goal with |- returns (catch ?m _) => destruct m as [a|e] end; simpl.
  - apply returns_Return.
  - rewrite isinstance_Exception, orb_true_r. apply returns_Return.
Qed.

(** An exception that leaves the [try] block of [parse] and is no
    [UnicodeDecodeError] is raised again as a [TXTParsingError]. *)
Lemma TXT_parse_wraps (content : bytes) (self s' : TXTParser.t) (e : exn) :
  content ≠ b "This is not a valid document" →
  detect (TXTParser.set_content (Some content) self) = (s', Raise e) →
  isinstance e UnicodeDecodeError = false →
  parse content self
    = (s', raise TXTParsingError (str "Failed to parse TXT document: " ++ msg e)).
Proof.
  intros Hne Hdet Hinst.
  unfold TXTParser.parse, try_except, bind, modify, ret. simpl.
  rewrite bool_decide_eq_false_2 by done.
  unfold ContentBuffer._set_content. rewrite Hdet.
  unfold TXTParser.parse_handlers, bind, get, throw, lift.
  by rewrite Hinst, isinstance_Exception.
Qed.

Lemma has_content_cons (x : byte) (content : bytes) :
  ContentBuffer.has_content (Some (x :: content)) = true.
Proof. reflexivity. Qed.

(** The binary check comes before the detection of the encoding. *)
Lemma TXT_detect_binary (content : bytes) (self : TXTParser.t) :
  TXTParser._content self = Some content →
  (10 ≤ length content)%nat →
  Float.gt_mul005 (Z.of_nat (TXTParser.binary_chars content))
    (Z.of_nat (length content)) = true →
  detect self
    = (self, raise TXTParsingError
               (str "Invalid text content: contains too many binary characters")).
Proof.
  intros Hc Hlen Hbin.
  unfold TXTParser._detect_and_decode_content, bind, get, throw, lift.
  rewrite Hc. destruct content as [|x content]; [simpl in Hlen; lia|].
  rewrite has_content_cons. cbn [negb default from_option]. unfold id.
  apply Nat.ltb_ge in Hlen. by rewrite Hlen, Hbin.
Qed.

(** With a byte [0x80] and an encoding of the UTF-8 family detected, the
    detection step raises: one of the earlier rejections, or the encoding
    error of the special case. *)
Lemma TXT_detect_x80 (content : bytes) (self : TXTParser.t) :
  TXTParser._content self = Some content →
  x80 ∈ content →
  lower (detected_encoding content) ∈ TXTParser.utf8_family →
  ∃ s' e, detect self = (s', Raise e)
          ∧ (cls e = TXTParsingError ∨ cls e = TXTEncodingError).
Proof.
  intros Hc Hx Hfam.
  unfold TXTParser._detect_and_decode_content, bind, get, throw, lift, modify, ret.
  rewrite Hc. destruct content as [|x content]; [by apply elem_of_nil in Hx|].
  rewrite has_content_cons. cbn [negb default from_option]. unfold id.
  destruct (length (x :: content) <? 10)%nat; [by eexists _, _; split; [|left]|].
  destruct (Float.gt_mul005 _ _); [by eexists _, _; split; [|left]|].
  destruct (Float.lt07 _ && _); [by eexists _, _; split; [|left]|].
  rewrite (bool_decide_eq_true_2 _ Hx), (bool_decide_eq_true_2 _ Hfam).
  by eexists _, _; split; [|right].
Qed.

(** C6 on the code: for every input with a byte [0x80] whose detected
    encoding is in the UTF-8 family, [parse] raises the generic
    [TXTParsingError]; the [TXTEncodingError] of the special case does not
    reach the caller, and what is raised is no [EncodingError]. *)
Theorem TXT_parse_x80_raises_generic
    (content : bytes) (self : TXTParser.t)
    (Hx80 : x80 ∈ content)
    (Hfam : lower (detected_encoding content) ∈ TXTParser.utf8_family) :
  raises (parse content self).2 TXTParsingError
  ∧ ¬ raises (parse content self).2 TXTEncodingError
  ∧ ∀ e, (parse content self).2 = Raise e → isinstance e EncodingError = false.
Proof.
  assert (Hne : content ≠ b "This is not a valid document").
  { intros ->. by apply (proj2 sentinel_plain). }
  destruct (TXT_detect_x80 content (TXTParser.set_content (Some content) self)
              eq_refl Hx80 Hfam) as (s' & e & Hdet & Hcls).
  assert (Hinst : isinstance e UnicodeDecodeError = false).
  { unfold isinstance. by destruct Hcls as [-> | ->]. }
  rewrite (TXT_parse_wraps content self s' e Hne Hdet Hinst). simpl.
  split; [apply raises_raise|]. split.
  - intros [e' [He' Hc']]. unfold raise in He'. injection He' as <-. discriminate.
  - intros e' He'. unfold raise in He'. by injection He' as <-.
Qed.

(** C8, as the code has it: the bytes that count as control characters are
    those of value 0 to 31 other than 9 to 13 and 27; an input of at least
    10 bytes (and fewer than [2^40]) of which more than one in twenty
    counts is rejected by [parse] with a [TXTParsingError] that names the
    binary content. *)
Theorem TXT_parse_rejects_binary
    (content : bytes) (self : TXTParser.t)
    (Hlen : (10 ≤ length content)%nat)
    (Hbound : (Z.of_nat (length content) < 2 ^ 40)%Z)
    (Hbin : (length content < 20 * TXTParser.binary_chars content)%nat) :
  (∀ x : byte,
     TXTParser.is_binary_char x = true
     ↔ Byte.to_N x ≤ 31 ∧ Byte.to_N x ∉ [9; 10; 11; 12; 13; 27])
  ∧ (parse content self).2
    = raise TXTParsingError
        (str "Failed to parse TXT document: "
         ++ str "Invalid text content: contains too many binary characters").
Proof.
  split; [apply is_binary_char_range|].
  assert (Hne : content ≠ b "This is not a valid document").
  { intros ->. rewrite (proj1 sentinel_plain) in Hbin. simpl in Hbin. lia. }
  assert (Hgt : Float.gt_mul005 (Z.of_nat (TXTParser.binary_chars content))
                  (Z.of_nat (length content)) = true).
  { pose proof (binary_chars_le content).
    rewrite gt_mul005_twentieth by lia. apply Z.ltb_lt. lia. }
  pose proof (TXT_detect_binary content (TXTParser.set_content (Some content) self)
                eq_refl Hlen Hgt) as Hdet.
  by rewrite (TXT_parse_wraps content self _ _ Hne Hdet eq_refl).
Qed.

End TXT.

(** *** A detector and codecs to run the parser with *)

(** The answer of a detector for text that is valid UTF-8 with three
    characters outside ASCII, and its answer for plain ASCII. *)
Definition detect_utf8 : bytes → option pystr * Q :=
  λ _, (Some (str "utf-8"), Qmake 87625 100000).
Definition detect_ascii : bytes → option pystr * Q :=
  λ _, (Some (str "ascii"), Qmake 1 1).

(** A codec table with strict UTF-8 for the UTF-8 family and Latin-1 for
    any other name. *)
Definition codec_decode (enc : pystr) (content : bytes) : outcome pystr :=
  if bool_decide (lower enc ∈ TXTParser.utf8_family) then
    match DocumentParser.decode_utf8 content with
    | Some text => Return text
    | None => raise UnicodeDecodeError (str "'utf-8' codec can't decode")
    end
  else Return (Byte.to_N <$> content).

(** Undecodable bytes become U+FFFD, one for each byte at or above [0x80]
    (enough for the inputs below, which do not reach the fallback). *)
Definition codec_decode_replace (content : bytes) : pystr :=
  (λ x, if Byte.to_N x <? 0x80 then Byte.to_N x else 0xFFFD) <$> content.

Definition ascii_word_char (c : N) : bool :=
  ((48 <=? c) && (c <=? 57)) || ((65 <=? c) && (c <=? 90))
  || ((97 <=? c) && (c <=? 122)) || (c =? 95).

(** No [langdetect] module is installed. *)
Definition no_langdetect : outcome (pystr → outcome pystr) :=
  raise ImportError (str "No module named 'langdetect'").

(** The bytes of [2019 – 2021, 2021 – 2024, 2024 – now] in UTF-8: each
    dash U+2013 is [E2 80 93]. *)
Definition dashes_utf8 : bytes :=
  b "2019 " ++ [xe2; x80; x93] ++ b " 2021, 2021 " ++ [xe2; x80; x93]
  ++ b " 2024, 2024 " ++ [xe2; x80; x93] ++ b " now".

Lemma TXT_parse_x80_raises_generic_witness :
  raises (TXTParser.parse detect_utf8 codec_decode codec_decode_replace ascii_word_char
            no_langdetect unit (λ _, tt) dashes_utf8 TXTParser.new).2 TXTParsingError
  ∧ ¬ raises (TXTParser.parse detect_utf8 codec_decode codec_decode_replace ascii_word_char
                no_langdetect unit (λ _, tt) dashes_utf8 TXTParser.new).2 TXTEncodingError
  ∧ ∀ e, (TXTParser.parse detect_utf8 codec_decode codec_decode_replace ascii_word_char
            no_langdetect unit (λ _, tt) dashes_utf8 TXTParser.new).2 = Raise e
         → isinstance e EncodingError = false.
Proof.
  apply (TXT_parse_x80_raises_generic detect_utf8 codec_decode codec_decode_replace
           ascii_word_char no_langdetect unit (λ _, tt) dashes_utf8 TXTParser.new).
  - compute_done.
  - compute_done.
Defined.

(** What [parse] raises for that text, and for the bytes of the unit test
    on invalid encodings when the detector answers UTF-8. *)
Example TXT_parse_dashes :
  (TXTParser.parse detect_utf8 codec_decode codec_decode_replace ascii_word_char
     no_langdetect unit (λ _, tt) dashes_utf8 TXTParser.new).2
  = raise TXTParsingError
      (str "Failed to parse TXT document: Invalid utf-8 sequence detected")
  ∧ (TXTParser.parse detect_utf8 codec_decode codec_decode_replace ascii_word_char
       no_langdetect unit (λ _, tt) invalid_utf8 TXTParser.new).2
    = raise TXTParsingError
        (str "Failed to parse TXT document: Invalid utf-8 sequence detected").
Proof. split; vm_compute; reflexivity. Qed.

(** Ten bytes, nine of them control characters. *)
Definition control_bytes : bytes := [x00; x01; x02; x03; x04; x05; x06; x07; x08; x41].

Lemma TXT_parse_rejects_binary_witness :
  (∀ x : byte,
     TXTParser.is_binary_char x = true
     ↔ Byte.to_N x ≤ 31 ∧ Byte.to_N x ∉ [9; 10; 11; 12; 13; 27])
  ∧ (TXTParser.parse detect_ascii codec_decode codec_decode_replace ascii_word_char
       no_langdetect unit (λ _, tt) control_bytes TXTParser.new).2
    = raise TXTParsingError
        (str "Failed to parse TXT document: "
         ++ str "Invalid text content: contains too many binary characters").
Proof.
  apply (TXT_parse_rejects_binary detect_ascii codec_decode codec_decode_replace
           ascii_word_char no_langdetect unit (λ _, tt) control_bytes TXTParser.new).
  - compute_done.
  - compute_done.
  - compute_done.
Defined.

(** Twenty bytes, every other one a vertical tab. *)
Definition vertical_tabs : bytes :=
  b "A" ++ [x0b] ++ b "B" ++ [x0b] ++ b "C" ++ [x0b] ++ b "D" ++ [x0b] ++ b "E" ++ [x0b]
  ++ b "F" ++ [x0b] ++ b "G" ++ [x0b] ++ b "H" ++ [x0b] ++ b "I" ++ [x0b] ++ b "J" ++ [x0b].

(** C8, as the specification states it, fails: the vertical tab (11) and the form
    feed (12) lie in the range 0 to 31 and are none of 9, 10, 13 and 27,
    yet they do not count; a text of which half the bytes are vertical tabs
    has no binary character and is parsed. *)
Lemma vertical_tab_not_counted :
  TXTParser.is_binary_char x0b = false
  ∧ TXTParser.is_binary_char x0c = false
  ∧ Byte.to_N x0b ≤ 31 ∧ (Byte.to_N x0b ∉ [9; 10; 13; 27])
  ∧ length vertical_tabs = 20%nat
  ∧ TXTParser.binary_chars vertical_tabs = 0%nat
  ∧ ∃ result,
      (TXTParser.parse detect_ascii codec_decode codec_decode_replace ascii_word_char
         no_langdetect unit (λ _, tt) vertical_tabs TXTParser.new).2 = Return result.
Proof.
  repeat split; try compute_done.
  eexists. vm_compute. reflexivity.
Qed.

(** ** Metadata extraction *)


(** The dictionary of counts of the TXT parser, without a language. *)
Definition txt_counts (word_char : N → bool) (encoding decoded : pystr) : gmap string pyvalue :=
  <["encoding" := VStr encoding]>
  (<["char_count" := VInt (Z.of_nat (length decoded))]>
  (<["word_count" := VInt (Z.of_nat (TXTParser.count_words word_char false decoded))]>
  (<["line_count" := VInt (Z.of_nat (length (TXTParser.splitlines decoded)))]> ∅))).


(** The scenario of the specification for PDF metadata: title, author and
    a creation date. *)
Example PDF_extract_metadata_scenario :
  PDFParser.extract_metadata
    {| PDFParser._content := None;
       PDFParser._pdf_reader :=
         Some {| PyPDF2.is_encrypted := false;
                 PyPDF2.pages := PyPDF2.pages short_pdf;
                 PyPDF2.metadata :=
                   Return (Some (<["/Title" := str "T"]>
                                 (<["/Author" := str "A"]>
                                 (<["/CreationDate" := str "D:20240328123456"]> ∅))));
                 PyPDF2.outline := Return [] |} |}
  = Return (<["title" := VStr (str "T")]>
            (<["author" := VStr (str "A")]>
            (<["creation_date" := VStr (str "2024-03-28T12:34:56")]>
            (<["page_count" := VInt 1]> ∅)))).
Proof. vm_compute. reflexivity. Qed.

(** ** The kinds of error the format parsers raise *)

(** The [except] clauses of [DOCXParser.parse] let nothing through but the
    two kinds they raise themselves. *)
Lemma DOCX_parse_result_or_typed_error
    (Document : bytes → outcome docx.Document) (content : bytes) (self : DOCXParser.t) :
  returns (DOCXParser.parse Document content self).2
  ∨ raises (DOCXParser.parse Document content self).2 DOCXCorruptedError
  ∨ raises (DOCXParser.parse Document content self).2 DOCXParsingError.
Proof.
  unfold DOCXParser.parse, try_except.
  destruct (bind _ _ self) as [s' [d|e]] eqn:E; simpl.
  - left. apply returns_Return.
  - right. unfold lift, DOCXParser.parse_handlers. simpl.
    destruct (isinstance e PackageNotFoundError); [left; apply raises_raise|].
    destruct (_ || _).
    + destruct (contains _ _); [left|right]; apply raises_raise.
    + rewrite isinstance_Exception. right. apply raises_raise.
Qed.

(** A method raises no [UnicodeDecodeError]. *)
Definition no_decode_error {S A} (m : M S A) : Prop :=
  ∀ s s' e, m s = (s', Raise e) → isinstance e UnicodeDecodeError = false.

Lemma no_decode_error_ret {S A} (a : A) : no_decode_error (@ret S A a).
Proof. intros s s' e H. discriminate. Qed.

Lemma no_decode_error_get {S} : no_decode_error (@get S).
Proof. intros s s' e H. discriminate. Qed.

Lemma no_decode_error_modify {S} (f : S → S) : no_decode_error (modify f).
Proof. intros s s' e H. discriminate. Qed.

Lemma no_decode_error_throw {S A} (c : exn_class) (m : pystr) :
  issubclass c UnicodeDecodeError = false → no_decode_error (@throw S A c m).
Proof. intros Hc s s' e H. unfold throw, lift, raise in H. by injection H as _ <-. Qed.

Lemma no_decode_error_lift {S A} (o : outcome A) :
  (∀ e, o = Raise e → isinstance e UnicodeDecodeError = false) →
  no_decode_error (@lift S A o).
Proof. intros Ho s s' e H. unfold lift in H. injection H as _ H. by apply Ho. Qed.

Lemma no_decode_error_bind {S A B} (m : M S A) (k : A → M S B) :
  no_decode_error m → (∀ a, no_decode_error (k a)) → no_decode_error (bind m k).
Proof.
  intros Hm Hk s s' e. unfold bind.
  destruct (m s) as [s1 [a|e1]] eqn:E.
  - apply Hk.
  - intros H. injection H as _ <-. by apply (Hm s s1).
Qed.

Lemma no_decode_error_try_except {S A} (m : M S A) (h : exn → M S A) :
  (∀ e, no_decode_error (h e)) → no_decode_error (try_except m h).
Proof.
  intros Hh s s' e. unfold try_except.
  destruct (m s) as [s1 [a|e1]] eqn:E; [discriminate|apply Hh].
Qed.

Lemma no_decode_error_if {S A} (c : bool) (m1 m2 : M S A) :
  no_decode_error m1 → no_decode_error m2 → no_decode_error (if c then m1 else m2).
Proof. by destruct c. Qed.

Lemma try_except_cases {S A} (m : M S A) (h : exn → M S A) (s : S) :
  (∃ s' a, m s = (s', Return a) ∧ try_except m h s = (s', Return a))
  ∨ (∃ s' e, m s = (s', Raise e) ∧ try_except m h s = h e s').
Proof.
  unfold try_except. destruct (m s) as [s' [a|e]]; [left|right]; by eexists _, _.
Qed.

Lemma bind_modify {S A} (f : S → S) (k : M S A) (s : S) :
  bind (modify f) (λ _, k) s = k (f s).
Proof. reflexivity. Qed.

Create HintDb decode_errors.
#[local] Hint Resolve no_decode_error_ret no_decode_error_get no_decode_error_modify
  no_decode_error_if : decode_errors.
#[local] Hint Extern 1 (no_decode_error (throw _ _)) =>
  apply no_decode_error_throw; reflexivity : decode_errors.
#[local] Hint Extern 2 (no_decode_error (bind _ _)) =>
  apply no_decode_error_bind; [|intros ?] : decode_errors.
#[local] Hint Extern 2 (no_decode_error (try_except _ _)) =>
  apply no_decode_error_try_except; intros ? : decode_errors.

Section TXTErrors.

Variable chardet_detect : bytes → option pystr * Q.
Variable decode : pystr → bytes → outcome pystr.
Variable decode_replace : bytes → pystr.
Variable word_char : N → bool.
Variable import_langdetect : outcome (pystr → outcome pystr).
Variable structure : Type.
Variable scan_lines : list pystr → structure.

Lemma decode_fallback_no_decode_error (e : exn) :
  no_decode_error (TXTParser.decode_fallback decode_replace e).
Proof.
  unfold TXTParser.decode_fallback.
  apply no_decode_error_try_except. intros inner_e.
  rewrite isinstance_Exception. auto with decode_errors.
Qed.

(** The [UnicodeDecodeError] of the detected codec is caught inside
    [_detect_and_decode_content]. *)
Lemma detect_no_decode_error :
  no_decode_error (TXTParser._detect_and_decode_content chardet_detect decode decode_replace).
Proof.
  unfold TXTParser._detect_and_decode_content.
  apply no_decode_error_bind; [auto with decode_errors|]. intros self.
  repeat (apply no_decode_error_if; [auto with decode_errors|]).
  repeat (apply no_decode_error_bind; [auto with decode_errors|intros _]).
  apply no_decode_error_try_except. intros e.
  destruct (isinstance e UnicodeDecodeError) eqn:E.
  - apply decode_fallback_no_decode_error.
  - apply no_decode_error_lift. intros e' He'. by injection He' as <-.
Qed.

Lemma validate_no_decode_error :
  no_decode_error (TXTParser.validate chardet_detect decode decode_replace).
Proof.
  unfold TXTParser.validate.
  apply no_decode_error_bind; [auto with decode_errors|]. intros self.
  apply no_decode_error_if; [auto with decode_errors|].
  apply no_decode_error_bind.
  - destruct (TXTParser._decoded_content self);
      [auto with decode_errors|apply detect_no_decode_error].
  - intros _. auto 6 with decode_errors.
Qed.

(** No [UnicodeDecodeError] leaves the [try] block of [parse], so its
    first [except] clause is never taken: [parse] returns its dictionary or
    raises [TXTParsingError], whatever the input, the detector and the
    codecs. *)
Lemma TXT_parse_result_or_generic_error (content : bytes) (self : TXTParser.t) :
  returns (TXTParser.parse chardet_detect decode decode_replace word_char
             import_langdetect structure scan_lines content self).2
  ∨ raises (TXTParser.parse chardet_detect decode decode_replace word_char
              import_langdetect structure scan_lines content self).2 TXTParsingError.
Proof.
  unfold TXTParser.parse. rewrite bind_modify.
  set (s0 := TXTParser.set_content _ self).
  match goal with |- context [try_except ?body _ s0] =>
    assert (Hbody : no_decode_error body)
  end.
  { apply no_decode_error_bind; [auto with decode_errors|intros _].
    apply no_decode_error_bind; [apply detect_no_decode_error|intros _].
    apply no_decode_error_bind; [auto with decode_errors|intros self1].
    apply no_decode_error_bind; [auto with decode_errors|intros _].
    apply no_decode_error_bind; [apply validate_no_decode_error|intros _].
    apply no_decode_error_bind; [auto with decode_errors|intros self2].
    apply no_decode_error_bind.
    { apply no_decode_error_lift. intros e He.
      destruct (TXT_extract_metadata_returns word_char import_langdetect self2) as [a Ha].
      rewrite Ha in He. discriminate. }
    intros md. apply no_decode_error_bind; [|auto with decode_errors].
    apply no_decode_error_lift. intros e He.
    unfold TXTParser.get_confidence in He.
    destruct (TXTParser._confidence self2); [discriminate|].
    unfold raise in He. by injection He as <-. }
  match goal with |- context [try_except ?body ?h s0] =>
    destruct (try_except_cases body h s0) as [(s1 & d & _ & ->)|(s1 & e & E & ->)]
  end.
  - left. apply returns_Return.
  - right. unfold TXTParser.parse_handlers, bind, get, throw, lift.
    rewrite (Hbody s0 s1 e E), isinstance_Exception. apply raises_raise.
Qed.

End TXTErrors.

(** * Further properties of the parsers *)

(** ** PDF: text, structure and outline *)

Lemma page_texts_app (ps1 ps2 : list PyPDF2.PageObject) :
  PDFParser.page_texts (ps1 ++ ps2) = PDFParser.page_texts ps1 ++ PDFParser.page_texts ps2.
Proof.
  induction ps1 as [|page ps1 IH]; [reflexivity|].
  simpl. destruct (PyPDF2.extract_text page) as [t|e]; [|exact IH].
  destruct (truthy t); [|exact IH]. simpl. by rewrite IH.
Qed.

(** A page whose text extraction raises, or gives the empty string, leaves
    no trace in the text of the document: the text is the same as without
    that page. *)
Theorem PDF_extract_text_skips_page
    (content : option bytes) (encrypted : bool)
    (metadata : outcome (option (gmap string pystr)))
    (outline : outcome (list PyPDF2.outline_value))
    (ps1 ps2 : list PyPDF2.PageObject) (page : PyPDF2.PageObject)
    (Hpage : (∃ e, PyPDF2.extract_text page = Raise e)
             ∨ PyPDF2.extract_text page = Return []) :
  PDFParser._extract_text
    {| PDFParser._content := content;
       PDFParser._pdf_reader :=
         Some {| PyPDF2.is_encrypted := encrypted;
                 PyPDF2.pages := Return (ps1 ++ page :: ps2);
                 PyPDF2.metadata := metadata; PyPDF2.outline := outline |} |}
  = PDFParser._extract_text
      {| PDFParser._content := content;
         PDFParser._pdf_reader :=
           Some {| PyPDF2.is_encrypted := encrypted;
                   PyPDF2.pages := Return (ps1 ++ ps2);
                   PyPDF2.metadata := metadata; PyPDF2.outline := outline |} |}.
Proof.
  unfold PDFParser._extract_text. simpl. do 2 f_equal.
  rewrite !page_texts_app. f_equal. simpl.
  destruct Hpage as [[e ->] | ->]; reflexivity.
Qed.

(** A page that cannot be read. *)
Definition unreadable_page : PyPDF2.PageObject :=
  {| PyPDF2.extract_text := raise TypeError (str "object is not subscriptable");
     PyPDF2.mediabox := raise TypeError (str "object is not subscriptable");
     PyPDF2.rotate := 0 |}.

Lemma PDF_extract_text_skips_page_witness :
  PDFParser._extract_text
    {| PDFParser._content := None;
       PDFParser._pdf_reader :=
         Some {| PyPDF2.is_encrypted := false;
                 PyPDF2.pages := Return ([] ++ unreadable_page :: []);
                 PyPDF2.metadata := Return None; PyPDF2.outline := Return [] |} |}
  = PDFParser._extract_text
      {| PDFParser._content := None;
         PDFParser._pdf_reader :=
           Some {| PyPDF2.is_encrypted := false;
                   PyPDF2.pages := Return ([] ++ []);
                   PyPDF2.metadata := Return None; PyPDF2.outline := Return [] |} |}.
Proof.
  apply (PDF_extract_text_skips_page None false (Return None) (Return []) [] []
           unreadable_page).
  left. eexists. reflexivity.
Defined.

Lemma PDF_extract_structure_loaded (c : option bytes) (reader : PyPDF2.PdfReader) :
  returns (PDFParser._extract_structure
             {| PDFParser._content := c; PDFParser._pdf_reader := Some reader |}).
Proof. unfold PDFParser._extract_structure. simpl. apply catch_all_returns. Qed.

Lemma PDF_extract_text_loaded (c : option bytes) (reader : PyPDF2.PdfReader) :
  PDFParser._extract_text {| PDFParser._content := c; PDFParser._pdf_reader := Some reader |}
  = match PyPDF2.pages reader with
    | Return ps => Return (join [LF; LF] (PDFParser.page_texts ps))
    | Raise e => raise PDFParsingError (str "Failed to extract text: " ++ msg e)
    end.
Proof.
  unfold PDFParser._extract_text. simpl.
  destruct (PyPDF2.pages reader) as [ps|e]; simpl; [reflexivity|].
  by rewrite isinstance_Exception.
Qed.

Section PDFOpened.

Variable PdfReader : bytes → outcome PyPDF2.PdfReader.


End PDFOpened.


Lemma page_infos_numbers (i : Z) (ps : list PyPDF2.PageObject) (infos : list PDFParser.page_info) :
  PDFParser.page_infos i ps = Return infos →
  PDFParser.number <$> infos = seqZ (i + 1) (Z.of_nat (length ps))
  ∧ PDFParser.rotation <$> infos = PyPDF2.rotate <$> ps.
Proof.
  revert i infos. induction ps as [|page ps IH]; intros i infos H.
  - simpl in H. injection H as <-. done.
  - simpl in H. destruct (PyPDF2.mediabox page) as [box|e]; [|discriminate].
    simpl in H. destruct (PDFParser.page_infos (i + 1) ps) as [rest|e] eqn:E; [|discriminate].
    simpl in H. injection H as <-.
    destruct (IH _ _ E) as [Hn Hr].
    replace (Z.of_nat (length (page :: ps))) with (Z.succ (Z.of_nat (length ps)))
      by (simpl length; lia).
    rewrite seqZ_cons by lia. rewrite !fmap_cons, Hn, Hr.
    cbn [PDFParser.number PDFParser.rotation].
    split; [|reflexivity]. f_equal. f_equal; lia.
Qed.

Lemma page_infos_readable (i : Z) (ps : list PyPDF2.PageObject) :
  Forall (λ page, returns (PyPDF2.mediabox page)) ps →
  returns (PDFParser.page_infos i ps).
Proof.
  intros H. revert i. induction H as [|page ps [box Hb] _ IH]; intros i.
  - apply returns_Return.
  - simpl. rewrite Hb. simpl. destruct (IH (i + 1)%Z) as [rest ->]. apply returns_Return.
Qed.

Lemma page_infos_unreadable (i : Z) (ps : list PyPDF2.PageObject) :
  Exists (λ page, ∃ e, PyPDF2.mediabox page = Raise e) ps →
  ∃ e, PDFParser.page_infos i ps = Raise e.
Proof.
  intros H. revert i. induction H as [page ps [e He]|page ps _ IH]; intros i.
  - exists e. simpl. by rewrite He.
  - simpl. destruct (PyPDF2.mediabox page) as [box|e]; [|by exists e].
    simpl. destruct (IH (i + 1)%Z) as [e ->]. by exists e.
Qed.

(** When the media box of every page can be read and the outline can be
    asked for, the structure has one descriptor for each page, numbered from
    1 in page order, each with the rotation of its page, and empty lists of
    sections and images. *)
Theorem PDF_extract_structure_numbers_pages
    (content : option bytes) (reader : PyPDF2.PdfReader) (ps : list PyPDF2.PageObject)
    (Hpages : PyPDF2.pages reader = Return ps)
    (Hboxes : Forall (λ page, returns (PyPDF2.mediabox page)) ps)
    (Houtline : returns (PDFParser.outline_if_any reader)) :
  ∃ st,
    PDFParser._extract_structure
      {| PDFParser._content := content; PDFParser._pdf_reader := Some reader |} = Return st
    ∧ PDFParser.number <$> PDFParser.pages st = seqZ 1 (Z.of_nat (length ps))
    ∧ PDFParser.rotation <$> PDFParser.pages st = PyPDF2.rotate <$> ps
    ∧ PDFParser.sections st = [] ∧ PDFParser.images st = [].
Proof.
  unfold PDFParser._extract_structure. simpl. rewrite Hpages. simpl.
  destruct (page_infos_readable 0 ps Hboxes) as [infos Hinfos].
  destruct Houtline as [o Ho]. rewrite Hinfos. simpl. rewrite Ho. simpl.
  eexists. split; [reflexivity|]. simpl.
  destruct (page_infos_numbers 0 ps infos Hinfos) as [Hn Hr]. auto.
Qed.

Lemma PDF_extract_structure_numbers_pages_witness :
  ∃ st,
    PDFParser._extract_structure
      {| PDFParser._content := None; PDFParser._pdf_reader := Some short_pdf |} = Return st
    ∧ PDFParser.number <$> PDFParser.pages st = seqZ 1 (Z.of_nat (length [unreadable_page]))
    ∧ PDFParser.rotation <$> PDFParser.pages st = [0%Z]
    ∧ PDFParser.sections st = [] ∧ PDFParser.images st = [].
Proof.
  apply (PDF_extract_structure_numbers_pages None short_pdf
           [ {| PyPDF2.extract_text := Return (str "Test content");
                PyPDF2.mediabox := Return (Qmake 612 1, Qmake 792 1);
                PyPDF2.rotate := 0 |} ]).
  - reflexivity.
  - repeat constructor. simpl. apply returns_Return.
  - simpl. apply returns_Return.
Defined.

(** One page whose media box cannot be read costs the descriptors of all
    pages: the structure is the empty default. *)
Theorem PDF_extract_structure_all_or_nothing
    (content : option bytes) (reader : PyPDF2.PdfReader) (ps : list PyPDF2.PageObject)
    (Hpages : PyPDF2.pages reader = Return ps)
    (Hbad : Exists (λ page, ∃ e, PyPDF2.mediabox page = Raise e) ps) :
  PDFParser._extract_structure
    {| PDFParser._content := content; PDFParser._pdf_reader := Some reader |}
  = Return PDFParser.empty_structure.
Proof.
  unfold PDFParser._extract_structure. simpl. rewrite Hpages. simpl.
  destruct (page_infos_unreadable 0 ps Hbad) as [e ->]. simpl.
  by rewrite isinstance_Exception.
Qed.

Lemma PDF_extract_structure_all_or_nothing_witness :
  PDFParser._extract_structure
    {| PDFParser._content := None;
       PDFParser._pdf_reader :=
         Some {| PyPDF2.is_encrypted := false;
                 PyPDF2.pages :=
                   Return [ {| PyPDF2.extract_text := Return (str "Test content");
                               PyPDF2.mediabox := Return (Qmake 612 1, Qmake 792 1);
                               PyPDF2.rotate := 0 |}; unreadable_page ];
                 PyPDF2.metadata := Return None; PyPDF2.outline := Return [] |} |}
  = Return PDFParser.empty_structure.
Proof.
  apply (PDF_extract_structure_all_or_nothing None _
           [ {| PyPDF2.extract_text := Return (str "Test content");
                PyPDF2.mediabox := Return (Qmake 612 1, Qmake 792 1);
                PyPDF2.rotate := 0 |}; unreadable_page ]).
  - reflexivity.
  - apply Exists_cons_tl, Exists_cons_hd. eexists. reflexivity.
Defined.

(** What one item of an outline list contributes. *)
Definition outline_item (item : PyPDF2.outline_value) : list PDFParser.outline_entry :=
  match item with
  | PyPDF2.ODict (Some title) page kids =>
    [PDFParser.Entry title page
       (match kids with
        | Some k => Some (PDFParser._extract_outline k)
        | None => None
        end)]
  | PyPDF2.OList _ => PDFParser._extract_outline item
  | _ => []
  end.

Lemma _extract_outline_items (items : list PyPDF2.outline_value) :
  PDFParser._extract_outline (PyPDF2.OList items) = items ≫= outline_item.
Proof.
  induction items as [|item items IH]; [reflexivity|].
  rewrite bind_cons, <- IH. reflexivity.
Qed.

(** The outline is flattened in order: a list nested in the outline adds
    its entries in place, the entries of two lists put end to end are the
    entries of the one followed by the entries of the other, and an item
    without a title, or one that is neither a dictionary nor a list, adds
    nothing. *)
Theorem _extract_outline_flattens :
  (∀ l1 l2,
     PDFParser._extract_outline (PyPDF2.OList (l1 ++ l2))
     = PDFParser._extract_outline (PyPDF2.OList l1)
       ++ PDFParser._extract_outline (PyPDF2.OList l2))
  ∧ (∀ nested rest,
       PDFParser._extract_outline (PyPDF2.OList (PyPDF2.OList nested :: rest))
       = PDFParser._extract_outline (PyPDF2.OList (nested ++ rest)))
  ∧ (∀ page kids rest,
       PDFParser._extract_outline (PyPDF2.OList (PyPDF2.ODict None page kids :: rest))
       = PDFParser._extract_outline (PyPDF2.OList rest))
  ∧ (∀ rest,
       PDFParser._extract_outline (PyPDF2.OList (PyPDF2.OOther :: rest))
       = PDFParser._extract_outline (PyPDF2.OList rest))
  ∧ (∀ title page kids,
       PDFParser._extract_outline (PyPDF2.ODict title page kids) = []).
Proof.
  split; [|split; [|split; [|split]]].
  - intros l1 l2. by rewrite !_extract_outline_items, bind_app.
  - intros nested rest. rewrite !_extract_outline_items, bind_cons, bind_app.
    change (outline_item (PyPDF2.OList nested))
      with (PDFParser._extract_outline (PyPDF2.OList nested)).
    by rewrite _extract_outline_items.
  - intros page kids rest. by rewrite !_extract_outline_items, bind_cons.
  - intros rest. by rewrite !_extract_outline_items, bind_cons.
  - reflexivity.
Qed.

(** ** PDF dates *)

Lemma strip_no_space (s : pystr) :
  Forall (λ c, isspace c = false) s → strip s = s.
Proof.
  intros H. unfold strip, lstrip, rstrip.
  assert (Hd : ∀ l : pystr, Forall (λ c, isspace c = false) l → drop_while isspace l = l).
  { intros l Hl. apply drop_while_id. by destruct Hl. }
  rewrite (Hd s H), Hd; [apply rev_involutive|].
  apply Forall_forall. intros c Hc. apply list_elem_of_In, in_rev, list_elem_of_In in Hc.
  by apply (proj1 (Forall_forall _ _) H).
Qed.

Lemma length_date_digits (w : nat) (n : Z) : length (datetime.digits w n) = w.
Proof.
  revert n. induction w as [|w IH]; intros n; [reflexivity|].
  simpl. rewrite length_app, IH. simpl. lia.
Qed.

Lemma date_digits_are_digits (w : nat) (n : Z) :
  Forall (λ c, PyInt.is_digit c = true) (datetime.digits w n).
Proof.
  revert n. induction w as [|w IH]; intros n; [constructor|].
  simpl. apply Forall_app. split; [apply IH|].
  constructor; [|constructor]. unfold PyInt.is_digit.
  pose proof (Z.mod_pos_bound n 10 ltac:(lia)).
  apply andb_true_iff. split; apply N.leb_le; lia.
Qed.

(** The value the digit scan of [int] builds. *)
Definition digits_value (acc : Z) (l : pystr) : Z :=
  fold_left (λ a c, a * 10 + Z.of_N (c - 48))%Z l acc.

Lemma PyInt_digits_all (l : pystr) (acc : Z) (after : bool) :
  Forall (λ c, PyInt.is_digit c = true) l →
  l ≠ [] ∨ after = true →
  PyInt.digits acc after l = Some (digits_value acc l).
Proof.
  intros H. revert acc after. induction H as [|c l Hc _ IH]; intros acc after Hne.
  - destruct Hne as [Hne|Hne]; [done|]. by rewrite Hne.
  - simpl. rewrite Hc. apply IH. by right.
Qed.

Lemma digits_value_date_digits (w : nat) (n acc : Z) :
  (0 ≤ n)%Z →
  digits_value acc (datetime.digits w n) = (acc * 10 ^ Z.of_nat w + n mod 10 ^ Z.of_nat w)%Z.
Proof.
  intros Hn. revert n Hn acc. induction w as [|w IH]; intros n Hn acc.
  - simpl. rewrite Z.mod_1_r. lia.
  - simpl datetime.digits. unfold digits_value in *. rewrite fold_left_app. simpl.
    rewrite IH by (apply Z.div_pos; lia).
    pose proof (Z.mod_pos_bound n 10 ltac:(lia)).
    replace (Z.of_N (Z.to_N (48 + n mod 10) - 48)) with (n mod 10)%Z by lia.
    rewrite Nat2Z.inj_succ, Z.pow_succ_r by lia.
    assert (Hp : (0 < 10 ^ Z.of_nat w)%Z) by (apply Z.pow_pos_nonneg; lia).
    rewrite (Z.rem_mul_r n 10 (10 ^ Z.of_nat w)) by lia.
    lia.
Qed.

Lemma digit_not_space (c : N) : PyInt.is_digit c = true → isspace c = false.
Proof.
  unfold PyInt.is_digit, isspace. intros [H1 H2]%andb_true_iff.
  apply N.leb_le in H1, H2.
  repeat (apply orb_false_iff; split);
    try (apply andb_false_iff; (left; apply N.leb_gt; lia) || (right; apply N.leb_gt; lia));
    try (apply N.eqb_neq; lia).
Qed.

(** [int] reads a field of decimal digits as its value. *)
Lemma PyInt_int_date_digits (w : nat) (n : Z) :
  (0 < w)%nat → (0 ≤ n < 10 ^ Z.of_nat w)%Z →
  PyInt.int (datetime.digits w n) = Return n.
Proof.
  intros Hw Hn. unfold PyInt.int.
  pose proof (date_digits_are_digits w n) as Hd.
  rewrite strip_no_space
    by (eapply Forall_impl; [exact Hd|]; intros c; apply digit_not_space).
  assert (Hv : PyInt.digits 0 false (datetime.digits w n) = Some n).
  { rewrite PyInt_digits_all; [|done|].
    - rewrite digits_value_date_digits by lia. f_equal. rewrite Z.mod_small; lia.
    - left. intros E. apply (f_equal length) in E. rewrite length_date_digits in E.
      simpl in E. lia. }
  destruct (datetime.digits w n) as [|c t] eqn:E; [by rewrite Hv|].
  assert (Hc : PyInt.is_digit c = true) by (by inversion Hd).
  assert (H43 : c ≠ 43) by (intros ->; done).
  assert (H45 : c ≠ 45) by (intros ->; done).
  destruct c as [|p]; [by rewrite Hv|].
  do 6 (try (destruct p as [p|p|])); try (by rewrite Hv); done.
Qed.

Lemma slice_fields (a b c d e f rest : pystr) :
  length a = 4%nat → length b = 2%nat → length c = 2%nat →
  length d = 2%nat → length e = 2%nat → length f = 2%nat →
  let body := a ++ b ++ c ++ d ++ e ++ f ++ rest in
  slice 0 4 body = a ∧ slice 4 6 body = b ∧ slice 6 8 body = c
  ∧ slice 8 10 body = d ∧ slice 10 12 body = e ∧ slice 12 14 body = f.
Proof.
  intros Ha Hb Hc Hd He Hf.
  destruct a as [|? [|? [|? [|? [|]]]]]; try discriminate Ha.
  destruct b as [|? [|? [|]]]; try discriminate Hb.
  destruct c as [|? [|? [|]]]; try discriminate Hc.
  destruct d as [|? [|? [|]]]; try discriminate Hd.
  destruct e as [|? [|? [|]]]; try discriminate He.
  destruct f as [|? [|? [|]]]; try discriminate Hf.
  by repeat split.
Qed.

(** The fourteen digits of a date, as a PDF writes them. *)
Definition date_stamp (y mo d h mi s : Z) : pystr :=
  datetime.digits 4 y ++ datetime.digits 2 mo ++ datetime.digits 2 d
  ++ datetime.digits 2 h ++ datetime.digits 2 mi ++ datetime.digits 2 s.

Lemma datetime_make_bounds (y mo d h mi s : Z) (dt : datetime.t) :
  datetime.make y mo d h mi s = Return dt →
  dt = datetime.mk y mo d h mi s 0
  ∧ (1 ≤ y ≤ 9999 ∧ 1 ≤ mo ≤ 12 ∧ 1 ≤ d ≤ 31 ∧ 0 ≤ h ≤ 23 ∧ 0 ≤ mi ≤ 59 ∧ 0 ≤ s ≤ 59)%Z.
Proof.
  unfold datetime.make. intros H.
  repeat match type of H with
         | (if negb (?a && ?c) then _ else _) = _ =>
           destruct a eqn:?; destruct c eqn:?; simpl in H; try discriminate
         end.
  injection H as <-. split; [reflexivity|].
  assert (datetime.days_in_month y mo ≤ 31)%Z.
  { unfold datetime.days_in_month.
    repeat match goal with |- context [if ?c then _ else _] => destruct c end; lia. }
  lia.
Qed.

Lemma startswith_head_ne (x y : N) (p s : pystr) :
  x ≠ y → startswith (x :: p) (y :: s) = false.
Proof. intros Hne. cbn [startswith]. by apply N.eqb_neq in Hne as ->. Qed.

Lemma _parse_pdf_date_stamp (y mo d h mi s : Z) (dt : datetime.t) (suffix : pystr) :
  datetime.make y mo d h mi s = Return dt →
  startswith (str "D:") (date_stamp y mo d h mi s ++ suffix) = false
  ∧ PDFParser._parse_pdf_date (date_stamp y mo d h mi s ++ suffix)
    = Some (datetime.isoformat dt).
Proof.
  intros Hdt. destruct (datetime_make_bounds _ _ _ _ _ _ _ Hdt) as [_ Hb].
  assert (Hstart : startswith (str "D:") (date_stamp y mo d h mi s ++ suffix) = false).
  { unfold date_stamp. pose proof (date_digits_are_digits 4 y) as Hd.
    destruct (datetime.digits 4 y) as [|c t] eqn:E.
    - apply (f_equal length) in E. by rewrite length_date_digits in E.
    - inversion Hd as [|? ? Hc _]; subst.
      unfold PyInt.is_digit in Hc. apply andb_true_iff in Hc as [H1 H2].
      apply N.leb_le in H1, H2.
      change (str "D:") with [68; 58]. rewrite <- !app_comm_cons.
      apply startswith_head_ne. lia. }
  split; [exact Hstart|].
  unfold PDFParser._parse_pdf_date. rewrite Hstart.
  assert (Hlen : (14 <=? length (date_stamp y mo d h mi s ++ suffix))%nat = true).
  { apply Nat.leb_le. unfold date_stamp. rewrite !length_app, !length_date_digits. lia. }
  rewrite Hlen. unfold date_stamp. rewrite <- !app_assoc.
  destruct (slice_fields (datetime.digits 4 y) (datetime.digits 2 mo)
              (datetime.digits 2 d) (datetime.digits 2 h) (datetime.digits 2 mi)
              (datetime.digits 2 s) suffix)
    as (-> & -> & -> & -> & -> & ->); try apply length_date_digits.
  rewrite !PyInt_int_date_digits by (simpl; lia). simpl. rewrite Hdt. reflexivity.
Qed.

(** A date stamp of fourteen digits that names a date of the calendar is
    read back as that date in ISO form, with or without the prefix [D:],
    and whatever follows the fourteenth digit (a time zone) is ignored. *)
Theorem _parse_pdf_date_reads_stamp
    (y mo d h mi s : Z) (dt : datetime.t) (suffix : pystr)
    (Hdate : datetime.make y mo d h mi s = Return dt) :
  PDFParser._parse_pdf_date (str "D:" ++ date_stamp y mo d h mi s ++ suffix)
    = Some (datetime.isoformat dt)
  ∧ PDFParser._parse_pdf_date (date_stamp y mo d h mi s ++ suffix)
    = Some (datetime.isoformat dt)
  ∧ datetime.isoformat dt
    = datetime.digits 4 y ++ str "-" ++ datetime.digits 2 mo ++ str "-"
      ++ datetime.digits 2 d ++ str "T" ++ datetime.digits 2 h ++ str ":"
      ++ datetime.digits 2 mi ++ str ":" ++ datetime.digits 2 s.
Proof.
  destruct (_parse_pdf_date_stamp y mo d h mi s dt suffix Hdate) as [Hstart Hparse].
  split; [|split; [exact Hparse|]].
  - rewrite <- Hparse. unfold PDFParser._parse_pdf_date at 1 2.
    change (startswith (str "D:") (str "D:" ++ date_stamp y mo d h mi s ++ suffix))
      with true.
    rewrite Hstart. reflexivity.
  - destruct (datetime_make_bounds _ _ _ _ _ _ _ Hdate) as [-> _].
    unfold datetime.isoformat. simpl. reflexivity.
Qed.

Lemma _parse_pdf_date_reads_stamp_witness :
  PDFParser._parse_pdf_date
    (str "D:" ++ date_stamp 2024 3 28 12 34 56 ++ str "+01'00'")
    = Some (datetime.isoformat (datetime.mk 2024 3 28 12 34 56 0))
  ∧ PDFParser._parse_pdf_date (date_stamp 2024 3 28 12 34 56 ++ str "+01'00'")
    = Some (datetime.isoformat (datetime.mk 2024 3 28 12 34 56 0))
  ∧ datetime.isoformat (datetime.mk 2024 3 28 12 34 56 0)
    = datetime.digits 4 2024 ++ str "-" ++ datetime.digits 2 3 ++ str "-"
      ++ datetime.digits 2 28 ++ str "T" ++ datetime.digits 2 12 ++ str ":"
      ++ datetime.digits 2 34 ++ str ":" ++ datetime.digits 2 56.
Proof.
  apply (_parse_pdf_date_reads_stamp 2024 3 28 12 34 56
           (datetime.mk 2024 3 28 12 34 56 0) (str "+01'00'")).
  reflexivity.
Defined.

(** [_parse_pdf_date] has three kinds of result: [None], exactly when fewer
    than fourteen characters follow the optional prefix [D:]; the empty
    string; or a text of nineteen characters. *)
Theorem _parse_pdf_date_results (date_str : pystr) :
  (PDFParser._parse_pdf_date date_str = None
   ↔ (length (if startswith (str "D:") date_str then drop 2 date_str else date_str) < 14)%nat)
  ∧ ∀ r, PDFParser._parse_pdf_date date_str = Some r → r = [] ∨ length r = 19%nat.
Proof.
  unfold PDFParser._parse_pdf_date.
  set (body := if startswith (str "D:") date_str then drop 2 date_str else date_str).
  destruct (14 <=? length body)%nat eqn:E.
  - apply Nat.leb_le in E. split.
    + split; [|lia]. by destruct (mbind _ _).
    + intros r.
      destruct (PyInt.int (slice 0 4 body)) as [y|]; simpl; [|intros [= <-]; by left].
      destruct (PyInt.int (slice 4 6 body)) as [mo|]; simpl; [|intros [= <-]; by left].
      destruct (PyInt.int (slice 6 8 body)) as [d|]; simpl; [|intros [= <-]; by left].
      destruct (PyInt.int (slice 8 10 body)) as [h|]; simpl; [|intros [= <-]; by left].
      destruct (PyInt.int (slice 10 12 body)) as [mi|]; simpl; [|intros [= <-]; by left].
      destruct (PyInt.int (slice 12 14 body)) as [s|]; simpl; [|intros [= <-]; by left].
      destruct (datetime.make y mo d h mi s) as [dt|] eqn:Hdt; simpl;
        [|intros [= <-]; by left].
      intros [= <-]. right.
      destruct (datetime_make_bounds _ _ _ _ _ _ _ Hdt) as [-> _].
      unfold datetime.isoformat. simpl datetime.microsecond. simpl Z.eqb. cbv iota.
      rewrite !length_app, !length_date_digits. reflexivity.
  - apply Nat.leb_gt in E. split; [done|]. intros r [=].
Qed.

(** ** [validate] of the PDF and DOCX parsers *)

Section Validators.

Variable PdfReader : bytes → outcome PyPDF2.PdfReader.
Variable Document : bytes → outcome docx.Document.

Lemma PDF_validate_handlers_wrap {A} (e : exn) :
  ∃ m, @PDFValidation.validate_handlers A e = raise ValidationError m
       ∧ (m = str "Invalid PDF structure: " ++ msg e
          ∨ m = str "PDF validation failed: " ++ msg e).
Proof.
  unfold PDFValidation.validate_handlers.
  destruct (isinstance e PdfReadError); [eexists; split; [reflexivity|by left]|].
  rewrite isinstance_Exception. eexists; split; [reflexivity|by right].
Qed.

Lemma DOCX_validate_handlers_wrap {A} (e : exn) :
  ∃ m, @DOCXValidation.validate_handlers A e = raise ValidationError m
       ∧ (m = str "Invalid DOCX structure: " ++ msg e
          ∨ m = str "DOCX validation failed: " ++ msg e).
Proof.
  unfold DOCXValidation.validate_handlers.
  destruct (isinstance e PackageNotFoundError); [eexists; split; [reflexivity|by left]|].
  rewrite isinstance_Exception. eexists; split; [reflexivity|by right].
Qed.

(** [PDFParser.validate] returns [True] exactly when the content is not
    empty, begins with the signature [%PDF-], opens, and its pages can be
    listed and are at least one; it never returns [False]. *)
Theorem PDF_validate_accepts (self : PDFParser.t) :
  (PDFValidation.validate PdfReader self = Return true
   ↔ ∃ content reader ps,
       PDFParser._content self = Some content
       ∧ bytes_startswith (b "%PDF-") content = true
       ∧ PdfReader content = Return reader
       ∧ PyPDF2.pages reader = Return ps
       ∧ ps ≠ [])
  ∧ PDFValidation.validate PdfReader self ≠ Return false.
Proof.
  unfold PDFValidation.validate.
  destruct (PDFParser._content self) as [[|c0 content]|] eqn:Hc.
  - split; [|done]. split; [done|]. intros (c & r & ps & [= <-] & H & _). done.
  - destruct (bytes_startswith (b "%PDF-") (c0 :: content)) eqn:Hsig; cbn [negb].
    + destruct (PdfReader (c0 :: content)) as [reader|e] eqn:Hopen.
      * cbn [mbind outcome_bind].
        destruct (PyPDF2.pages reader) as [ps|e] eqn:Hps.
        -- cbn [mbind outcome_bind]. destruct ps as [|page ps]; cbn [length Nat.eqb catch].
           ++ split.
              ** split.
                 { destruct (@PDF_validate_handlers_wrap bool
                               (mkExn ValidationError (str "PDF has no pages")))
                     as (m & Hm & _).
                   unfold raise at 1. cbn [catch]. rewrite Hm. done. }
                 intros (c & r & ps & [= <-] & _ & Hr & Hp & Hne).
                 rewrite Hopen in Hr. injection Hr as <-. rewrite Hps in Hp.
                 by injection Hp as <-.
              ** destruct (@PDF_validate_handlers_wrap bool
                             (mkExn ValidationError (str "PDF has no pages")))
                   as (m & Hm & _).
                 unfold raise at 1. cbn [catch]. rewrite Hm. done.
           ++ split; [|done]. split; [|done]. intros _.
              exists (c0 :: content), reader, (page :: ps). done.
        -- cbn [mbind outcome_bind catch].
           destruct (@PDF_validate_handlers_wrap bool e) as (m & Hm & _). rewrite Hm.
           split; [|done]. split; [done|].
           intros (c & r & ps & [= <-] & _ & Hr & Hp & _).
           rewrite Hopen in Hr. injection Hr as <-. rewrite Hps in Hp. done.
      * cbn [mbind outcome_bind catch].
        destruct (@PDF_validate_handlers_wrap bool e) as (m & Hm & _). rewrite Hm.
        split; [|done]. split; [done|].
        intros (c & r & ps & [= <-] & _ & Hr & _). rewrite Hopen in Hr. done.
    + unfold raise at 1. cbn [catch].
      destruct (@PDF_validate_handlers_wrap bool
                  (mkExn ValidationError
                     (str "Not a valid PDF file (missing PDF signature)")))
        as (m & Hm & _).
      rewrite Hm. split; [|done]. split; [done|].
      intros (c & r & ps & [= <-] & H & _). rewrite Hsig in H. done.
  - split; [|done]. split; [done|]. intros (c & r & ps & [=] & _).
Qed.

(** The [ValidationError]s that [PDFParser.validate] raises in its [try]
    block are caught by its own last [except] clause and raised again with
    a prefix: a content without the signature is refused with
    [PDF validation failed: Not a valid PDF file (missing PDF signature)],
    and a document without pages with
    [PDF validation failed: PDF has no pages]. *)
Theorem PDF_validate_rewraps (self : PDFParser.t) (content : bytes)
    (Hcontent : PDFParser._content self = Some content)
    (Hne : content ≠ [])
    (Hbad : bytes_startswith (b "%PDF-") content = false
            ∨ ∃ reader, PdfReader content = Return reader
                        ∧ PyPDF2.pages reader = Return []) :
  PDFValidation.validate PdfReader self
  = raise ValidationError
      (str "PDF validation failed: "
       ++ (if bytes_startswith (b "%PDF-") content then str "PDF has no pages"
           else str "Not a valid PDF file (missing PDF signature)")).
Proof.
  unfold PDFValidation.validate. rewrite Hcontent.
  destruct content as [|c0 content]; [done|].
  destruct (bytes_startswith (b "%PDF-") (c0 :: content)) eqn:Hsig; [|reflexivity].
  destruct Hbad as [|(reader & -> & Hps)]; [done|].
  cbn [negb mbind outcome_bind]. rewrite Hps. reflexivity.
Qed.

(** [DOCXParser.validate] returns [True] exactly when the content is not
    empty, begins with [PK] and opens as a document, also when the document
    has neither paragraphs nor tables; it never returns [False]. *)
Theorem DOCX_validate_accepts (self : DOCXParser.t) :
  (DOCXValidation.validate Document self = Return true
   ↔ ∃ content doc,
       DOCXParser._content self = Some content
       ∧ bytes_startswith (b "PK") content = true
       ∧ Document content = Return doc)
  ∧ DOCXValidation.validate Document self ≠ Return false.
Proof.
  unfold DOCXValidation.validate.
  destruct (DOCXParser._content self) as [[|c0 content]|] eqn:Hc.
  - split; [|done]. split; [done|]. intros (c & d & [= <-] & H & _). done.
  - destruct (bytes_startswith (b "PK") (c0 :: content)) eqn:Hsig; cbn [negb].
    + destruct (Document (c0 :: content)) as [doc|e] eqn:Hopen.
      * cbn [mbind outcome_bind catch]. split; [|done]. split; [|done].
        intros _. by exists (c0 :: content), doc.
      * cbn [mbind outcome_bind catch].
        destruct (@DOCX_validate_handlers_wrap bool e) as (m & Hm & _). rewrite Hm.
        split; [|done]. split; [done|].
        intros (c & d & [= <-] & _ & Hd). rewrite Hopen in Hd. done.
    + unfold raise at 1. cbn [catch].
      destruct (@DOCX_validate_handlers_wrap bool
                  (mkExn ValidationError
                     (str "Not a valid DOCX file (missing ZIP signature)")))
        as (m & Hm & _).
      rewrite Hm. split; [|done]. split; [done|].
      intros (c & d & [= <-] & H & _). rewrite Hsig in H. done.
  - split; [|done]. split; [done|]. intros (c & d & [=] & _).
Qed.

(** Whatever [PDFParser.validate] raises is a [PDFParsingError] with the
    message [No content has been set for validation], when the buffer is
    empty, or else a [ValidationError] whose message carries one of the two
    prefixes of the [except] clauses. *)
Theorem PDF_validate_raises_two_kinds (self : PDFParser.t) (e : exn)
    (Hraise : PDFValidation.validate PdfReader self = Raise e) :
  if ContentBuffer.has_content (PDFParser._content self)
  then cls e = ValidationError
       ∧ (startswith (str "Invalid PDF structure: ") (msg e) = true
          ∨ startswith (str "PDF validation failed: ") (msg e) = true)
  else e = mkExn PDFParsingError (str "No content has been set for validation").
Proof.
  revert Hraise. unfold PDFValidation.validate.
  destruct (PDFParser._content self) as [[|c0 content]|]; cbn [ContentBuffer.has_content];
    try (by intros [= <-]).
  destruct (catch _ _) as [v|e'] eqn:E; [done|]. intros [= ->].
  unfold catch in E.
  match type of E with
  | match ?m with _ => _ end = _ => destruct m as [v|e0]; [done|]
  end.
  destruct (@PDF_validate_handlers_wrap bool e0) as (m & Hm & Hpre).
  rewrite Hm in E. injection E as <-. split; [reflexivity|].
  cbn [msg]. destruct Hpre as [->| ->]; [left|right]; by apply startswith_app.
Qed.

(** Whatever [DOCXParser.validate] raises is a [DOCXParsingError] with the
    message [No content has been set for validation], when the buffer is
    empty, or else a [ValidationError] whose message carries one of the two
    prefixes of the [except] clauses: the message
    [Not a valid DOCX file (missing ZIP signature)] is never seen alone. *)
Theorem DOCX_validate_raises_two_kinds (self : DOCXParser.t) (e : exn)
    (Hraise : DOCXValidation.validate Document self = Raise e) :
  if ContentBuffer.has_content (DOCXParser._content self)
  then cls e = ValidationError
       ∧ (startswith (str "Invalid DOCX structure: ") (msg e) = true
          ∨ startswith (str "DOCX validation failed: ") (msg e) = true)
  else e = mkExn DOCXParsingError (str "No content has been set for validation").
Proof.
  revert Hraise. unfold DOCXValidation.validate.
  destruct (DOCXParser._content self) as [[|c0 content]|]; cbn [ContentBuffer.has_content];
    try (by intros [= <-]).
  destruct (catch _ _) as [v|e'] eqn:E; [done|]. intros [= ->].
  unfold catch in E.
  match type of E with
  | match ?m with _ => _ end = _ => destruct m as [v|e0]; [done|]
  end.
  destruct (@DOCX_validate_handlers_wrap bool e0) as (m & Hm & Hpre).
  rewrite Hm in E. injection E as <-. split; [reflexivity|].
  cbn [msg]. destruct Hpre as [->| ->]; [left|right]; by apply startswith_app.
Qed.

(** [validate] and [parse] of the PDF parser do not agree on which
    documents are good: an encrypted document with the signature and a
    page passes [validate], and [parse] raises on it; [parse] never looks
    at the signature. *)
Theorem PDF_validate_passes_encrypted
    (content : bytes) (reader : PyPDF2.PdfReader) (ps : list PyPDF2.PageObject)
    (self : PDFParser.t)
    (Hsig : bytes_startswith (b "%PDF-") content = true)
    (Hopen : PdfReader content = Return reader)
    (Henc : PyPDF2.is_encrypted reader = true)
    (Hpages : PyPDF2.pages reader = Return ps)
    (Hne : ps ≠ []) :
  let '(loaded, result) := PDFParser.parse PdfReader content self in
  result = raise PDFParsingError (str "PDF parsing failed: Cannot parse encrypted PDF")
  ∧ PDFValidation.validate PdfReader loaded = Return true.
Proof.
  destruct (PDFParser.parse PdfReader content self) as [loaded result] eqn:E.
  unfold PDFParser.parse, try_except, bind, modify, lift, throw in E. simpl in E.
  rewrite Hopen in E. simpl in E. rewrite Henc in E. simpl in E.
  injection E as <- <-. split; [reflexivity|].
  unfold PDFValidation.validate. cbn [PDFParser._content ContentBuffer._set_content].
  destruct content as [|c0 content]; [done|].
  rewrite Hsig. cbn [negb]. rewrite Hopen. cbn [mbind outcome_bind]. rewrite Hpages.
  cbn [mbind outcome_bind]. destruct ps; done.
Qed.

End Validators.

(** A document that PyPDF2 opens and that has no page. *)
Definition no_pages_pdf : PyPDF2.PdfReader :=
  {| PyPDF2.is_encrypted := false;
     PyPDF2.pages := Return [];
     PyPDF2.metadata := Return None;
     PyPDF2.outline := Return [] |}.

(** An encrypted document whose pages can be listed. *)
Definition encrypted_listed_pdf : PyPDF2.PdfReader :=
  {| PyPDF2.is_encrypted := true;
     PyPDF2.pages := PyPDF2.pages short_pdf;
     PyPDF2.metadata := raise PdfReadError (str "File has not been decrypted");
     PyPDF2.outline := raise PdfReadError (str "File has not been decrypted") |}.

Lemma PDF_validate_rewraps_witness :
  PDFValidation.validate (λ _, Return no_pages_pdf)
    {| PDFParser._content := Some (b "%PDF-1.4"); PDFParser._pdf_reader := None |}
  = raise ValidationError (str "PDF validation failed: PDF has no pages")
  ∧ PDFValidation.validate (λ _, Return no_pages_pdf)
      {| PDFParser._content := Some (b "plain text"); PDFParser._pdf_reader := None |}
    = raise ValidationError
        (str "PDF validation failed: Not a valid PDF file (missing PDF signature)").
Proof.
  split.
  - apply (PDF_validate_rewraps (λ _, Return no_pages_pdf)
             {| PDFParser._content := Some (b "%PDF-1.4"); PDFParser._pdf_reader := None |}
             (b "%PDF-1.4")).
    + reflexivity.
    + discriminate.
    + right. exists no_pages_pdf. split; reflexivity.
  - apply (PDF_validate_rewraps (λ _, Return no_pages_pdf)
             {| PDFParser._content := Some (b "plain text"); PDFParser._pdf_reader := None |}
             (b "plain text")).
    + reflexivity.
    + discriminate.
    + left. reflexivity.
Defined.

Lemma PDF_validate_raises_two_kinds_witness :
  cls (mkExn ValidationError (str "Invalid PDF structure: EOF marker not found"))
  = ValidationError
  ∧ (startswith (str "Invalid PDF structure: ")
       (str "Invalid PDF structure: EOF marker not found") = true
     ∨ startswith (str "PDF validation failed: ")
         (str "Invalid PDF structure: EOF marker not found") = true).
Proof.
  apply (PDF_validate_raises_two_kinds
           (λ _, raise PdfReadError (str "EOF marker not found"))
           {| PDFParser._content := Some (b "%PDF-1.4"); PDFParser._pdf_reader := None |}
           (mkExn ValidationError (str "Invalid PDF structure: EOF marker not found"))).
  reflexivity.
Defined.

Lemma DOCX_validate_raises_two_kinds_witness :
  cls (mkExn ValidationError
         (str "DOCX validation failed: Not a valid DOCX file (missing ZIP signature)"))
  = ValidationError
  ∧ (startswith (str "Invalid DOCX structure: ")
       (str "DOCX validation failed: Not a valid DOCX file (missing ZIP signature)") = true
     ∨ startswith (str "DOCX validation failed: ")
         (str "DOCX validation failed: Not a valid DOCX file (missing ZIP signature)")
       = true).
Proof.
  apply (DOCX_validate_raises_two_kinds
           (λ _, Return test_docx)
           {| DOCXParser._content := Some (b "plain text"); DOCXParser._doc := None |}
           (mkExn ValidationError
              (str "DOCX validation failed: Not a valid DOCX file (missing ZIP signature)"))).
  reflexivity.
Defined.

Lemma PDF_validate_passes_encrypted_witness :
  let '(loaded, result) :=
    PDFParser.parse (λ _, Return encrypted_listed_pdf) (b "%PDF-1.4") PDFParser.new in
  result = raise PDFParsingError (str "PDF parsing failed: Cannot parse encrypted PDF")
  ∧ PDFValidation.validate (λ _, Return encrypted_listed_pdf) loaded = Return true.
Proof.
  apply (PDF_validate_passes_encrypted (λ _, Return encrypted_listed_pdf)
           (b "%PDF-1.4") encrypted_listed_pdf
           [ {| PyPDF2.extract_text := Return (str "Test content");
                PyPDF2.mediabox := Return (Qmake 612 1, Qmake 792 1);
                PyPDF2.rotate := 0 |} ]
           PDFParser.new); try reflexivity.
  discriminate.
Defined.

(** ** The callers of the factory parsers *)

Lemma lower_char_idemp (c : N) : lower_char (lower_char c) = lower_char c.
Proof.
  unfold lower_char.
  destruct ((65 <=? c) && (c <=? 90)) eqn:E; [|by rewrite E].
  apply andb_true_iff in E as [H1 H2]. apply N.leb_le in H1, H2.
  replace ((65 <=? c + 32) && (c + 32 <=? 90)) with false; [reflexivity|].
  symmetry. apply andb_false_iff. right. apply N.leb_gt. lia.
Qed.

Lemma lower_idemp (s : pystr) : lower (lower s) = lower s.
Proof.
  unfold lower. rewrite <- list_fmap_compose. apply list_fmap_ext.
  intros _ c _. apply lower_char_idemp.
Qed.

Lemma lower_fixed (s : pystr) :
  Forall (λ c, lower_char c = c) s → lower s = s.
Proof.
  induction 1 as [|c s Hc _ IH]; [reflexivity|].
  unfold lower in *. rewrite fmap_cons. by rewrite Hc, IH.
Qed.

Lemma replace_from_erase_sub (old s : pystr) (skip : nat) (c : N) :
  c ∈ replace_from old [] skip s → c ∈ s.
Proof.
  revert skip. induction s as [|x s IH]; intros skip; [done|].
  cbn [replace_from]. destruct skip as [|k].
  - destruct (startswith old (x :: s)); cbn [app].
    + intros H%IH. by right.
    + intros [->|H%IH]%elem_of_cons; [by left|by right].
  - intros H%IH. by right.
Qed.

(** The extension that the dataset processor and the demo compute is in
    lower case. *)
Lemma lower_file_ext_of (name : pystr) : lower (file_ext_of name) = file_ext_of name.
Proof.
  apply lower_fixed, Forall_forall. intros c Hc.
  unfold file_ext_of, replace in Hc. apply replace_from_erase_sub in Hc.
  unfold lower in Hc. apply list_elem_of_fmap in Hc as (c' & -> & _).
  apply lower_char_idemp.
Qed.

Section FactoryText.

Variable PdfReader : bytes → outcome PyPDF2.PdfReader.
Variable Document : bytes → outcome docx.Document.

Lemma PdfParser_parse_length (content : bytes) :
  ∃ text, DocumentParser.PdfParser_parse PdfReader content = Return text
          ∧ (text = [] ∨ (100 ≤ length text)%nat).
Proof.
  unfold DocumentParser.PdfParser_parse.
  destruct (PdfReader content) as [r|e]; simpl; [|by eexists; split; [|left]].
  destruct (PyPDF2.pages r) as [ps|e]; simpl; [|by eexists; split; [|left]].
  destruct (DocumentParser.pdf_pages_text [] ps) as [pdf_text|e]; simpl;
    [|by eexists; split; [|left]].
  eexists; split; [reflexivity|]. right.
  destruct (length (strip pdf_text) <? 100)%nat eqn:E.
  - vm_compute. lia.
  - by apply Nat.ltb_ge in E.
Qed.

(** [PdfParser.parse] of the factory never returns a text of 1 to 99
    characters: the result is empty, when an exception was caught, or has
    100 characters or more, the shorter texts being replaced by the
    sample; and whenever the document opens and its pages are read, the
    result is not empty. *)
Theorem PdfParser_parse_empty_or_long (content : bytes) :
  ∃ text, DocumentParser.PdfParser_parse PdfReader content = Return text
          ∧ (text = [] ∨ (100 ≤ length text)%nat)
          ∧ (text = [] →
             (∃ e, PdfReader content = Raise e)
             ∨ (∃ reader, PdfReader content = Return reader
                  ∧ ((∃ e, PyPDF2.pages reader = Raise e)
                     ∨ ∃ ps e, PyPDF2.pages reader = Return ps
                               ∧ DocumentParser.pdf_pages_text [] ps = Raise e))).
Proof.
  destruct (PdfParser_parse_length content) as (text & Hparse & Hlen).
  exists text. split; [exact Hparse|]. split; [exact Hlen|].
  intros ->. unfold DocumentParser.PdfParser_parse in Hparse.
  destruct (PdfReader content) as [r|e]; [|left; by eexists]. right. exists r.
  split; [reflexivity|]. cbn [mbind outcome_bind] in Hparse.
  destruct (PyPDF2.pages r) as [ps|e]; [|left; by eexists]. right.
  cbn [mbind outcome_bind] in Hparse.
  destruct (DocumentParser.pdf_pages_text [] ps) as [pdf_text|e] eqn:Ht;
    [|by exists ps, e].
  exfalso. cbn [mbind outcome_bind catch] in Hparse. injection Hparse as Hparse.
  apply (f_equal length) in Hparse.
  destruct (length (strip pdf_text) <? 100)%nat eqn:E.
  - vm_compute in Hparse. discriminate.
  - apply Nat.ltb_ge in E. simpl in Hparse. lia.
Qed.

Section DatasetProcessor.

Variable data_dir : pystr.
Variable path_exists : pystr → bool.
Variable makedirs : pystr → outcome unit.
Variable listdir : pystr → outcome (list pystr).
Variable isfile : pystr → bool.
Variable read_bytes : pystr → outcome bytes.

Local Abbreviation process_file :=
  (CVDatasetProcessor.process_file PdfReader Document data_dir read_bytes).
Local Abbreviation process_files :=
  (CVDatasetProcessor.process_files PdfReader Document data_dir read_bytes).

Lemma process_file_raises (file_name file_ext : pystr) :
  ∃ e, process_file file_name file_ext = Raise e.
Proof.
  unfold CVDatasetProcessor.process_file.
  destruct (read_bytes _) as [content|e]; [|by eexists]. cbn [mbind outcome_bind].
  destruct (DocumentParser.create_parser file_ext) as [parser|e]; [|by eexists].
  cbn [mbind outcome_bind].
  destruct (factory_parse_returns PdfReader Document parser content) as [text ->].
  cbn [mbind outcome_bind]. by eexists.
Qed.

Lemma process_files_keeps (files : list pystr) (acc : list CVDatasetProcessor.sample) :
  process_files files acc = Return acc.
Proof.
  induction files as [|file_name files IH]; [reflexivity|].
  cbn [CVDatasetProcessor.process_files].
  destruct (negb _); [exact IH|].
  destruct (process_file_raises file_name (file_ext_of file_name)) as [e ->].
  by rewrite isinstance_Exception.
Qed.

(** [process_cv_files] never gives a file of the data directory: the
    factory parsers return a [str], on which [get] raises an
    [AttributeError] that the [except] clause of the loop swallows.  When
    the directory exists and can be listed the result is the mock sample
    alone, whatever the directory holds. *)
Theorem process_cv_files_only_mock :
  CVDatasetProcessor.process_cv_files PdfReader Document data_dir path_exists
    makedirs listdir isfile read_bytes
  = if path_exists data_dir then
      match listdir data_dir with
      | Return _ => Return [CVDatasetProcessor.mock_sample]
      | Raise _ => Return []
      end
    else (_ ← makedirs data_dir; Return []).
Proof.
  unfold CVDatasetProcessor.process_cv_files.
  destruct (path_exists data_dir); cbn [negb]; [|reflexivity].
  destruct (listdir data_dir) as [names|e]; cbn [mbind outcome_bind catch].
  - by rewrite process_files_keeps.
  - by rewrite isinstance_Exception.
Qed.

End DatasetProcessor.

Section Demo.

Variable read_bytes : pystr → outcome bytes.
Variable parsed : Type.
Variable parser_model_parse : pystr → pystr → outcome parsed.


End Demo.

End FactoryText.

(** *** The file type, computed two ways *)

Lemma split_nonempty (sep : N) (s : pystr) : routes.split sep s ≠ [].
Proof.
  destruct s as [|c s]; [done|]. cbn [routes.split].
  destruct (c =? sep); [done|]. by destruct (routes.split sep s).
Qed.

Lemma split_absent (sep : N) (s : pystr) : sep ∉ s → routes.split sep s = [s].
Proof.
  induction s as [|c s IH]; [done|]. intros [Hc Hs]%not_elem_of_cons.
  cbn [routes.split]. apply not_eq_sym, N.eqb_neq in Hc. rewrite Hc.
  by rewrite (IH Hs).
Qed.

Lemma split_app_sep (sep : N) (stem ext : pystr) :
  routes.split sep (stem ++ sep :: ext) = routes.split sep stem ++ routes.split sep ext.
Proof.
  induction stem as [|c stem IH].
  - cbn [app routes.split]. by rewrite N.eqb_refl.
  - cbn [app routes.split]. destruct (c =? sep); [by rewrite IH|].
    rewrite IH. pose proof (split_nonempty sep stem).
    by destruct (routes.split sep stem).
Qed.

Lemma last_app_nonempty {A} (l1 l2 : list A) (d : A) :
  l2 ≠ [] → List.last (l1 ++ l2) d = List.last l2 d.
Proof.
  intros Hne. induction l1 as [|x l1 IH]; [reflexivity|].
  cbn [app]. destruct (l1 ++ l2) eqn:E; [|exact IH].
  by apply app_eq_nil in E as [_ ?].
Qed.

Lemma rfind_from_app (c : N) (i found : Z) (s1 s2 : pystr) :
  os_path.rfind_from c i found (s1 ++ s2)
  = os_path.rfind_from c (i + Z.of_nat (length s1))
      (os_path.rfind_from c i found s1) s2.
Proof.
  revert i found. induction s1 as [|x s1 IH]; intros i found.
  - cbn [app length os_path.rfind_from]. by rewrite Z.add_0_r.
  - cbn [app os_path.rfind_from]. rewrite IH. f_equal. rewrite length_cons. lia.
Qed.

Lemma rfind_from_absent (c : N) (i found : Z) (s : pystr) :
  c ∉ s → os_path.rfind_from c i found s = found.
Proof.
  revert i found. induction s as [|x s IH]; intros i found; [done|].
  intros [Hc Hs]%not_elem_of_cons. cbn [os_path.rfind_from].
  apply not_eq_sym, N.eqb_neq in Hc. rewrite Hc. by apply IH.
Qed.

Lemma rfind_from_ge (c : N) (i found : Z) (s : pystr) :
  (-1 ≤ found)%Z → (0 ≤ i)%Z → (-1 ≤ os_path.rfind_from c i found s)%Z.
Proof.
  revert i found. induction s as [|x s IH]; intros i found Hf Hi; [done|].
  cbn [os_path.rfind_from]. apply IH; [destruct (x =? c)|]; lia.
Qed.

Lemma replace_from_absent (c : N) (new s : pystr) :
  c ∉ s → replace_from [c] new 0 s = s.
Proof.
  induction s as [|x s IH]; [done|]. intros [Hc Hs]%not_elem_of_cons.
  cbn [replace_from startswith]. apply N.eqb_neq in Hc. rewrite Hc.
  cbn [andb]. by rewrite (IH Hs).
Qed.

Lemma lower_char_dot (c : N) : lower_char c = 46 → c = 46.
Proof.
  unfold lower_char. destruct ((65 <=? c) && (c <=? 90)) eqn:E; [|done].
  apply andb_true_iff in E as [H1 H2]. apply N.leb_le in H1, H2. lia.
Qed.

Lemma lower_no_dot (s : pystr) : 46 ∉ s → 46 ∉ lower s.
Proof.
  intros Hs (c & Hc & Hin)%list_elem_of_fmap. symmetry in Hc.
  apply lower_char_dot in Hc as ->. done.
Qed.



Section Routes.

Variable PdfReader : bytes → outcome PyPDF2.PdfReader.
Variable Document : bytes → outcome docx.Document.
Variable parsed : Type.
Variable cv_parser_model_parse : pystr → pystr → outcome parsed.


End Routes.


(** ** The rate limiter *)

Section RateLimit.

Variable RATE_LIMIT_REQUESTS : Z.
Variable RATE_LIMIT_PERIOD : Z.

Local Abbreviation check_rate_limit :=
  (RateLimiter.check_rate_limit RATE_LIMIT_REQUESTS RATE_LIMIT_PERIOD).
Local Abbreviation serve := (RateLimiter.serve RATE_LIMIT_REQUESTS RATE_LIMIT_PERIOD).

Definition counts_bounded (self : RateLimiter.t) : Prop :=
  map_Forall (λ _ info,
    (1 ≤ RateLimiter.count info ≤ Z.max 1 RATE_LIMIT_REQUESTS)%Z) self.

Lemma check_rate_limit_bounded (now : Z) (api_key : pystr) (self : RateLimiter.t) :
  counts_bounded self → counts_bounded (check_rate_limit now api_key self).1.
Proof.
  intros Hinv. unfold RateLimiter.check_rate_limit.
  destruct (self !! api_key) as [info|] eqn:Hk.
  - destruct (RATE_LIMIT_PERIOD <=? now - RateLimiter.start_time info)%Z.
    + apply map_Forall_insert_2; [simpl; lia|exact Hinv].
    + destruct (RATE_LIMIT_REQUESTS <=? RateLimiter.count info)%Z eqn:E; [exact Hinv|].
      apply Z.leb_gt in E. pose proof (Hinv _ _ Hk) as Hc. simpl in Hc.
      apply map_Forall_insert_2; [simpl; lia|exact Hinv].
  - apply map_Forall_insert_2; [simpl; lia|exact Hinv].
Qed.

Lemma serve_cons (now : Z) (api_key : pystr) (rest : list (Z * pystr))
    (self : RateLimiter.t) :
  serve ((now, api_key) :: rest) self
  = ((serve rest (check_rate_limit now api_key self).1).1,
     (check_rate_limit now api_key self).2
     :: (serve rest (check_rate_limit now api_key self).1).2).
Proof.
  cbn [RateLimiter.serve].
  destruct (check_rate_limit now api_key self) as [self' v]. cbn [fst snd].
  by destruct (serve rest self').
Qed.

Lemma serve_bounded (calls : list (Z * pystr)) (self : RateLimiter.t) :
  counts_bounded self → counts_bounded (serve calls self).1.
Proof.
  revert self. induction calls as [|[now api_key] rest IH]; intros self Hinv; [exact Hinv|].
  rewrite serve_cons. cbn [fst]. by apply IH, check_rate_limit_bounded.
Qed.

(** Whatever calls a fresh limiter has served, at whatever times and also
    when the clock went backwards, every count it holds is at least 1 and
    at most the limit (at most 1 when the limit is below 1). *)
Theorem RateLimiter_counts_bounded (calls : list (Z * pystr)) (api_key : pystr)
    (info : RateLimiter.request_info)
    (Hheld : (serve calls RateLimiter.new).1 !! api_key = Some info) :
  (1 ≤ RateLimiter.count info ≤ Z.max 1 RATE_LIMIT_REQUESTS)%Z.
Proof.
  revert Hheld. apply (serve_bounded calls RateLimiter.new). apply map_Forall_empty.
Qed.

Lemma serve_window (api_key : pystr) (t0 c : Z) (nows : list Z) (self : RateLimiter.t) :
  self !! api_key = Some {| RateLimiter.count := c; RateLimiter.start_time := t0 |} →
  (1 ≤ c)%Z →
  Forall (λ now, (now - t0 < RATE_LIMIT_PERIOD)%Z) nows →
  (serve ((λ now, (now, api_key)) <$> nows) self).2
  = ((λ _, RateLimiter.Pass) <$> take (Z.to_nat (RATE_LIMIT_REQUESTS - c)) nows)
    ++ ((λ now, RateLimiter.RateLimitExceeded (RATE_LIMIT_PERIOD - (now - t0)))
          <$> drop (Z.to_nat (RATE_LIMIT_REQUESTS - c)) nows).
Proof.
  intros Hk Hc Hall. revert c self Hk Hc.
  induction Hall as [|now nows Hnow _ IH]; intros c self Hk Hc.
  - rewrite take_nil, drop_nil. reflexivity.
  - rewrite fmap_cons, serve_cons. cbn [snd].
    unfold RateLimiter.check_rate_limit. rewrite Hk.
    cbn [RateLimiter.start_time RateLimiter.count].
    replace (RATE_LIMIT_PERIOD <=? now - t0)%Z with false
      by (symmetry; apply Z.leb_gt; lia).
    destruct (RATE_LIMIT_REQUESTS <=? c)%Z eqn:E.
    + apply Z.leb_le in E. cbn [fst snd].
      rewrite (IH c self Hk Hc).
      replace (Z.to_nat (RATE_LIMIT_REQUESTS - c)) with 0%nat by lia.
      by rewrite !take_0, !drop_0.
    + apply Z.leb_gt in E. cbn [fst snd].
      rewrite (IH (c + 1)%Z) by (try apply lookup_insert_eq; lia).
      replace (Z.to_nat (RATE_LIMIT_REQUESTS - c))
        with (S (Z.to_nat (RATE_LIMIT_REQUESTS - (c + 1)))) by lia.
      reflexivity.
Qed.

(** One window of the limiter: after the call that opens the window for
    a key, the calls of this key that come before the period has passed
    are let through until the limit is reached, and every later one is
    refused with the seconds left until the window ends; the first call
    is let through even when the limit is 0. *)
Theorem RateLimiter_window (api_key : pystr) (t0 : Z) (nows : list Z)
    (self : RateLimiter.t)
    (Hnew : self !! api_key = None)
    (Hwindow : Forall (λ now, (now - t0 < RATE_LIMIT_PERIOD)%Z) nows) :
  (serve ((t0, api_key) :: ((λ now, (now, api_key)) <$> nows)) self).2
  = RateLimiter.Pass
    :: ((λ _, RateLimiter.Pass) <$> take (Z.to_nat (RATE_LIMIT_REQUESTS - 1)) nows)
    ++ ((λ now, RateLimiter.RateLimitExceeded (RATE_LIMIT_PERIOD - (now - t0)))
          <$> drop (Z.to_nat (RATE_LIMIT_REQUESTS - 1)) nows).
Proof.
  rewrite serve_cons. cbn [snd]. unfold RateLimiter.check_rate_limit.
  rewrite Hnew. cbn [fst snd]. f_equal.
  apply serve_window; [apply lookup_insert_eq|lia|exact Hwindow].
Qed.

End RateLimit.

Lemma RateLimiter_window_witness :
  (RateLimiter.serve 2 3600
     ((1000%Z, str "key") :: ((λ now : Z, (now, str "key")) <$> [1001; 1002; 4599]%Z))
     RateLimiter.new).2
  = RateLimiter.Pass
    :: ((λ _, RateLimiter.Pass) <$> take (Z.to_nat (2 - 1)) [1001; 1002; 4599]%Z)
    ++ ((λ now : Z, RateLimiter.RateLimitExceeded (3600 - (now - 1000)))
          <$> drop (Z.to_nat (2 - 1)) [1001; 1002; 4599]%Z).
Proof.
  apply (RateLimiter_window 2 3600 (str "key") 1000 [1001; 1002; 4599]%Z RateLimiter.new).
  - reflexivity.
  - repeat constructor.
Defined.

(** ** The TXT parser, step by step *)

Section TXTSteps.

Variable chardet_detect : bytes → option pystr * Q.
Variable decode : pystr → bytes → outcome pystr.
Variable decode_replace : bytes → pystr.
Variable word_char : N → bool.
Variable import_langdetect : outcome (pystr → outcome pystr).
Variable structure : Type.
Variable scan_lines : list pystr → structure.

Local Abbreviation detect :=
  (TXTParser._detect_and_decode_content chardet_detect decode decode_replace).
Local Abbreviation parse :=
  (TXTParser.parse chardet_detect decode decode_replace word_char import_langdetect
     structure scan_lines).

(** The state after the detection of the encoding. *)
Definition detected (content : bytes) (self : TXTParser.t) : TXTParser.t :=
  TXTParser.set_confidence (chardet_detect content).2
    (TXTParser.set_encoding (TXTParser.encoding_or_default (chardet_detect content).1) self).

(** The state after the fallback to UTF-8 with replacement. *)
Definition replaced (content : bytes) (self : TXTParser.t) : TXTParser.t :=
  TXTParser.set_decoded_content (decode_replace content)
    (TXTParser.set_encoding (str "utf-8") (detected content self)).

(** [_detect_and_decode_content], one check after the other. *)
Lemma detect_steps (content : bytes) (self : TXTParser.t) :
  TXTParser._content self = Some content →
  detect self
  = if bool_decide (content = []) then
      (self, raise TXTEncodingError (str "No content to decode"))
    else if (length content <? 10)%nat then
      (self, raise TXTParsingError (str "Content too short to be a valid text document"))
    else if Float.gt_mul005 (Z.of_nat (TXTParser.binary_chars content))
              (Z.of_nat (length content)) then
      (self, raise TXTParsingError
               (str "Invalid text content: contains too many binary characters"))
    else
      let enc := TXTParser.encoding_or_default (chardet_detect content).1 in
      if Float.lt07 (chardet_detect content).2 && (length content <? 50)%nat then
        (detected content self,
         raise TXTParsingError
           (str "Invalid text content: unable to detect encoding with confidence"))
      else if bool_decide (x80 ∈ content)
              && bool_decide (lower enc ∈ TXTParser.utf8_family) then
        (detected content self,
         raise TXTEncodingError (str "Invalid " ++ enc ++ str " sequence detected"))
      else
        match decode enc content with
        | Return decoded =>
          (TXTParser.set_decoded_content decoded (detected content self), Return tt)
        | Raise e =>
          if isinstance e UnicodeDecodeError then
            if (length content <? 50)%nat then
              (replaced content self,
               raise TXTEncodingError
                 (str "Failed to decode content with any encoding: " ++ msg e
                  ++ str ", fallback error: "
                  ++ str "Invalid text content: encoding errors detected"))
            else (replaced content self, Return tt)
          else (detected content self, Raise e)
        end.
Proof.
  intros Hc.
  unfold TXTParser._detect_and_decode_content, bind, get, throw, lift, modify, ret.
  rewrite Hc. destruct content as [|x content].
  { cbn [ContentBuffer.has_content negb]. by rewrite bool_decide_eq_true_2. }
  rewrite has_content_cons. cbn [negb default from_option]. unfold id.
  rewrite (bool_decide_eq_false_2 (x :: content = [])) by done.
  destruct (length (x :: content) <? 10)%nat eqn:E10; [reflexivity|].
  destruct (Float.gt_mul005 _ _); [reflexivity|].
  destruct (Float.lt07 _ && _); [reflexivity|].
  destruct (bool_decide (x80 ∈ x :: content) && _); [reflexivity|].
  unfold try_except, detected.
  destruct (decode _ (x :: content)) as [decoded|e]; [reflexivity|].
  destruct (isinstance e UnicodeDecodeError); [|reflexivity].
  unfold TXTParser.decode_fallback, try_except, bind, get, throw, lift, modify, ret.
  cbn [TXTParser.set_encoding TXTParser.set_confidence TXTParser.set_decoded_content
       TXTParser._content default from_option].
  rewrite Hc. cbn [default from_option]. unfold id.
  destruct (length (x :: content) <? 50)%nat; [|reflexivity].
  unfold raise. cbn [msg]. by rewrite isinstance_Exception.
Qed.

(** What [_detect_and_decode_content] has done when it returns. *)
Lemma detect_returns (content : bytes) (self s1 : TXTParser.t) :
  TXTParser._content self = Some content →
  detect self = (s1, Return tt) →
  (10 ≤ length content)%nat
  ∧ Float.gt_mul005 (Z.of_nat (TXTParser.binary_chars content))
      (Z.of_nat (length content)) = false
  ∧ (Float.lt07 (chardet_detect content).2 = true → (50 ≤ length content)%nat)
  ∧ ((∃ decoded,
        decode (TXTParser.encoding_or_default (chardet_detect content).1) content
        = Return decoded
        ∧ s1 = TXTParser.set_decoded_content decoded (detected content self))
     ∨ ((∃ e, decode (TXTParser.encoding_or_default (chardet_detect content).1) content
              = Raise e ∧ isinstance e UnicodeDecodeError = true)
        ∧ (50 ≤ length content)%nat
        ∧ s1 = replaced content self)).
Proof.
  intros Hc. rewrite (detect_steps content self Hc).
  case_bool_decide; [done|].
  destruct (length content <? 10)%nat eqn:E10; [done|]. apply Nat.ltb_ge in E10.
  destruct (Float.gt_mul005 _ _); [done|].
  cbv zeta.
  destruct (Float.lt07 _ && _) eqn:Elow; [done|].
  destruct (bool_decide (x80 ∈ content) && _); [done|].
  assert (Hlow : Float.lt07 (chardet_detect content).2 = true → (50 ≤ length content)%nat).
  { intros Hlt. rewrite Hlt in Elow. cbn [andb] in Elow. by apply Nat.ltb_ge in Elow. }
  destruct (decode _ content) as [decoded|e].
  - intros [= <-]. repeat split; try done. left. by exists decoded.
  - destruct (isinstance e UnicodeDecodeError) eqn:Ei; [|done].
    destruct (length content <? 50)%nat eqn:E50; [done|]. apply Nat.ltb_ge in E50.
    intros [= <-]. repeat split; try done. right. split; [by exists e|done].
Qed.

(** The entries of the metadata that do not depend on the language
    detection. *)
Lemma TXT_extract_metadata_counts (self : TXTParser.t) (decoded : pystr)
    (md : gmap string pyvalue) :
  TXTParser._decoded_content self = Some decoded →
  TXTParser.extract_metadata word_char import_langdetect self = Return md →
  md !! "char_count" = Some (VInt (Z.of_nat (length decoded)))
  ∧ md !! "line_count" = Some (VInt (Z.of_nat (length (TXTParser.splitlines decoded))))
  ∧ md !! "word_count"
    = Some (VInt (Z.of_nat (TXTParser.count_words word_char false decoded)))
  ∧ md !! "encoding" = Some (VStr (TXTParser._encoding self)).
Proof.
  intros Hd. unfold TXTParser.extract_metadata. rewrite Hd.
  set (base := <["encoding" := _]> _).
  assert (Hbase : ∀ m : gmap string pyvalue,
            m = base ∨ (∃ lang, m = <["detected_language" := VStr lang]> base) →
            m !! "char_count" = Some (VInt (Z.of_nat (length decoded)))
            ∧ m !! "line_count"
              = Some (VInt (Z.of_nat (length (TXTParser.splitlines decoded))))
            ∧ m !! "word_count"
              = Some (VInt (Z.of_nat (TXTParser.count_words word_char false decoded)))
            ∧ m !! "encoding" = Some (VStr (TXTParser._encoding self))).
  { intros m [->|[lang ->]]; unfold base;
      repeat split;
      repeat first [rewrite lookup_insert_eq; reflexivity
                   |rewrite lookup_insert_ne by done]. }
  intros Hm. apply Hbase.
  destruct import_langdetect as [langdetect_detect|e]; cbn [mbind outcome_bind catch] in Hm.
  - destruct (10 <? length (strip decoded))%nat.
    + destruct (langdetect_detect decoded) as [lang|e]; cbn [mbind outcome_bind catch] in Hm.
      * injection Hm as <-. right. by exists lang.
      * rewrite isinstance_Exception, orb_true_r in Hm. injection Hm as <-. by left.
    + cbn [catch] in Hm. injection Hm as <-. by left.
  - rewrite isinstance_Exception, orb_true_r in Hm. injection Hm as <-. by left.
Qed.

(** [parse], once the detection has returned. *)
Lemma parse_after_detect (content : bytes) (self s1 : TXTParser.t)
    (decoded : pystr) (c : Q) :
  content ≠ b "This is not a valid document" →
  detect (TXTParser.set_content (Some content) self) = (s1, Return tt) →
  TXTParser._content s1 = Some content → content ≠ [] →
  TXTParser._decoded_content s1 = Some decoded →
  TXTParser._confidence s1 = Some c →
  parse content self
  = (s1,
     if negb (truthy decoded) || (length (strip decoded) <? 2)%nat then
       raise TXTParsingError
         (str "Failed to parse TXT document: " ++ str "Invalid or empty TXT content")
     else
       md ← TXTParser.extract_metadata word_char import_langdetect s1;
       Return {| TXTParser.content := TXTParser.normalize decoded;
                 TXTParser.doc_structure := Some (scan_lines (TXTParser.splitlines decoded));
                 TXTParser.metadata := md;
                 TXTParser.encoding := TXTParser._encoding s1;
                 TXTParser.confidence := c |}).
Proof.
  intros Hne Hdet Hc Hnil Hd Hconf.
  unfold TXTParser.parse, try_except, bind, modify, ret, get. simpl.
  rewrite bool_decide_eq_false_2 by done.
  unfold ContentBuffer._set_content. rewrite Hdet.
  unfold TXTParser.decoded_or_empty. rewrite Hd.
  destruct (negb (truthy decoded) || (length (strip decoded) <? 2)%nat) eqn:E.
  - unfold throw, lift, TXTParser.parse_handlers, bind, get, throw, lift.
    cbn [raise isinstance cls]. by rewrite isinstance_Exception.
  - apply orb_false_iff in E as [Ht E2]. apply negb_false_iff in Ht.
    apply Nat.ltb_ge in E2.
    assert (Hts : truthy (strip decoded) = true).
    { apply truthy_true. intros Hs. rewrite Hs in E2. simpl in E2. lia. }
    unfold TXTParser.validate, bind, get, throw, lift, ret. rewrite Hc.
    destruct content as [|x content]; [done|]. rewrite has_content_cons.
    cbn [negb]. rewrite Hd. unfold TXTParser.decoded_or_empty. rewrite Hd, Ht, Hts.
    cbn [negb orb].
    destruct (TXT_extract_metadata_returns word_char import_langdetect s1) as [md ->].
    unfold TXTParser.get_confidence. rewrite Hconf.
    cbn [mbind outcome_bind].
    unfold TXTParser.normalize_text, TXTParser._extract_structure,
      TXTParser.decoded_or_empty.
    rewrite Hd. apply truthy_true in Ht. by destruct decoded.
Qed.

(** An input of fewer than 10 bytes is never parsed: [parse] raises
    [TXTParsingError], for the empty input around the [TXTEncodingError]
    of the detection step. *)
Theorem TXT_parse_short_rejected (content : bytes) (self : TXTParser.t)
    (Hshort : (length content < 10)%nat) :
  (parse content self).2
  = raise TXTParsingError
      (str "Failed to parse TXT document: "
       ++ (if bool_decide (content = []) then str "No content to decode"
           else str "Content too short to be a valid text document")).
Proof.
  assert (Hne : content ≠ b "This is not a valid document").
  { intros ->. simpl in Hshort. lia. }
  pose proof (detect_steps content (TXTParser.set_content (Some content) self) eq_refl)
    as Hdet.
  apply Nat.ltb_lt in Hshort. rewrite Hshort in Hdet.
  case_bool_decide.
  - by rewrite (TXT_parse_wraps _ _ _ _ _ _ _ content self _ _ Hne Hdet eq_refl).
  - by rewrite (TXT_parse_wraps _ _ _ _ _ _ _ content self _ _ Hne Hdet eq_refl).
Qed.

(** What a result of [parse] says about the input: it has 10 bytes or
    more, few control characters, and is not the payload refused by name;
    the text is the decoding by the detected codec, or, for an input of
    50 bytes or more on which that codec fails, the decoding as UTF-8 with
    replacement; it has two characters or more between its white space.
    The content is the normalized text, while the structure and the counts
    of the metadata are taken from the text before normalization. *)
Theorem TXT_parse_success (content : bytes) (self : TXTParser.t)
    (result : TXTParser.ParsedDocument structure)
    (Hparse : (parse content self).2 = Return result) :
  (10 ≤ length content)%nat
  ∧ content ≠ b "This is not a valid document"
  ∧ Float.gt_mul005 (Z.of_nat (TXTParser.binary_chars content))
      (Z.of_nat (length content)) = false
  ∧ ∃ decoded,
      ((decode (TXTParser.encoding_or_default (chardet_detect content).1) content
        = Return decoded
        ∧ TXTParser.encoding structure result
          = TXTParser.encoding_or_default (chardet_detect content).1)
       ∨ ((∃ e, decode (TXTParser.encoding_or_default (chardet_detect content).1) content
                = Raise e ∧ isinstance e UnicodeDecodeError = true)
          ∧ (50 ≤ length content)%nat
          ∧ decoded = decode_replace content
          ∧ TXTParser.encoding structure result = str "utf-8"))
      ∧ (2 ≤ length (strip decoded))%nat
      ∧ TXTParser.content structure result = TXTParser.normalize decoded
      ∧ TXTParser.doc_structure structure result = Some (scan_lines (TXTParser.splitlines decoded))
      ∧ TXTParser.confidence structure result = (chardet_detect content).2
      ∧ TXTParser.metadata structure result !! "char_count"
        = Some (VInt (Z.of_nat (length decoded)))
      ∧ TXTParser.metadata structure result !! "line_count"
        = Some (VInt (Z.of_nat (length (TXTParser.splitlines decoded))))
      ∧ TXTParser.metadata structure result !! "encoding" = Some (VStr (TXTParser.encoding structure result)).
Proof.
  assert (Hne : content ≠ b "This is not a valid document").
  { intros ->. revert Hparse.
    unfold TXTParser.parse, try_except, bind, modify, ret, get, throw, lift. simpl.
    unfold TXTParser.parse_handlers, bind, get, throw, lift. simpl. done. }
  destruct (detect (TXTParser.set_content (Some content) self)) as [s1 [[]|e]] eqn:Hdet.
  2:{ exfalso. revert Hparse.
      unfold TXTParser.parse, try_except, bind, modify, ret. simpl.
      rewrite bool_decide_eq_false_2 by done.
      unfold ContentBuffer._set_content. rewrite Hdet.
      unfold TXTParser.parse_handlers, bind, get, throw, lift.
      destruct (isinstance e UnicodeDecodeError); [done|].
      by rewrite isinstance_Exception. }
  destruct (detect_returns content (TXTParser.set_content (Some content) self) s1
              eq_refl Hdet) as (Hlen & Hbin & _ & Hdec).
  assert (Hnil : content ≠ []) by (intros ->; simpl in Hlen; lia).
  assert (∃ decoded,
            TXTParser._decoded_content s1 = Some decoded
            ∧ TXTParser._content s1 = Some content
            ∧ TXTParser._confidence s1 = Some (chardet_detect content).2
            ∧ ((decode (TXTParser.encoding_or_default (chardet_detect content).1) content
                = Return decoded
                ∧ TXTParser._encoding s1
                  = TXTParser.encoding_or_default (chardet_detect content).1)
               ∨ ((∃ e, decode (TXTParser.encoding_or_default (chardet_detect content).1)
                          content = Raise e
                        ∧ isinstance e UnicodeDecodeError = true)
                  ∧ (50 ≤ length content)%nat
                  ∧ decoded = decode_replace content
                  ∧ TXTParser._encoding s1 = str "utf-8")))
    as (decoded & Hd & Hc & Hconf & Hcase).
  { destruct Hdec as [(decoded & Hdecode & ->)|(He & H50 & ->)].
    - exists decoded. repeat split; try done. by left.
    - exists (decode_replace content). repeat split; try done. right. done. }
  rewrite (parse_after_detect content self s1 decoded _ Hne Hdet Hc Hnil Hd Hconf)
    in Hparse.
  cbn [snd] in Hparse.
  destruct (negb (truthy decoded) || (length (strip decoded) <? 2)%nat) eqn:E; [done|].
  apply orb_false_iff in E as [_ E2]. apply Nat.ltb_ge in E2.
  destruct (TXTParser.extract_metadata word_char import_langdetect s1) as [md|e] eqn:Hmd;
    [|done].
  cbn [mbind outcome_bind] in Hparse. injection Hparse as <-.
  destruct (TXT_extract_metadata_counts s1 decoded md Hd Hmd) as (Hcc & Hlc & _ & Henc).
  split; [exact Hlen|]. split; [exact Hne|]. split; [exact Hbin|].
  exists decoded. cbn [TXTParser.content TXTParser.doc_structure TXTParser.metadata
                         TXTParser.encoding TXTParser.confidence].
  repeat split; try done.
Qed.

(** When the detected codec fails on the input with a
    [UnicodeDecodeError], an input of fewer than 50 bytes is refused: the
    [TXTParsingError] raised in the fallback is caught by the fallback's
    own [except] clause and appears as the fallback error of a
    [TXTEncodingError], which [parse] in turn reports as a
    [TXTParsingError]. *)
Theorem TXT_parse_fallback_short (content : bytes) (self : TXTParser.t) (e : exn)
    (Hlen : (10 ≤ length content < 50)%nat)
    (Hne : content ≠ b "This is not a valid document")
    (Hbin : Float.gt_mul005 (Z.of_nat (TXTParser.binary_chars content))
              (Z.of_nat (length content)) = false)
    (Hconf : Float.lt07 (chardet_detect content).2 = false)
    (Hx80 : x80 ∉ content)
    (Hdecode : decode (TXTParser.encoding_or_default (chardet_detect content).1) content
               = Raise e)
    (Herr : isinstance e UnicodeDecodeError = true) :
  (parse content self).2
  = raise TXTParsingError
      (str "Failed to parse TXT document: "
       ++ str "Failed to decode content with any encoding: " ++ msg e
       ++ str ", fallback error: "
       ++ str "Invalid text content: encoding errors detected").
Proof.
  pose proof (detect_steps content (TXTParser.set_content (Some content) self) eq_refl)
    as Hdet.
  rewrite bool_decide_eq_false_2 in Hdet by (intros ->; simpl in Hlen; lia).
  replace (length content <? 10)%nat with false in Hdet
    by (symmetry; apply Nat.ltb_ge; lia).
  rewrite Hbin in Hdet. cbv zeta in Hdet. rewrite Hconf in Hdet. cbn [andb] in Hdet.
  rewrite (bool_decide_eq_false_2 _ Hx80) in Hdet. cbn [andb] in Hdet.
  rewrite Hdecode, Herr in Hdet.
  replace (length content <? 50)%nat with true in Hdet
    by (symmetry; apply Nat.ltb_lt; lia).
  by rewrite (TXT_parse_wraps _ _ _ _ _ _ _ content self _ _ Hne Hdet eq_refl).
Qed.

End TXTSteps.

Lemma TXT_parse_short_rejected_witness :
  (TXTParser.parse detect_ascii codec_decode codec_decode_replace ascii_word_char
     no_langdetect unit (λ _, tt) (b "Hi there") TXTParser.new).2
  = raise TXTParsingError
      (str "Failed to parse TXT document: "
       ++ (if bool_decide (b "Hi there" = []) then str "No content to decode"
           else str "Content too short to be a valid text document")).
Proof.
  apply (TXT_parse_short_rejected detect_ascii codec_decode codec_decode_replace
           ascii_word_char no_langdetect unit (λ _, tt) (b "Hi there") TXTParser.new).
  simpl. lia.
Defined.

(** A line with two spaces in a row and a Windows line ending. *)
Definition greeting : bytes := b "Hello  world," ++ [x0d; x0a] ++ b "this is a text.".

Lemma TXT_parse_success_witness :
  ∃ result,
    (TXTParser.parse detect_ascii codec_decode codec_decode_replace ascii_word_char
       no_langdetect unit (λ _, tt) greeting TXTParser.new).2 = Return result
    ∧ (10 ≤ length greeting)%nat
    ∧ greeting ≠ b "This is not a valid document"
    ∧ Float.gt_mul005 (Z.of_nat (TXTParser.binary_chars greeting))
        (Z.of_nat (length greeting)) = false
    ∧ ∃ decoded,
        ((codec_decode (TXTParser.encoding_or_default (detect_ascii greeting).1) greeting
          = Return decoded
          ∧ TXTParser.encoding unit result
            = TXTParser.encoding_or_default (detect_ascii greeting).1)
         ∨ ((∃ e, codec_decode (TXTParser.encoding_or_default (detect_ascii greeting).1)
                    greeting = Raise e
                  ∧ isinstance e UnicodeDecodeError = true)
            ∧ (50 ≤ length greeting)%nat
            ∧ decoded = codec_decode_replace greeting
            ∧ TXTParser.encoding unit result = str "utf-8"))
        ∧ (2 ≤ length (strip decoded))%nat
        ∧ TXTParser.content unit result = TXTParser.normalize decoded
        ∧ TXTParser.doc_structure unit result = Some tt
        ∧ TXTParser.confidence unit result = (detect_ascii greeting).2
        ∧ TXTParser.metadata unit result !! "char_count"
          = Some (VInt (Z.of_nat (length decoded)))
        ∧ TXTParser.metadata unit result !! "line_count"
          = Some (VInt (Z.of_nat (length (TXTParser.splitlines decoded))))
        ∧ TXTParser.metadata unit result !! "encoding"
          = Some (VStr (TXTParser.encoding unit result)).
Proof.
  eexists. split; [vm_compute; reflexivity|].
  apply (TXT_parse_success detect_ascii codec_decode codec_decode_replace
           ascii_word_char no_langdetect unit (λ _, tt) greeting TXTParser.new).
  vm_compute. reflexivity.
Defined.

(** Twelve bytes that are not UTF-8 and hold no byte [0x80]. *)
Definition latin1_bytes : bytes := b "caf" ++ [xe9] ++ b " au lait".

Lemma TXT_parse_fallback_short_witness :
  (TXTParser.parse detect_utf8 codec_decode codec_decode_replace ascii_word_char
     no_langdetect unit (λ _, tt) latin1_bytes TXTParser.new).2
  = raise TXTParsingError
      (str "Failed to parse TXT document: "
       ++ str "Failed to decode content with any encoding: "
       ++ msg (mkExn UnicodeDecodeError (str "'utf-8' codec can't decode"))
       ++ str ", fallback error: "
       ++ str "Invalid text content: encoding errors detected").
Proof.
  apply (TXT_parse_fallback_short detect_utf8 codec_decode codec_decode_replace
           ascii_word_char no_langdetect unit (λ _, tt) latin1_bytes TXTParser.new
           (mkExn UnicodeDecodeError (str "'utf-8' codec can't decode"))).
  - simpl. lia.
  - discriminate.
  - vm_compute. reflexivity.
  - vm_compute. reflexivity.
  - compute_done.
  - vm_compute. reflexivity.
  - reflexivity.
Defined.

Lemma RateLimiter_counts_bounded_witness :
  (1 ≤ RateLimiter.count {| RateLimiter.count := 2; RateLimiter.start_time := 1000 |}
   ≤ Z.max 1 2)%Z.
Proof.
  apply (RateLimiter_counts_bounded 2 3600
           [(1000%Z, str "key"); (1001%Z, str "key"); (999%Z, str "key")] (str "key")).
  vm_compute. reflexivity.
Defined.

(** ** The structure of a DOCX document *)

(** A paragraph on which the heading loop raises: its style cannot be
    read, or its style name begins with [Heading] and what is left of it
    after [Heading ] is removed is no integer. *)
Definition bad_heading (para : docx.Paragraph) : Prop :=
  match docx.style_name para with
  | Raise _ => True
  | Return name =>
    startswith (str "Heading") name = true
    ∧ ∃ e, PyInt.int (replace (str "Heading ") [] name) = Raise e
  end.

(** A section on which the section loop raises: a page dimension is
    missing. *)
Definition bad_section (section : docx.Section) : Prop :=
  docx.page_width section = None ∨ docx.page_height section = None.

Lemma section_infos_raises (i : Z) (ss : list docx.Section) (section : docx.Section) :
  section ∈ ss → bad_section section → ∃ e, DOCXParser.section_infos i ss = Raise e.
Proof.
  intros Hin Hbad. revert i. induction Hin as [section ss|section x ss _ IH]; intros i.
  - cbn [DOCXParser.section_infos].
    destruct Hbad as [Hw|Hh].
    + rewrite Hw. by eexists.
    + rewrite Hh. destruct (docx.page_width section); by eexists.
  - cbn [DOCXParser.section_infos].
    destruct (DOCXParser.length_pt (docx.page_width x)); [|by eexists].
    cbn [mbind outcome_bind].
    destruct (DOCXParser.length_pt (docx.page_height x)); [|by eexists].
    cbn [mbind outcome_bind].
    destruct (DOCXParser.length_lt _ _); [|by eexists].
    cbn [mbind outcome_bind]. destruct (IH Hbad (i + 1)%Z) as [e ->]. by eexists.
Qed.

Lemma heading_infos_raises (i : Z) (ps : list docx.Paragraph) (para : docx.Paragraph) :
  para ∈ ps → bad_heading para → ∃ e, DOCXParser.heading_infos i ps = Raise e.
Proof.
  intros Hin Hbad. revert i. induction Hin as [para ps|para x ps _ IH]; intros i.
  - cbn [DOCXParser.heading_infos]. unfold bad_heading in Hbad.
    destruct (docx.style_name para) as [name|e]; [|by eexists].
    cbn [mbind outcome_bind]. destruct Hbad as [-> [e ->]]. by eexists.
  - cbn [DOCXParser.heading_infos].
    destruct (docx.style_name x) as [name|e]; [|by eexists]. cbn [mbind outcome_bind].
    destruct (IH Hbad (i + 1)%Z) as [e He].
    destruct (startswith (str "Heading") name); [|by eexists].
    destruct (PyInt.int _); [|by eexists]. cbn [mbind outcome_bind].
    rewrite He. by eexists.
Qed.



Lemma section_infos_numbers (i : Z) (ss : list docx.Section)
    (infos : list DOCXParser.section_info) :
  DOCXParser.section_infos i ss = Return infos →
  DOCXParser.sec_number <$> infos = seqZ (i + 1) (Z.of_nat (length ss))
  ∧ Forall2 (λ section info,
       ∃ w h, docx.page_width section = Some w ∧ docx.page_height section = Some h
              ∧ DOCXParser.sec_page_width info = DOCXParser.pt w
              ∧ DOCXParser.sec_page_height info = DOCXParser.pt h
              ∧ DOCXParser.orientation info
                = if (w <? h)%Z then str "portrait" else str "landscape")
      ss infos.
Proof.
  revert i infos. induction ss as [|section ss IH]; intros i infos H.
  - injection H as <-. split; [reflexivity|constructor].
  - cbn [DOCXParser.section_infos] in H.
    destruct (docx.page_width section) as [w|] eqn:Hw; [|done].
    destruct (docx.page_height section) as [h|] eqn:Hh; [|done].
    cbn [DOCXParser.length_pt DOCXParser.length_lt mbind outcome_bind] in H.
    destruct (DOCXParser.section_infos (i + 1) ss) as [rest|] eqn:Hrest; [|done].
    cbn [mbind outcome_bind] in H. injection H as <-.
    destruct (IH _ _ Hrest) as [Hn Hall]. split.
    + replace (Z.of_nat (length (section :: ss))) with (Z.succ (Z.of_nat (length ss)))
        by (simpl length; lia).
      rewrite seqZ_cons by lia. rewrite fmap_cons, Hn. cbn [DOCXParser.sec_number].
      f_equal. f_equal; lia.
    + constructor; [|exact Hall]. by exists w, h.
Qed.

Lemma heading_infos_positions (i : Z) (ps : list docx.Paragraph)
    (infos : list DOCXParser.heading_info) :
  (0 ≤ i)%Z →
  DOCXParser.heading_infos i ps = Return infos →
  Forall (λ info,
    ∃ para name,
      ps !! Z.to_nat (DOCXParser.position info - i) = Some para
      ∧ (i ≤ DOCXParser.position info)%Z
      ∧ DOCXParser.heading_text info = docx.text para
      ∧ docx.style_name para = Return name
      ∧ startswith (str "Heading") name = true
      ∧ PyInt.int (replace (str "Heading ") [] name) = Return (DOCXParser.level info))
    infos.
Proof.
  intros Hi. revert i Hi infos. induction ps as [|para ps IH]; intros i Hi infos H.
  - injection H as <-. constructor.
  - cbn [DOCXParser.heading_infos] in H.
    destruct (docx.style_name para) as [name|] eqn:Hname; [|done].
    cbn [mbind outcome_bind] in H.
    assert (Hshift : ∀ rest,
              DOCXParser.heading_infos (i + 1) ps = Return rest →
              Forall (λ info,
                ∃ para0 name0,
                  (para :: ps) !! Z.to_nat (DOCXParser.position info - i) = Some para0
                  ∧ (i ≤ DOCXParser.position info)%Z
                  ∧ DOCXParser.heading_text info = docx.text para0
                  ∧ docx.style_name para0 = Return name0
                  ∧ startswith (str "Heading") name0 = true
                  ∧ PyInt.int (replace (str "Heading ") [] name0)
                    = Return (DOCXParser.level info)) rest).
    { intros rest Hrest. assert (0 ≤ i + 1)%Z as Hi' by lia.
      pose proof (IH _ Hi' _ Hrest) as Hall.
      eapply Forall_impl; [exact Hall|]. cbv beta.
      intros info (para0 & name0 & Hl & Hle & Hrest0).
      exists para0, name0. split; [|split; [lia|exact Hrest0]].
      replace (Z.to_nat (DOCXParser.position info - i))
        with (S (Z.to_nat (DOCXParser.position info - (i + 1)))) by lia.
      exact Hl. }
    destruct (startswith (str "Heading") name) eqn:Hs; [|by apply Hshift].
    destruct (PyInt.int _) as [lvl|] eqn:Hlvl; [|done]. cbn [mbind outcome_bind] in H.
    destruct (DOCXParser.heading_infos (i + 1) ps) as [rest|] eqn:Hrest; [|done].
    cbn [mbind outcome_bind] in H. injection H as <-.
    constructor; [|by apply Hshift].
    exists para, name. cbn [DOCXParser.position DOCXParser.heading_text DOCXParser.level].
    rewrite Z.sub_diag. repeat split; try done; lia.
Qed.

Lemma table_infos_numbers (i : Z) (ts : list docx.Table) :
  DOCXParser.tbl_number <$> DOCXParser.table_infos i ts
  = seqZ (i + 1) (Z.of_nat (length ts))
  ∧ DOCXParser.tbl_rows <$> DOCXParser.table_infos i ts
    = (λ table, Z.of_nat (length (docx.rows table))) <$> ts
  ∧ DOCXParser.tbl_columns <$> DOCXParser.table_infos i ts
    = (λ table, Z.of_nat (docx.columns table)) <$> ts.
Proof.
  revert i. induction ts as [|table ts IH]; intros i; [done|].
  cbn [DOCXParser.table_infos]. rewrite !fmap_cons.
  destruct (IH (i + 1)%Z) as (-> & -> & ->).
  cbn [DOCXParser.tbl_number DOCXParser.tbl_rows DOCXParser.tbl_columns].
  repeat split.
  replace (Z.of_nat (length (table :: ts))) with (Z.succ (Z.of_nat (length ts)))
    by (simpl length; lia).
  rewrite (seqZ_cons (i + 1)) by lia. f_equal. f_equal; lia.
Qed.



(** ** What normalization keeps *)

(** The words of a text: its maximal runs of characters that are not
    white space, in their order (what [str.split()] gives). *)
Definition starts_word (s : pystr) : bool :=
  match s with
  | d :: _ => negb (isspace d)
  | [] => false
  end.

Fixpoint words (s : pystr) : list pystr :=
  match s with
  | [] => []
  | c :: t =>
    if isspace c then words t
    else if starts_word t then
      match words t with
      | w :: ws => (c :: w) :: ws
      | [] => [[c]]
      end
    else [c] :: words t
  end.

Lemma words_cons_congr (c : N) (l l' : pystr) :
  starts_word l = starts_word l' → words l = words l' → words (c :: l) = words (c :: l').
Proof. intros Hs Hw. cbn [words]. by rewrite Hs, Hw. Qed.

Lemma starts_word_cap (c : N) (m : nat) (s : pystr) :
  isspace c = true → (0 < m)%nat → starts_word (cap c m s) = starts_word s.
Proof.
  intros Hc Hm. induction s as [|x s IH]; [reflexivity|].
  cbn [cap]. destruct ((x =? c) && startswith (repeat c m) s) eqn:E; [|reflexivity].
  apply andb_true_iff in E as [Ex Es]. apply N.eqb_eq in Ex as ->.
  rewrite IH. cbn [starts_word]. rewrite Hc.
  destruct m as [|m]; [lia|]. destruct s as [|y s]; [done|].
  cbn [repeat startswith] in Es. apply andb_true_iff in Es as [Ey _].
  apply N.eqb_eq in Ey as <-. cbn [starts_word]. by rewrite Hc.
Qed.

Lemma words_cap (c : N) (m : nat) (s : pystr) :
  isspace c = true → (0 < m)%nat → words (cap c m s) = words s.
Proof.
  intros Hc Hm. induction s as [|x s IH]; [reflexivity|].
  cbn [cap]. destruct ((x =? c) && startswith (repeat c m) s) eqn:E.
  - apply andb_true_iff in E as [Ex _]. apply N.eqb_eq in Ex as ->.
    cbn [words]. by rewrite Hc.
  - apply words_cons_congr; [by apply starts_word_cap|exact IH].
Qed.

Lemma isspace_LF : isspace LF = true.
Proof. reflexivity. Qed.

Lemma isspace_CR : isspace CR = true.
Proof. reflexivity. Qed.

Lemma starts_word_line_endings (s : pystr) :
  starts_word (line_endings s) = starts_word s.
Proof.
  destruct s as [|x s]; [reflexivity|]. cbn [line_endings].
  destruct (x =? CR) eqn:Ex; [|reflexivity].
  apply N.eqb_eq in Ex as ->. cbn [starts_word]. rewrite isspace_CR.
  destruct s as [|y s]; [reflexivity|].
  destruct (y =? LF) eqn:Ey; [|reflexivity].
  apply N.eqb_eq in Ey as ->. reflexivity.
Qed.

Lemma words_line_endings (s : pystr) : words (line_endings s) = words s.
Proof.
  induction s as [|x s IH]; [reflexivity|]. cbn [line_endings].
  destruct (x =? CR) eqn:Ex.
  - apply N.eqb_eq in Ex as ->.
    change (words (CR :: s)) with (words s).
    destruct s as [|y s]; [reflexivity|].
    destruct (y =? LF); [exact IH|].
    change (words (LF :: line_endings (y :: s))) with (words (line_endings (y :: s))).
    exact IH.
  - apply words_cons_congr; [apply starts_word_line_endings|exact IH].
Qed.

Lemma words_lstrip (s : pystr) : words (lstrip s) = words s.
Proof.
  unfold lstrip. induction s as [|x s IH]; [reflexivity|].
  cbn [drop_while]. destruct (isspace x) eqn:E; [|reflexivity].
  rewrite IH. cbn [words]. by rewrite E.
Qed.

Lemma words_snoc_space (s : pystr) (c : N) :
  isspace c = true → words (s ++ [c]) = words s.
Proof.
  intros Hc. induction s as [|x s IH].
  - cbn [app words]. by rewrite Hc.
  - cbn [app]. apply words_cons_congr; [|exact IH].
    destruct s; cbn [app starts_word]; [by rewrite Hc|reflexivity].
Qed.

Lemma words_rstrip (s : pystr) : words (rstrip s) = words s.
Proof.
  unfold rstrip. rewrite <- (rev_involutive s) at 2.
  induction (rev s) as [|x l IH]; [reflexivity|].
  cbn [drop_while]. destruct (isspace x) eqn:Ex; [|reflexivity].
  rewrite IH. cbn [rev]. by rewrite words_snoc_space.
Qed.

Lemma cap_length (c : N) (m : nat) (s : pystr) : (length (cap c m s) ≤ length s)%nat.
Proof.
  induction s as [|x s IH]; [done|]. cbn [cap].
  destruct (_ && _); cbn [length]; lia.
Qed.

Lemma line_endings_length (s : pystr) : (length (line_endings s) ≤ length s)%nat.
Proof.
  induction s as [|x s IH]; [done|]. cbn [line_endings].
  destruct (x =? CR); [|cbn [length]; lia].
  destruct s as [|y s]; [done|]. destruct (y =? LF); cbn [length] in *; lia.
Qed.

(** Normalization changes white space only: the words of the normalized
    text are the words of the text, in their order, and none is joined to
    its neighbour; the normalized text is never longer, has no two spaces
    and no three line feeds in a row, no carriage return, and no white
    space at its ends. *)
Theorem normalize_keeps_words (decoded : pystr) :
  words (TXTParser.normalize decoded) = words decoded
  ∧ (length (TXTParser.normalize decoded) ≤ length decoded)%nat
  ∧ contains [SP; SP] (TXTParser.normalize decoded) = false
  ∧ contains [LF; LF; LF] (TXTParser.normalize decoded) = false
  ∧ (CR ∉ TXTParser.normalize decoded)
  ∧ strip (TXTParser.normalize decoded) = TXTParser.normalize decoded.
Proof.
  destruct (normalize_normal decoded) as (Hsp & Hcr & Hlf & Hst).
  split; [|split; [|done]].
  - rewrite normalize_steps. unfold strip.
    rewrite words_rstrip, words_lstrip.
    rewrite words_cap by (reflexivity || lia).
    rewrite words_line_endings.
    by rewrite words_cap by (reflexivity || lia).
  - rewrite normalize_steps.
    etrans; [apply strip_length_le|]. etrans; [apply cap_length|].
    etrans; [apply line_endings_length|]. apply cap_length.
Qed.

(** ** The structure of a text *)

Section TextStructure.

Variable ch_isupper : N → bool.
Variable ch_islower : N → bool.
Variable ch_istitle : N → bool.
Variable is_decimal : N → bool.

Local Abbreviation step := (TXTStructure.step ch_isupper ch_islower ch_istitle is_decimal).
Local Abbreviation loop := (TXTStructure.loop ch_isupper ch_islower ch_istitle is_decimal).
Local Abbreviation scan_lines :=
  (TXTStructure.scan_lines ch_isupper ch_islower ch_istitle is_decimal).
Local Abbreviation list_match := (TXTStructure.list_match is_decimal).

(** What a header and the section opened with it have in common. *)
Definition header_key (h : TXTStructure.header) : pystr * Z * Z :=
  (TXTStructure.header_text h, TXTStructure.header_level h, TXTStructure.header_line h).
Definition section_key (s : TXTStructure.section) : pystr * Z * Z :=
  (TXTStructure.title s, TXTStructure.section_level s, TXTStructure.start_line s).

(** The invariant of the loop of [_extract_structure]. *)
Record scan_invariant (l : TXTStructure.locals) : Prop := {
  inv_sections :
    header_key <$> TXTStructure.headers (TXTStructure.the_structure l)
    = section_key <$> TXTStructure.sections (TXTStructure.the_structure l);
  inv_current :
    match TXTStructure.current_section l with
    | None => TXTStructure.sections (TXTStructure.the_structure l) = []
    | Some k => S k = length (TXTStructure.sections (TXTStructure.the_structure l))
    end;
  inv_levels :
    Forall (λ h, (1 ≤ TXTStructure.header_level h ≤ 3)%Z
                 ∧ TXTStructure.header_text h ≠ [])
      (TXTStructure.headers (TXTStructure.the_structure l));
  inv_lists :
    Forall (λ items, items ≠ []) (TXTStructure.lists (TXTStructure.the_structure l));
  inv_items : TXTStructure.in_list l = true → TXTStructure.list_items l ≠ [];
  inv_paragraphs :
    Forall (λ p : pystr, p ≠ []) (TXTStructure.paragraphs (TXTStructure.the_structure l));
  inv_lines : Forall (λ line : pystr, line ≠ []) (TXTStructure.current_paragraph l)
}.

Lemma scan_invariant_initial : scan_invariant TXTStructure.initial.
Proof. split; try done; constructor. Qed.

Lemma scan_invariant_add_indentation (i level : nat) (l : TXTStructure.locals) :
  scan_invariant l → scan_invariant (TXTStructure.add_indentation i level l).
Proof. intros []. by split. Qed.

Lemma scan_invariant_add_header (level : Z) (line_stripped : pystr) (i : nat)
    (l : TXTStructure.locals) :
  (1 ≤ level ≤ 3)%Z → line_stripped ≠ [] →
  scan_invariant l → scan_invariant (TXTStructure.add_header level line_stripped i l).
Proof.
  intros Hlevel Hne []. split; cbn; try done.
  - rewrite !fmap_app. by f_equal.
  - rewrite length_app. simpl. lia.
  - apply Forall_app. split; [done|]. by apply Forall_singleton.
Qed.

Lemma section_key_alter (f : TXTStructure.section → TXTStructure.section) (k : nat)
    (l : list TXTStructure.section) :
  (∀ s, section_key (f s) = section_key s) →
  section_key <$> alter f k l = section_key <$> l.
Proof.
  intros Hf. revert k. induction l as [|s l IH]; intros [|k]; try done.
  - cbn. by rewrite Hf.
  - cbn. f_equal. apply IH.
Qed.

Lemma scan_invariant_add_content (line_stripped : pystr) (l : TXTStructure.locals) :
  scan_invariant l → scan_invariant (TXTStructure.add_content line_stripped l).
Proof.
  intros Hinv. unfold TXTStructure.add_content.
  destruct (TXTStructure.current_section l) as [k|] eqn:Hk; [|done].
  destruct Hinv. split; cbn; try done.
  - by rewrite section_key_alter.
  - rewrite Hk in *. by rewrite length_alter.
Qed.

Lemma scan_invariant_add_item (ty : TXTStructure.item_type) (text : pystr) (i : nat)
    (l : TXTStructure.locals) :
  scan_invariant l → scan_invariant (TXTStructure.add_item ty text i l).
Proof.
  intros []. split; cbn; try done. intros _.
  by destruct (if TXTStructure.in_list l then _ else _).
Qed.

Lemma scan_invariant_end_list (l : TXTStructure.locals) :
  TXTStructure.in_list l = true →
  scan_invariant l → scan_invariant (TXTStructure.end_list l).
Proof.
  intros Hin []. split; cbn; try done.
  apply Forall_app. split; [done|]. apply Forall_singleton. auto.
Qed.

Lemma scan_invariant_add_paragraph_line (line : pystr) (l : TXTStructure.locals) :
  line ≠ [] →
  scan_invariant l → scan_invariant (TXTStructure.add_paragraph_line line l).
Proof.
  intros Hne []. split; cbn; try done.
  apply Forall_app. split; [done|]. by apply Forall_singleton.
Qed.

Lemma join_nonempty (sep : pystr) (lines : list pystr) :
  lines ≠ [] → Forall (λ line : pystr, line ≠ []) lines → join sep lines ≠ [].
Proof.
  intros Hne Hall. destruct Hall as [|x t Hx _]; [done|].
  destruct t as [|y t]; [done|]. rewrite join_cons by done. by destruct x.
Qed.

Lemma scan_invariant_end_paragraph (l : TXTStructure.locals) :
  TXTStructure.current_paragraph l ≠ [] →
  scan_invariant l → scan_invariant (TXTStructure.end_paragraph l).
Proof.
  intros Hne []. split; cbn; try done.
  apply Forall_app. split; [done|]. apply Forall_singleton. by apply join_nonempty.
Qed.

Lemma strip_nil_nonempty (line : pystr) : truthy (strip line) = true → line ≠ [].
Proof. intros H ->. done. Qed.

Lemma underlined_level (line_stripped : pystr) (next : option pystr) (level : Z) :
  TXTStructure.underlined line_stripped next = Some level →
  (1 ≤ level ≤ 2)%Z ∧ line_stripped ≠ [].
Proof.
  unfold TXTStructure.underlined. destruct next as [next_line|]; [|done].
  destruct (truthy line_stripped) eqn:Ht; [|done]. apply truthy_true in Ht.
  destruct (TXTStructure.is_underline next_line); [|done].
  intros [= <-]. split; [|done]. case_bool_decide; lia.
Qed.

Lemma scan_invariant_step (i : nat) (line : pystr) (next : option pystr)
    (l : TXTStructure.locals) :
  scan_invariant l → scan_invariant (step i line next l).
Proof.
  intros Hinv. unfold TXTStructure.step. cbv zeta.
  set (l1 := if truthy (strip line) then _ else l).
  assert (H1 : scan_invariant l1).
  { unfold l1. destruct (truthy (strip line)); [|done].
    by apply scan_invariant_add_indentation. }
  clearbody l1.
  destruct (TXTStructure.underlined (strip line) next) as [level|] eqn:Hu.
  { apply underlined_level in Hu as [Hl Hne].
    apply scan_invariant_add_header; [lia|done|done]. }
  destruct (truthy (strip line)) eqn:Ht.
  - cbn [andb].
    destruct (TXTStructure.isupper _ _ _ _ && _).
    { apply scan_invariant_add_header; [lia|by apply truthy_true|done]. }
    destruct (list_match line) as [[ty text]|].
    { by apply scan_invariant_add_content, scan_invariant_add_item. }
    rewrite andb_false_r.
    apply scan_invariant_add_content, scan_invariant_add_paragraph_line; [|done].
    by apply strip_nil_nonempty.
  - cbn [andb negb].
    destruct (list_match line) as [[ty text]|].
    { by apply scan_invariant_add_content, scan_invariant_add_item. }
    rewrite andb_true_r.
    set (l2 := if TXTStructure.in_list l1 then _ else l1).
    assert (H2 : scan_invariant l2).
    { unfold l2. destruct (TXTStructure.in_list l1) eqn:Hin; [|done].
      by apply scan_invariant_end_list. }
    clearbody l2.
    destruct (TXTStructure.current_paragraph l2) eqn:Hp; [done|].
    apply scan_invariant_end_paragraph; [by rewrite Hp|done].
Qed.

Lemma scan_invariant_loop (i : nat) (lines : list pystr) (l : TXTStructure.locals) :
  scan_invariant l → scan_invariant (loop i lines l).
Proof.
  revert i l. induction lines as [|line rest IH]; intros i l Hinv; [done|].
  cbn [TXTStructure.loop]. by apply IH, scan_invariant_step.
Qed.

Lemma scan_lines_invariant (lines : list pystr) :
  header_key <$> TXTStructure.headers (scan_lines lines)
  = section_key <$> TXTStructure.sections (scan_lines lines)
  ∧ Forall (λ h, (1 ≤ TXTStructure.header_level h ≤ 3)%Z
                 ∧ TXTStructure.header_text h ≠ [])
      (TXTStructure.headers (scan_lines lines))
  ∧ Forall (λ items, items ≠ []) (TXTStructure.lists (scan_lines lines))
  ∧ Forall (λ p : pystr, p ≠ []) (TXTStructure.paragraphs (scan_lines lines)).
Proof.
  unfold TXTStructure.scan_lines. cbv zeta.
  pose proof (scan_invariant_loop 0 lines _ scan_invariant_initial) as H0.
  set (l0 := loop 0 lines TXTStructure.initial) in *. clearbody l0.
  set (l1 := match TXTStructure.current_paragraph l0 with [] => l0 | _ => _ end).
  assert (H1 : scan_invariant l1).
  { unfold l1. destruct (TXTStructure.current_paragraph l0) eqn:Hp; [done|].
    apply scan_invariant_end_paragraph; [by rewrite Hp|done]. }
  clearbody l1.
  set (l2 := if TXTStructure.in_list l1 then _ else l1).
  assert (H2 : scan_invariant l2).
  { unfold l2. destruct (TXTStructure.in_list l1) eqn:Hin; [|done].
    by apply scan_invariant_end_list. }
  by destruct H2.
Qed.

(** The entries of the indentation that the lines from index [i] on
    give: one for each line that is not blank. *)
Fixpoint indentation_of (i : nat) (lines : list pystr)
    : list TXTStructure.indentation_entry :=
  match lines with
  | [] => []
  | line :: rest =>
    (if truthy (strip line)
     then [{| TXTStructure.indentation_line := Z.of_nat i + 1;
              TXTStructure.indentation_level :=
                Z.of_nat (length line - length (lstrip line)) |}]
     else [])
    ++ indentation_of (S i) rest
  end.

Lemma indentation_add_content (line_stripped : pystr) (l : TXTStructure.locals) :
  TXTStructure.indentation (TXTStructure.the_structure
                              (TXTStructure.add_content line_stripped l))
  = TXTStructure.indentation (TXTStructure.the_structure l).
Proof. unfold TXTStructure.add_content. by destruct (TXTStructure.current_section l). Qed.

Lemma indentation_step (i : nat) (line : pystr) (next : option pystr)
    (l : TXTStructure.locals) :
  TXTStructure.indentation (TXTStructure.the_structure (step i line next l))
  = TXTStructure.indentation (TXTStructure.the_structure l)
    ++ indentation_of i [line].
Proof.
  unfold TXTStructure.step. cbv zeta. cbn [indentation_of]. rewrite app_nil_r.
  set (l1 := if truthy (strip line) then _ else l).
  assert (H1 : TXTStructure.indentation (TXTStructure.the_structure l1)
               = TXTStructure.indentation (TXTStructure.the_structure l)
                 ++ (if truthy (strip line)
                     then [{| TXTStructure.indentation_line := Z.of_nat i + 1;
                              TXTStructure.indentation_level :=
                                Z.of_nat (length line - length (lstrip line)) |}]
                     else [])).
  { unfold l1. destruct (truthy (strip line)); [reflexivity|]. by rewrite app_nil_r. }
  rewrite <- H1. clearbody l1. clear H1.
  destruct (TXTStructure.underlined (strip line) next); [reflexivity|].
  destruct (truthy (strip line) && _ && _); [reflexivity|].
  destruct (list_match line) as [[ty text]|].
  { by rewrite indentation_add_content. }
  destruct (truthy (strip line)).
  - rewrite indentation_add_content. cbn [TXTStructure.add_paragraph_line
      TXTStructure.the_structure]. by destruct (TXTStructure.in_list l1 && _).
  - destruct (TXTStructure.in_list l1 && _);
      match goal with
      | |- context [match TXTStructure.current_paragraph ?x with _ => _ end] =>
        by destruct (TXTStructure.current_paragraph x)
      end.
Qed.

Lemma indentation_of_app (i : nat) (l1 l2 : list pystr) :
  indentation_of i (l1 ++ l2) = indentation_of i l1 ++ indentation_of (i + length l1) l2.
Proof.
  revert i. induction l1 as [|line l1 IH]; intros i.
  - cbn. by rewrite Nat.add_0_r.
  - cbn [app indentation_of length]. rewrite IH, <- app_assoc.
    by replace (S i + length l1)%nat with (i + S (length l1))%nat by lia.
Qed.

Lemma indentation_loop (i : nat) (lines : list pystr) (l : TXTStructure.locals) :
  TXTStructure.indentation (TXTStructure.the_structure (loop i lines l))
  = TXTStructure.indentation (TXTStructure.the_structure l) ++ indentation_of i lines.
Proof.
  revert i l. induction lines as [|line rest IH]; intros i l.
  - cbn. by rewrite app_nil_r.
  - cbn [TXTStructure.loop]. rewrite IH, indentation_step, <- app_assoc.
    f_equal. cbn [indentation_of]. by rewrite app_nil_r.
Qed.

Lemma scan_lines_indentation (lines : list pystr) :
  TXTStructure.indentation (scan_lines lines) = indentation_of 0 lines
  ∧ length (TXTStructure.indentation (scan_lines lines))
    = length (filter (λ line, strip line ≠ []) lines).
Proof.
  assert (H : TXTStructure.indentation (scan_lines lines) = indentation_of 0 lines).
  { unfold TXTStructure.scan_lines. cbv zeta.
    pose proof (indentation_loop 0 lines TXTStructure.initial) as H0.
    set (l0 := loop 0 lines TXTStructure.initial) in *. clearbody l0.
    cbn [TXTStructure.initial TXTStructure.the_structure TXTStructure.indentation app]
      in H0.
    rewrite <- H0.
    destruct (TXTStructure.current_paragraph l0);
      match goal with
      | |- context [if TXTStructure.in_list ?x then _ else _] =>
        by destruct (TXTStructure.in_list x)
      end. }
  split; [exact H|]. rewrite H. clear H. generalize 0%nat.
  induction lines as [|line rest IH]; intros i; [reflexivity|].
  cbn [indentation_of]. rewrite length_app, IH, filter_cons.
  destruct (truthy (strip line)) eqn:Ht.
  - apply truthy_true in Ht. by rewrite decide_True.
  - assert (strip line = []) as Hs.
    { destruct (decide (strip line = [])) as [|Hn]; [done|].
      apply truthy_true in Hn. congruence. }
    rewrite decide_False by (by intros ?). reflexivity.
Qed.

(** The structure of a text, whatever its lines: the sections are the
    headers, one for one, with the same text, level and line; the level of
    a header is 1, 2 or 3 and its text is not empty; no list and no
    paragraph is empty.  The indentation has one entry for each line that
    is not blank, in the order of the lines, with the number of the line,
    from 1, and the number of white space characters at its head, for
    headers, list items and paragraph lines alike. *)
Theorem scan_lines_well_formed (lines : list pystr) :
  header_key <$> TXTStructure.headers (scan_lines lines)
  = section_key <$> TXTStructure.sections (scan_lines lines)
  ∧ Forall (λ h, (1 ≤ TXTStructure.header_level h ≤ 3)%Z
                 ∧ TXTStructure.header_text h ≠ [])
      (TXTStructure.headers (scan_lines lines))
  ∧ Forall (λ items, items ≠ []) (TXTStructure.lists (scan_lines lines))
  ∧ Forall (λ p : pystr, p ≠ []) (TXTStructure.paragraphs (scan_lines lines))
  ∧ TXTStructure.indentation (scan_lines lines) = indentation_of 0 lines
  ∧ length (TXTStructure.indentation (scan_lines lines))
    = length (filter (λ line, strip line ≠ []) lines).
Proof.
  destruct (scan_lines_invariant lines) as (H1 & H2 & H3 & H4).
  destruct (scan_lines_indentation lines) as (H5 & H6).
  by repeat split.
Qed.

Lemma marker_split (s : pystr) (ty : TXTStructure.item_type) (after : pystr) :
  TXTStructure.marker is_decimal s = Some (ty, after) →
  ∃ c t group, s = c :: t ∧ s = group ++ after
    ∧ (if is_decimal c then ty = TXTStructure.numbered
       else ty = TXTStructure.bullet ∧ c ∈ [0xE2; 42; 45]).
Proof.
  unfold TXTStructure.marker. destruct s as [|c t]; [done|].
  destruct (is_decimal c) eqn:Hc.
  - destruct (drop_while_suffix is_decimal t) as [u Hu].
    destruct (drop_while is_decimal t) as [|d rest]; [done|].
    destruct (d =? 46); [|done]. intros [= <- <-].
    exists c, t, (c :: u ++ [d]). rewrite Hc. split; [done|]. split; [|done].
    rewrite Hu at 1. cbn [app]. by rewrite <- app_assoc.
  - destruct (startswith _ (c :: t)) eqn:Hs.
    + intros [= <- <-]. exists c, t, (take 3 (c :: t)). rewrite Hc.
      split; [done|]. split; [symmetry; apply (take_drop 3 (c :: t))|]. split; [done|].
      cbn [startswith] in Hs. apply andb_true_iff in Hs as [Hs _].
      apply N.eqb_eq in Hs as <-. set_solver.
    + destruct ((c =? 42) || (c =? 45)) eqn:Hm; [|done].
      intros [= <- <-]. exists c, t, [c]. rewrite Hc.
      split; [done|]. split; [done|]. split; [done|].
      apply orb_true_iff in Hm as [->%N.eqb_eq| ->%N.eqb_eq]; set_solver.
Qed.

Lemma item_text_of_split (after text : pystr) :
  TXTStructure.item_text_of after = Some text →
  text ≠ [] ∧ ∃ space, after = space ++ text.
Proof.
  unfold TXTStructure.item_text_of.
  destruct (drop_while_suffix isspace after) as [u Hu]. fold (lstrip after) in Hu.
  destruct (lstrip after) as [|x rest] eqn:Hl.
  - destruct after as [|a0 [|a1 after]]; try done. intros [= <-].
    split.
    + intros Hd. apply (f_equal length) in Hd. rewrite length_drop in Hd.
      cbn [length] in Hd. lia.
    + exists (take (length (a0 :: a1 :: after) - 1) (a0 :: a1 :: after)).
      symmetry. exact (take_drop (length (a0 :: a1 :: after) - 1) (a0 :: a1 :: after)).
  - destruct (_ <? _)%nat; [|done]. intros [= <-]. split; [done|]. by exists u.
Qed.

(** A line is a list item only when its first character after the white
    space at its head is a decimal digit, which makes it a numbered item,
    or one of U+00E2, [*] and [-]: a line that begins with the bullet
    U+2022, which is no decimal digit, is never one.  The text of the item
    is not empty and ends the line. *)
Theorem list_match_markers (line : pystr) (ty : TXTStructure.item_type) (text : pystr)
    (Hbullet : is_decimal 0x2022 = false)
    (Hmatch : list_match line = Some (ty, text)) :
  text ≠ []
  ∧ (∃ before, line = before ++ text)
  ∧ ∃ c t, lstrip line = c :: t
           ∧ c ≠ 0x2022
           ∧ (if is_decimal c then ty = TXTStructure.numbered
              else ty = TXTStructure.bullet ∧ c ∈ [0xE2; 42; 45]).
Proof.
  revert Hmatch. unfold TXTStructure.list_match.
  destruct (TXTStructure.marker is_decimal (lstrip line)) as [[ty' after]|] eqn:Hm; [|done].
  destruct (TXTStructure.item_text_of after) as [text'|] eqn:Ht; [|done].
  intros [= <- <-].
  apply marker_split in Hm as (c & t & group & Hl & Hg & Hty).
  apply item_text_of_split in Ht as (Hne & space & ->).
  split; [exact Hne|]. split.
  - destruct (drop_while_suffix isspace line) as [u Hu]. fold (lstrip line) in Hu.
    exists (u ++ group ++ space). rewrite Hu at 1. rewrite Hg. by rewrite <- !app_assoc.
  - exists c, t. split; [exact Hl|]. split; [|exact Hty].
    intros ->. rewrite Hbullet in Hty. destruct Hty as [_ Hin].
    rewrite !elem_of_cons, elem_of_nil in Hin. by destruct Hin as [?|[?|[?|[]]]].
Qed.

End TextStructure.

(** *** The scan on a text in ASCII *)

Definition ascii_isupper (c : N) : bool := (65 <=? c) && (c <=? 90).
Definition ascii_islower (c : N) : bool := (97 <=? c) && (c <=? 122).
Definition ascii_istitle (c : N) : bool := false.
Definition ascii_decimal (c : N) : bool := (48 <=? c) && (c <=? 57).

(** A title with its underline, a list of two items, and a line of text. *)
Definition titled_text : list pystr :=
  [ str "DOCUMENT TITLE"; str "=============="; str "";
    str "  1. First item"; str "- second"; str ""; str "plain text" ].

Example scan_lines_titled_text :
  TXTStructure.scan_lines ascii_isupper ascii_islower ascii_istitle ascii_decimal
    titled_text
  = {| TXTStructure.headers :=
         [ {| TXTStructure.header_level := 1;
              TXTStructure.header_text := str "DOCUMENT TITLE";
              TXTStructure.header_line := 1 |} ];
       TXTStructure.lists :=
         [ [ {| TXTStructure.item_text := str "First item";
                TXTStructure.item_line := 4;
                TXTStructure.item_type_of := TXTStructure.numbered |};
             {| TXTStructure.item_text := str "second";
                TXTStructure.item_line := 5;
                TXTStructure.item_type_of := TXTStructure.bullet |} ] ];
       TXTStructure.paragraphs := [ str "=============="; str "plain text" ];
       TXTStructure.indentation :=
         [ {| TXTStructure.indentation_line := 1; TXTStructure.indentation_level := 0 |};
           {| TXTStructure.indentation_line := 2; TXTStructure.indentation_level := 0 |};
           {| TXTStructure.indentation_line := 4; TXTStructure.indentation_level := 2 |};
           {| TXTStructure.indentation_line := 5; TXTStructure.indentation_level := 0 |};
           {| TXTStructure.indentation_line := 7; TXTStructure.indentation_level := 0 |} ];
       TXTStructure.sections :=
         [ {| TXTStructure.title := str "DOCUMENT TITLE";
              TXTStructure.section_level := 1;
              TXTStructure.start_line := 1;
              TXTStructure.section_content :=
                [ str "=============="; str "1. First item"; str "- second";
                  str "plain text" ] |} ] |}.
Proof. vm_compute. reflexivity. Qed.

Lemma list_match_markers_witness :
  str "First item" ≠ []
  ∧ (∃ before, str "  1. First item" = before ++ str "First item")
  ∧ ∃ c t, lstrip (str "  1. First item") = c :: t
           ∧ c ≠ 0x2022
           ∧ (if ascii_decimal c then TXTStructure.numbered = TXTStructure.numbered
              else TXTStructure.numbered = TXTStructure.bullet ∧ c ∈ [0xE2; 42; 45]).
Proof.
  apply (list_match_markers ascii_decimal (str "  1. First item")
           TXTStructure.numbered (str "First item")).
  - reflexivity.
  - vm_compute. reflexivity.
Defined.
